(** * Letterhead: the PDF preview component of [src/components/letterhead.tsx]

    A shallow embedding of the component's state, of its zoom handlers and
    of [handleFileChange], together with the properties claimed about them.

    JavaScript numbers are IEEE 754 binary64 values.  They are modelled by
    [spec_float] with precision 53 and maximal exponent 1024, the
    axiom-free specification of binary64 arithmetic of the standard
    library, so every arithmetic step below rounds as the browser does.
    Real numbers appear only in the statements of rounding-error bounds. *)

From Stdlib Require Import Reals Lra.
From Stdlib Require Import ZArith Bool List String Ascii Lia.
From Stdlib Require Import Decimal DecimalFacts DecimalString DecimalN.
From Stdlib Require Import Floats.SpecFloat Floats.PrimFloat Floats.FloatOps.
Import ListNotations.

Local Open Scope Z_scope.

(** ** JavaScript numbers *)

Module JS.

Definition number := spec_float.

Definition prec : Z := 53.
Definition emax : Z := 1024.

Definition NaN : number := S754_nan.
Definition add : number -> number -> number := SFadd prec emax.
Definition sub : number -> number -> number := SFsub prec emax.
Definition mul : number -> number -> number := SFmul prec emax.
Definition div : number -> number -> number := SFdiv prec emax.
Definition ltb : number -> number -> bool := SFltb.
Definition leb : number -> number -> bool := SFleb.

(** The number nearest to the rational [n / d] (ties to even), with sign
    [neg]; [n] and [d] are of any size.  This is how a decimal literal of
    the source text, or a decimal string given to [Number], becomes a
    number. *)
Definition of_ratio (neg : bool) (n d : Z) : number :=
  let '(q, e, l) := SFdiv_core_binary prec emax n 0 d 0 in
  binary_round_aux prec emax neg q e l.

(** The literal [n / 10^k], for instance [decimal 18 1] for [1.8]. *)
Definition decimal (n : Z) (k : nat) : number :=
  of_ratio false n (10 ^ Z.of_nat k).

(** An integer of the DOM (a [long]) read as a number. *)
Definition of_Z (z : Z) : number :=
  binary_normalize prec emax z 0 false.

Definition is_nan (x : number) : bool :=
  match x with S754_nan => true | _ => false end.

Definition is_pos_zero (x : number) : bool :=
  match x with S754_zero false => true | _ => false end.

Definition is_neg_zero (x : number) : bool :=
  match x with S754_zero true => true | _ => false end.

(** *** [Math.max] and [Math.min] (ECMA-262, 21.3.2.24 and 21.3.2.25) *)

Fixpoint max_loop (highest : number) (coerced : list number) : number :=
  match coerced with
  | [] => highest
  | n :: rest =>
      if is_nan n then NaN
      else
        let highest :=
          if is_pos_zero n && is_neg_zero highest then S754_zero false
          else highest in
        let highest := if ltb highest n then n else highest in
        max_loop highest rest
  end.

Definition Math_max (args : list number) : number :=
  max_loop (S754_infinity true) args.

Fixpoint min_loop (lowest : number) (coerced : list number) : number :=
  match coerced with
  | [] => lowest
  | n :: rest =>
      if is_nan n then NaN
      else
        let lowest :=
          if is_neg_zero n && is_pos_zero lowest then S754_zero true
          else lowest in
        let lowest := if ltb n lowest then n else lowest in
        min_loop lowest rest
  end.

Definition Math_min (args : list number) : number :=
  min_loop (S754_infinity false) args.

(** *** Strings of numbers

    [toFixed] writes a decimal string and [Number] reads it back.  The
    decimal strings are modelled character by character.  Where ECMA-262
    makes [toFixed] hand over to [Number::toString] (a value that is not
    finite, or one of magnitude at least 10^21), the string is kept
    symbolic as [NumberToString x]: reading it back gives [x], by the
    round-trip guarantee of [Number::toString] (ECMA-262, 6.1.6.1.20,
    note 2). *)

Inductive JSString : Type :=
  | Lit (s : string)
  | NumberToString (x : number).

(** [nearest_scaled m e f] is the integer [n] for which [n / 10^f] is as
    close as possible to [m * 2^e]; of two such integers the larger one
    (step 10.a of [Number.prototype.toFixed]). *)
Definition nearest_scaled (m : positive) (e : Z) (f : nat) : Z :=
  let p := 10 ^ Z.of_nat f in
  if 0 <=? e then Zpos m * 2 ^ e * p
  else (2 * (Zpos m * p) + 2 ^ (- e)) / (2 * 2 ^ (- e)).

(** [10^21 <= m * 2^e] *)
Definition at_least_1e21 (m : positive) (e : Z) : bool :=
  if 0 <=? e then 10 ^ 21 <=? Zpos m * 2 ^ e
  else 10 ^ 21 * 2 ^ (- e) <=? Zpos m.

(** The digits of [n] with a point before the last [f] of them, padded
    with zeros on the left up to [f + 1] digits (steps 10.b to 10.d). *)
Definition fixed_digits (n : Z) (f : nat) : string :=
  let m := N.to_uint (Z.to_N n) in
  if Nat.eqb f 0 then NilEmpty.string_of_uint m
  else
    let k := nb_digits m in
    let m := if Nat.leb k f then Nat.iter (f + 1 - k) D0 m else m in
    let k := nb_digits m in
    let a := del_tail f m in
    let b := del_head (k - f) m in
    (NilEmpty.string_of_uint a ++ "." ++ NilEmpty.string_of_uint b)%string.

(** [x.toFixed(fractionDigits)], for [fractionDigits] from 0 to 100. *)
Definition toFixed (x : number) (fractionDigits : nat) : JSString :=
  match x with
  | S754_nan | S754_infinity _ => NumberToString x
  | S754_zero _ => Lit (fixed_digits 0 fractionDigits)
  | S754_finite s m e =>
      if at_least_1e21 m e then NumberToString x
      else
        let n := nearest_scaled m e fractionDigits in
        Lit ((if s then "-" else EmptyString) ++ fixed_digits n fractionDigits)
  end.

(** Splits a string at its first point. *)
Fixpoint split_point (s : string) : string * option string :=
  match s with
  | EmptyString => (EmptyString, None)
  | String c rest =>
      if Ascii.eqb c "." then (EmptyString, Some rest)
      else let '(a, b) := split_point rest in (String c a, b)
  end.

Definition unsigned_decimal (neg : bool) (body : string) : number :=
  if String.eqb body "Infinity" then S754_infinity neg
  else
    let '(a, ob) := split_point body in
    let b := match ob with Some b => b | None => EmptyString end in
    match NilEmpty.uint_of_string a, NilEmpty.uint_of_string b with
    | Some da, Some db =>
        match Decimal.app da db with
        | Nil => NaN
        | digits =>
            of_ratio neg (Z.of_N (N.of_uint digits))
                     (10 ^ Z.of_nat (nb_digits db))
        end
    | _, _ => NaN
    end.

(** [Number(str)] on the strings that [toFixed] writes: an optional sign,
    digits, and an optional point followed by digits ([StrDecimalLiteral]
    without exponent part), or [Infinity].  The empty string is 0.  No
    other form of numeric string (white space, exponents, other radixes)
    is recognised here: they give [NaN]. *)
Definition Number (str : JSString) : number :=
  match str with
  | NumberToString (S754_zero true) => S754_zero false
  | NumberToString x => x
  | Lit EmptyString => S754_zero false
  | Lit (String c rest as s) =>
      if Ascii.eqb c "-" then unsigned_decimal true rest
      else if Ascii.eqb c "+" then unsigned_decimal false rest
      else unsigned_decimal false s
  end.

(** *** [Math.round] (ECMA-262, 21.3.2.28)

    The integral number nearest to [x], and of two that are equally near
    the one closer to +infinity; a negative [x] that rounds to zero gives
    -0.  For [x = v / d] this is the floor of [v / d + 1 / 2]. *)
Definition Math_round (x : number) : number :=
  match x with
  | S754_finite s m e =>
      if 0 <=? e then x
      else
        let d := 2 ^ (- e) in
        let v := if s then - Zpos m else Zpos m in
        let n := (2 * v + d) / (2 * d) in
        if n =? 0 then S754_zero s else of_Z n
  | _ => x
  end.

(** *** [Number::toString] in radix 10 (ECMA-262, 6.1.6.1.20)

    An integer below 2^53 in magnitude is written with all its digits.
    Any other finite number is written with the shortest digits that read
    back as the number; that string is kept symbolic. *)
Definition Number_toString (x : number) : JSString :=
  match x with
  | S754_nan => Lit "NaN"
  | S754_infinity s => Lit (if s then "-Infinity" else "Infinity")
  | S754_zero _ => Lit "0"
  | S754_finite s m e =>
      let integral := (0 <=? e) || (Zpos m mod 2 ^ (- e) =? 0) in
      let n := if 0 <=? e then Zpos m * 2 ^ e else Zpos m / 2 ^ (- e) in
      if integral && (n <? 2 ^ 53) then
        Lit ((if s then "-" else EmptyString) ++
             NilEmpty.string_of_uint (N.to_uint (Z.to_N n)))
      else NumberToString x
  end.

(** A template literal, by its pieces once the expressions in it are
    converted to strings. *)
Definition Template : Type := list JSString.

End JS.

Import JS.

(** ** Values of the browser and of the PDF library

    Everything [handleFileChange] obtains from outside the component (the
    selected file, the PDF library, the canvas) is data of the model: each
    call that may fail carries its outcome, a value or the thrown value. *)

(** A thrown value: an instance of [Error] with its [message], or any
    other value. *)
Inductive Thrown : Type :=
  | Error (message : string)
  | NotAnError.

Inductive Completion (A : Type) : Type :=
  | Normal (a : A)
  | Throw (e : Thrown).
Arguments Normal {A} a.
Arguments Throw {A} e.

(** A promise, given by the way it settles. *)
Definition Promise (A : Type) : Type := Completion A.

Definition ArrayBuffer : Type := list Z.
Definition Pixels : Type := list Z.

Record PageViewport : Type := {
  width : number;
  height : number
}.

Record HTMLCanvasElement : Type := {
  canvas_width : Z;
  canvas_height : Z;
  canvas_pixels : Pixels
}.

Record RenderParameters : Type := {
  canvasContext : HTMLCanvasElement;
  viewport : PageViewport
}.

Record PDFPageProxy : Type := {
  getViewport : number -> Completion PageViewport;
  (** what [render(...).promise] paints once fulfilled *)
  render : RenderParameters -> Promise Pixels
}.

Record PDFDocumentProxy : Type := {
  numPages : Z;
  getPage : Z -> Promise PDFPageProxy
}.

Record PdfjsLib : Type := {
  (** [getDocument({ data }).promise] *)
  getDocument : ArrayBuffer -> Promise PDFDocumentProxy
}.

Record File : Type := {
  name : string;
  type : string;
  arrayBuffer : Promise ArrayBuffer
}.

(** [event.target.files]: a [FileList] or [null]. *)
Record ChangeEvent : Type := {
  files : option (list File)
}.

Record Browser : Type := {
  (** the memoised [import("pdfjs-dist/legacy/build/pdf")] *)
  loadPdfjs : Promise PdfjsLib;
  (** [previewContainerRef.current], by its [clientWidth] *)
  previewContainer : option Z;
  (** whether [canvas.getContext("2d", ...)] gives a context *)
  getContext : bool;
  (** [canvas.toDataURL("image/jpeg", 1.0)] *)
  toDataURL : HTMLCanvasElement -> Completion string
}.

(** *** Canvas dimensions

    [canvas.width = v] converts [v] to an [unsigned long] (Web IDL:
    truncation towards zero, modulo 2^32); the attribute reflects it when
    it is at most 2^31 - 1 and falls back to its default otherwise. *)

Definition truncate (x : number) : Z :=
  match x with
  | S754_finite s m e =>
      let a := if 0 <=? e then Zpos m * 2 ^ e else Zpos m / 2 ^ (- e) in
      if s then - a else a
  | _ => 0
  end.

Definition ToUint32 (x : number) : Z := truncate x mod 2 ^ 32.

Definition canvas_dimension (default : Z) (v : number) : Z :=
  let u := ToUint32 v in
  if u <=? 2 ^ 31 - 1 then u else default.

(** ** The component state *)

Record State : Type := {
  renderedImage : option string;
  pdfName : option string;
  isRendering : bool;
  renderError : option string;
  pageCount : option Z;
  zoomLevel : number
}.

(** The [useState] initial values. *)
Definition initialState : State := {|
  renderedImage := None;
  pdfName := None;
  isRendering := false;
  renderError := None;
  pageCount := None;
  zoomLevel := decimal 10 1
|}.

Definition hasPreview (st : State) : bool :=
  match renderedImage st with
  | Some EmptyString | None => false
  | Some _ => true
  end.

Definition setRenderedImage (v : option string) (st : State) : State :=
  {| renderedImage := v; pdfName := pdfName st; isRendering := isRendering st;
     renderError := renderError st; pageCount := pageCount st;
     zoomLevel := zoomLevel st |}.

Definition setPdfName (v : option string) (st : State) : State :=
  {| renderedImage := renderedImage st; pdfName := v;
     isRendering := isRendering st; renderError := renderError st;
     pageCount := pageCount st; zoomLevel := zoomLevel st |}.

Definition setIsRendering (v : bool) (st : State) : State :=
  {| renderedImage := renderedImage st; pdfName := pdfName st;
     isRendering := v; renderError := renderError st;
     pageCount := pageCount st; zoomLevel := zoomLevel st |}.

Definition setRenderError (v : option string) (st : State) : State :=
  {| renderedImage := renderedImage st; pdfName := pdfName st;
     isRendering := isRendering st; renderError := v;
     pageCount := pageCount st; zoomLevel := zoomLevel st |}.

Definition setPageCount (v : option Z) (st : State) : State :=
  {| renderedImage := renderedImage st; pdfName := pdfName st;
     isRendering := isRendering st; renderError := renderError st;
     pageCount := v; zoomLevel := zoomLevel st |}.

(** [setZoomLevel] with an updater function; [setZoomLevel(1.0)] is the
    constant updater. *)
Definition setZoomLevel (f : number -> number) (st : State) : State :=
  {| renderedImage := renderedImage st; pdfName := pdfName st;
     isRendering := isRendering st; renderError := renderError st;
     pageCount := pageCount st; zoomLevel := f (zoomLevel st) |}.

(** ** The zoom handlers *)

Definition zoomOut (value : number) : number :=
  let next := Math_max [decimal 8 1; sub value (decimal 1 1)] in
  Number (toFixed next 2).

Definition zoomIn (value : number) : number :=
  let next := Math_min [decimal 18 1; add value (decimal 1 1)] in
  Number (toFixed next 2).

Definition handleZoomOut (st : State) : State := setZoomLevel zoomOut st.

Definition handleZoomIn (st : State) : State := setZoomLevel zoomIn st.

Definition handleZoomReset (st : State) : State :=
  setZoomLevel (fun _ => decimal 10 1) st.

(** ** Asynchronous handlers

    An [async] function runs on the component state, may throw, and
    suspends at each [await].  A run records the state at every
    suspension (what the component shows while the promise is pending),
    the state when the function is done, and how it completed. *)

Record Run (A : Type) : Type := {
  suspended : list State;
  final : State;
  completion : Completion A
}.
Arguments suspended {A} r.
Arguments final {A} r.
Arguments completion {A} r.

Definition Async (A : Type) : Type := State -> Run A.

Definition ret {A} (a : A) : Async A :=
  fun st => {| suspended := []; final := st; completion := Normal a |}.

Definition throw {A} (e : Thrown) : Async A :=
  fun st => {| suspended := []; final := st; completion := Throw e |}.

Definition bind {A B} (m : Async A) (k : A -> Async B) : Async B :=
  fun st =>
    let r := m st in
    match completion r with
    | Normal a =>
        let r' := k a (final r) in
        {| suspended := suspended r ++ suspended r';
           final := final r';
           completion := completion r' |}
    | Throw e =>
        {| suspended := suspended r; final := final r; completion := Throw e |}
    end.

(** A call into the browser or the library that returns or throws. *)
Definition call {A} (c : Completion A) : Async A :=
  fun st => {| suspended := []; final := st; completion := c |}.

(** [await p]: the function suspends in the current state and resumes
    with the value of [p], or throws what [p] was rejected with. *)
Definition await {A} (p : Promise A) : Async A :=
  fun st => {| suspended := [st]; final := st; completion := p |}.

(** A state setter of the component. *)
Definition set (f : State -> State) : Async unit :=
  fun st => {| suspended := []; final := f st; completion := Normal tt |}.

(** [try { body } catch (error) { handler } finally { finalizer }] *)
Definition try_catch_finally {A} (body : Async A) (handler : Thrown -> Async A)
    (finalizer : Async unit) : Async A :=
  fun st =>
    let r := body st in
    let r1 :=
      match completion r with
      | Normal _ => r
      | Throw e =>
          let h := handler e (final r) in
          {| suspended := suspended r ++ suspended h;
             final := final h;
             completion := completion h |}
      end in
    let f := finalizer (final r1) in
    {| suspended := suspended r1 ++ suspended f;
       final := final f;
       completion :=
         match completion f with
         | Normal _ => completion r1
         | Throw e => Throw e
         end |}.

Declare Scope async_scope.
Delimit Scope async_scope with async.
Notation "x <- m ;; k" := (bind m (fun x => k))
  (at level 61, m at next level, right associativity) : async_scope.
Notation "m ;; k" := (bind m (fun _ => k))
  (at level 61, right associativity) : async_scope.
Local Open Scope async_scope.

(** ** [handleFileChange] *)

Definition pdf_mime : string := "application/pdf"%string.

(** The [try] block of [handleFileChange]: read the file, open the
    document, render page one at four times the scale that fits the
    preview container, and store the encoded bitmap. *)
Definition renderPipeline (browser : Browser) (file : File) : Async unit :=
  arrayBuffer <- await (arrayBuffer file) ;;
  pdfjsLib <- await (loadPdfjs browser) ;;
  pdf <- await (getDocument pdfjsLib arrayBuffer) ;;
  set (setPageCount (Some (numPages pdf))) ;;
  page <- await (getPage pdf 1) ;;
  unscaledViewport <- call (getViewport page (decimal 1 0)) ;;
  let container := previewContainer browser in
  let containerWidth :=
    match container with
    | Some clientWidth => of_Z clientWidth
    | None => width unscaledViewport
    end in
  let targetScale := div containerWidth (width unscaledViewport) in
  let renderScale := mul targetScale (decimal 4 0) in
  scaledViewport <- call (getViewport page renderScale) ;;
  (if getContext browser then ret tt
   else throw (Error "Unable to create canvas context for preview."%string)) ;;
  let canvas :=
    {| canvas_width := canvas_dimension 300 (width scaledViewport);
       canvas_height := canvas_dimension 150 (height scaledViewport);
       canvas_pixels := [] |} in
  let renderContext :=
    {| canvasContext := canvas; viewport := scaledViewport |} in
  painted <- await (render page renderContext) ;;
  let canvas :=
    {| canvas_width := canvas_width canvas;
       canvas_height := canvas_height canvas;
       canvas_pixels := painted |} in
  dataUrl <- call (toDataURL browser canvas) ;;
  set (setRenderedImage (Some dataUrl)).

(** The message shown for a caught value. *)
Definition errorMessage (error : Thrown) : string :=
  match error with
  | Error message => message
  | NotAnError => "Something went wrong while rendering the PDF."%string
  end.

(** The [catch] block ([console.error] leaves the state alone). *)
Definition renderFailed (error : Thrown) : Async unit :=
  set (setRenderedImage None) ;;
  set (setPageCount None) ;;
  let message := errorMessage error in
  set (setRenderError (Some message)).

Definition selectedFile (event : ChangeEvent) : option File :=
  match files event with
  | Some l => nth_error l 0
  | None => None
  end.

Definition handleFileChange (browser : Browser) (event : ChangeEvent)
  : Async unit :=
  match selectedFile event with
  | None => ret tt
  | Some file =>
      if negb (String.eqb (type file) pdf_mime) then
        set (setRenderError (Some "Please select a PDF file."%string)) ;;
        set (setRenderedImage None) ;;
        set (setPdfName None) ;;
        set (setPageCount None) ;;
        ret tt
      else
        set (setPdfName (Some (name file))) ;;
        set (setZoomLevel (fun _ => decimal 10 1)) ;;
        set (setRenderError None) ;;
        set (setIsRendering true) ;;
        try_catch_finally
          (renderPipeline browser file)
          renderFailed
          (set (setIsRendering false))
  end.

(** ** The component as a transition system *)

Inductive Action : Type :=
  | ZoomOut
  | ZoomIn
  | ZoomReset
  | FileChange (browser : Browser) (event : ChangeEvent).

Definition step (st : State) (a : Action) : State :=
  match a with
  | ZoomOut => handleZoomOut st
  | ZoomIn => handleZoomIn st
  | ZoomReset => handleZoomReset st
  | FileChange browser event => final (handleFileChange browser event st)
  end.

Definition run (actions : list Action) (st : State) : State :=
  fold_left step actions st.

(** ** What the component renders

    The parts of the JSX that depend on the state: the [disabled]
    attributes of the four buttons, the label of the reset button, the
    preview (the image, or the placeholder paragraph), and the three
    paragraphs under it. *)

Definition instructions (st : State) : string :=
  match pdfName st with
  | None | Some EmptyString =>
      "Upload a single-page PDF to place it on the letterhead."%string
  | Some pdfName =>
      let single :=
        match pageCount st with
        | None => true
        | Some pageCount => (pageCount =? 0) || (pageCount <=? 1)
        end in
      if single then
        ("Ready to print " ++ pdfName ++
         ". Adjust the zoom if needed before printing.")%string
      else
        ("Showing the first page of " ++ pdfName ++
         ". Please upload a single-page PDF for best results. " ++
         "Adjust the zoom if needed before printing.")%string
  end.

Definition zoomLabel (st : State) : Template :=
  [Number_toString (Math_round (mul (zoomLevel st) (decimal 100 0)));
   Lit "%"].

(** The [div] with the [img] of the preview. *)
Record PreviewImage : Type := {
  styleWidth : Template;
  src : string;
  alt : string
}.

Record View : Type := {
  zoomOutDisabled : bool;
  zoomResetDisabled : bool;
  zoomResetText : Template;
  zoomInDisabled : bool;
  printDisabled : bool;
  (** [None] is the paragraph "Upload a single-page PDF to preview it
      here." *)
  preview : option PreviewImage;
  instructionsText : string;
  (** whether the paragraph "Rendering PDF..." is there *)
  renderingText : bool;
  (** the paragraph of the error message, when there is one *)
  errorText : option string
}.

Definition Letterhead (st : State) : View :=
  let hasPreview := hasPreview st in
  let zoomLevel := zoomLevel st in
  {| zoomOutDisabled := negb hasPreview || leb zoomLevel (decimal 8 1);
     zoomResetDisabled := negb hasPreview;
     zoomResetText := zoomLabel st;
     zoomInDisabled := negb hasPreview || leb (decimal 18 1) zoomLevel;
     printDisabled := negb hasPreview;
     preview :=
       match renderedImage st with
       | Some (String _ _ as renderedImage) =>
           Some {| styleWidth :=
                     [Number_toString (mul zoomLevel (decimal 100 0));
                      Lit "%"];
                   src := renderedImage;
                   alt := match pdfName st with
                          | Some pdfName => pdfName
                          | None => "Uploaded PDF preview"%string
                          end |}
       | _ => None
       end;
     instructionsText := instructions st;
     renderingText := isRendering st;
     errorText :=
       match renderError st with
       | Some (String _ _ as renderError) => Some renderError
       | _ => None
       end |}.

(** ** Memoised values

    [instructions] and [zoomLabel] are computed under [useMemo]: at a
    render, React calls the function again when one of the dependencies
    differs (by [Object.is]) from what it was at the render that
    computed the stored value, and gives the stored value otherwise. *)

Definition useMemo {D V : Type} (same : D -> D -> bool) (compute : unit -> V)
    (deps : D) (stored : option (D * V)) : V * option (D * V) :=
  match stored with
  | Some (deps', value) =>
      if same deps deps' then (value, stored)
      else let value := compute tt in (value, Some (deps, value))
  | None => let value := compute tt in (value, Some (deps, value))
  end.

(** [Object.is] on the values of the dependencies: a number or null, a
    string or null, a number. *)
Definition same_option {A} (same : A -> A -> bool) (x y : option A) : bool :=
  match x, y with
  | Some a, Some b => same a b
  | None, None => true
  | _, _ => false
  end.

Definition same_number (x y : number) : bool :=
  match x, y with
  | S754_zero s, S754_zero s' => Bool.eqb s s'
  | S754_infinity s, S754_infinity s' => Bool.eqb s s'
  | S754_nan, S754_nan => true
  | S754_finite s m e, S754_finite s' m' e' =>
      Bool.eqb s s' && Pos.eqb m m' && Z.eqb e e'
  | _, _ => false
  end.

(** What the two hooks have stored. *)
Record Memos : Type := {
  instructionsMemo : option ((option Z * option string) * string);
  zoomLabelMemo : option (number * Template)
}.

Definition noMemos : Memos :=
  {| instructionsMemo := None; zoomLabelMemo := None |}.

(** The two [useMemo] calls of a render in state [st]: the instructions
    and the zoom label that the render uses, and what is stored after
    it. *)
Definition renderMemos (st : State) (memos : Memos)
  : string * Template * Memos :=
  let '(instructions, m1) :=
    useMemo
      (fun '(count, name) '(count', name') =>
         same_option Z.eqb count count' && same_option String.eqb name name')
      (fun _ => instructions st)
      (pageCount st, pdfName st)
      (instructionsMemo memos) in
  let '(zoomLabel, m2) :=
    useMemo same_number (fun _ => zoomLabel st) (zoomLevel st)
      (zoomLabelMemo memos) in
  (instructions, zoomLabel,
   {| instructionsMemo := m1; zoomLabelMemo := m2 |}).

(** The instructions and the labels used by successive renders, in the
    states [renders]. *)
Fixpoint rendered_texts (renders : list State) (memos : Memos)
  : list (string * Template) :=
  match renders with
  | [] => []
  | st :: rest =>
      let '(instructions, zoomLabel, memos) := renderMemos st memos in
      (instructions, zoomLabel) :: rendered_texts rest memos
  end.

(** ** [loadPdfjs]

    The module [pdfjs-dist/legacy/build/pdf] as the component uses it: its
    [GlobalWorkerOptions] and the library functions, which are the
    [pdfjsLib] of [handleFileChange]. *)

Definition PDF_WORKER_SRC : string := "/pdf.worker.min.mjs"%string.

Record WorkerOptions : Type := {
  workerSrc : option string;
  workerType : option string
}.

Record PdfjsModule : Type := {
  GlobalWorkerOptions : WorkerOptions;
  library : PdfjsLib
}.

Definition setWorkerSrc (v : string) (pdfjsLib : PdfjsModule) : PdfjsModule :=
  {| GlobalWorkerOptions :=
       {| workerSrc := Some v;
          workerType := workerType (GlobalWorkerOptions pdfjsLib) |};
     library := library pdfjsLib |}.

Definition setWorkerType (v : string) (pdfjsLib : PdfjsModule) : PdfjsModule :=
  {| GlobalWorkerOptions :=
       {| workerSrc := workerSrc (GlobalWorkerOptions pdfjsLib);
          workerType := Some v |};
     library := library pdfjsLib |}.

(** [p.then(onFulfilled)]: settles as [onFulfilled] completes on the value
    of [p]; rejected as [p] is when [p] is rejected. *)
Definition then_ {A B} (p : Promise A) (onFulfilled : A -> Completion B)
  : Promise B :=
  match p with
  | Normal a => onFulfilled a
  | Throw e => Throw e
  end.

Module Loader.

(** [loadPdfjs()], on the value of the module variable [cachedPdfjs];
    [dynamicImport] is the promise that
    [import("pdfjs-dist/legacy/build/pdf")] gives if it is evaluated in
    this call.  The result is the promise returned and the value of the
    variable after the call. *)
Definition loadPdfjs (dynamicImport : Promise PdfjsModule)
    (cachedPdfjs : option (Promise PdfjsModule))
  : Promise PdfjsModule * option (Promise PdfjsModule) :=
  match cachedPdfjs with
  | None =>
      let promise :=
        then_ dynamicImport (fun pdfjsLib =>
          let pdfjsLib := setWorkerSrc PDF_WORKER_SRC pdfjsLib in
          let pdfjsLib := setWorkerType "module" pdfjsLib in
          Normal pdfjsLib) in
      (promise, Some promise)
  | Some promise => (promise, cachedPdfjs)
  end.

End Loader.

(** ** A session: the component and the module variable

    [handleFileChange] above takes what [await loadPdfjs()] gives from the
    [Browser].  In a session this is the promise of [loadPdfjs()] on the
    module variable, which outlives the runs of the handler.  Uploads of
    a session run one after the other. *)

Record Environment : Type := {
  (** how [import("pdfjs-dist/legacy/build/pdf")] settles if evaluated *)
  dynamicImport : Promise PdfjsModule;
  container : option Z;
  context2d : bool;
  encode : HTMLCanvasElement -> Completion string
}.

Record Session : Type := {
  component : State;
  cachedPdfjs : option (Promise PdfjsModule)
}.

Definition initialSession : Session :=
  {| component := initialState; cachedPdfjs := None |}.

(** Whether [handleFileChange] gets to the call [loadPdfjs()]: a file is
    selected, it is a PDF and its bytes were read. *)
Definition reachesLoadPdfjs (event : ChangeEvent) : bool :=
  match selectedFile event with
  | Some file =>
      String.eqb (type file) pdf_mime &&
      match arrayBuffer file with
      | Normal _ => true
      | Throw _ => false
      end
  | None => false
  end.

Definition browserOf (env : Environment) (promise : Promise PdfjsModule)
  : Browser :=
  {| loadPdfjs := then_ promise (fun pdfjsLib => Normal (library pdfjsLib));
     previewContainer := container env;
     getContext := context2d env;
     toDataURL := encode env |}.

Definition upload (env : Environment) (event : ChangeEvent) (s : Session)
  : Session :=
  let '(promise, cache) :=
    Loader.loadPdfjs (dynamicImport env) (cachedPdfjs s) in
  {| component :=
       final (handleFileChange (browserOf env promise) event (component s));
     cachedPdfjs := if reachesLoadPdfjs event then cache else cachedPdfjs s |}.

Definition uploads (l : list (Environment * ChangeEvent)) (s : Session)
  : Session :=
  fold_left (fun s '(env, event) => upload env event s) l s.

(** ** Handlers that overlap

    A run of [handleFileChange] read as a task of the event loop: the
    state setters it calls and the points at which it suspends.  Between
    two suspensions a task runs without interruption; while it is
    suspended, other handlers run.  The definitions below are those of
    [handleFileChange] above, over tasks. *)

Module Concurrent.

Inductive Task (A : Type) : Type :=
  | Return (a : A)
  | Raise (e : Thrown)
  | Update (f : State -> State) (k : Task A)
  | Suspend (k : Task A).
Arguments Return {A} a.
Arguments Raise {A} e.
Arguments Update {A} f k.
Arguments Suspend {A} k.

Definition ret {A} (a : A) : Task A := Return a.

Definition throw {A} (e : Thrown) : Task A := Raise e.

Fixpoint bind {A B} (m : Task A) (k : A -> Task B) : Task B :=
  match m with
  | Return a => k a
  | Raise e => Raise e
  | Update f m => Update f (bind m k)
  | Suspend m => Suspend (bind m k)
  end.

Definition call {A} (c : Completion A) : Task A :=
  match c with
  | Normal a => Return a
  | Throw e => Raise e
  end.

(** [await p]: the task suspends, and resumes with the value of [p] or
    throws what [p] was rejected with. *)
Definition await {A} (p : Promise A) : Task A := Suspend (call p).

Definition set (f : State -> State) : Task unit := Update f (Return tt).

Fixpoint try_catch {A} (body : Task A) (handler : Thrown -> Task A)
  : Task A :=
  match body with
  | Return a => Return a
  | Raise e => handler e
  | Update f k => Update f (try_catch k handler)
  | Suspend k => Suspend (try_catch k handler)
  end.

Fixpoint try_finally {A} (body : Task A) (finalizer : Task unit) : Task A :=
  match body with
  | Return a => bind finalizer (fun _ => Return a)
  | Raise e => bind finalizer (fun _ => Raise e)
  | Update f k => Update f (try_finally k finalizer)
  | Suspend k => Suspend (try_finally k finalizer)
  end.

Definition try_catch_finally {A} (body : Task A) (handler : Thrown -> Task A)
    (finalizer : Task unit) : Task A :=
  try_finally (try_catch body handler) finalizer.

Declare Scope task_scope.
Delimit Scope task_scope with task.
Notation "x <- m ;; k" := (bind m (fun x => k))
  (at level 61, m at next level, right associativity) : task_scope.
Notation "m ;; k" := (bind m (fun _ => k))
  (at level 61, right associativity) : task_scope.
Local Open Scope task_scope.

Definition renderPipeline (browser : Browser) (file : File) : Task unit :=
  arrayBuffer <- await (arrayBuffer file) ;;
  pdfjsLib <- await (loadPdfjs browser) ;;
  pdf <- await (getDocument pdfjsLib arrayBuffer) ;;
  set (setPageCount (Some (numPages pdf))) ;;
  page <- await (getPage pdf 1) ;;
  unscaledViewport <- call (getViewport page (decimal 1 0)) ;;
  let container := previewContainer browser in
  let containerWidth :=
    match container with
    | Some clientWidth => of_Z clientWidth
    | None => width unscaledViewport
    end in
  let targetScale := div containerWidth (width unscaledViewport) in
  let renderScale := mul targetScale (decimal 4 0) in
  scaledViewport <- call (getViewport page renderScale) ;;
  (if getContext browser then ret tt
   else throw (Error "Unable to create canvas context for preview."%string)) ;;
  let canvas :=
    {| canvas_width := canvas_dimension 300 (width scaledViewport);
       canvas_height := canvas_dimension 150 (height scaledViewport);
       canvas_pixels := [] |} in
  let renderContext :=
    {| canvasContext := canvas; viewport := scaledViewport |} in
  painted <- await (render page renderContext) ;;
  let canvas :=
    {| canvas_width := canvas_width canvas;
       canvas_height := canvas_height canvas;
       canvas_pixels := painted |} in
  dataUrl <- call (toDataURL browser canvas) ;;
  set (setRenderedImage (Some dataUrl)).

Definition renderFailed (error : Thrown) : Task unit :=
  set (setRenderedImage None) ;;
  set (setPageCount None) ;;
  let message := errorMessage error in
  set (setRenderError (Some message)).

Definition handleFileChange (browser : Browser) (event : ChangeEvent)
  : Task unit :=
  match selectedFile event with
  | None => ret tt
  | Some file =>
      if negb (String.eqb (type file) pdf_mime) then
        set (setRenderError (Some "Please select a PDF file."%string)) ;;
        set (setRenderedImage None) ;;
        set (setPdfName None) ;;
        set (setPageCount None) ;;
        ret tt
      else
        set (setPdfName (Some (name file))) ;;
        set (setZoomLevel (fun _ => decimal 10 1)) ;;
        set (setRenderError None) ;;
        set (setIsRendering true) ;;
        try_catch_finally
          (renderPipeline browser file)
          renderFailed
          (set (setIsRendering false))
  end.

(** A task run on its own, as an asynchronous handler of the component. *)
Fixpoint alone {A} (t : Task A) : Async A :=
  fun st =>
    match t with
    | Return a => {| suspended := []; final := st; completion := Normal a |}
    | Raise e => {| suspended := []; final := st; completion := Throw e |}
    | Update f k => alone k (f st)
    | Suspend k =>
        let r := alone k st in
        {| suspended := st :: suspended r;
           final := final r;
           completion := completion r |}
    end.

(** *** The event loop

    The page is the state of the component and the handlers that are
    suspended, oldest first.  A task runs up to its next suspension. *)

Record Page : Type := {
  state : State;
  pending : list (Task unit)
}.

Fixpoint advance (t : Task unit) (st : State) : State * option (Task unit) :=
  match t with
  | Return _ | Raise _ => (st, None)
  | Update f k => advance k (f st)
  | Suspend k => (st, Some k)
  end.

(** The three zoom buttons and their [onClick] handlers. *)
Inductive Button : Type :=
  | ZoomOutButton
  | ZoomResetButton
  | ZoomInButton.

Definition onClick (button : Button) : State -> State :=
  match button with
  | ZoomOutButton => handleZoomOut
  | ZoomResetButton => handleZoomReset
  | ZoomInButton => handleZoomIn
  end.

(** What happens on the page.  A click runs the handler of the button
    whether or not the button is shown disabled, so every course of
    events of the page is one of the loop. *)
Inductive Event : Type :=
  (** the change event of the file input: [handleFileChange] starts *)
  | Change (browser : Browser) (event : ChangeEvent)
  (** a click on a zoom button *)
  | Click (button : Button)
  (** the promise awaited by the [i]-th suspended handler settles *)
  | Settle (i : nat).

Definition resume (i : nat) (p : Page) : Page :=
  match nth_error (pending p) i with
  | None => p
  | Some t =>
      let '(st, rest) := advance t (state p) in
      {| state := st;
         pending :=
           firstn i (pending p) ++
           match rest with
           | Some k => [k]
           | None => []
           end ++ skipn (S i) (pending p) |}
  end.

Definition dispatch (p : Page) (e : Event) : Page :=
  match e with
  | Change browser event =>
      let '(st, rest) := advance (handleFileChange browser event) (state p) in
      {| state := st;
         pending := pending p ++ match rest with
                                 | Some k => [k]
                                 | None => []
                                 end |}
  | Click button =>
      {| state := onClick button (state p); pending := pending p |}
  | Settle i => resume i p
  end.

Definition loop (events : list Event) (p : Page) : Page :=
  fold_left dispatch events p.

End Concurrent.

(** * Vocabulary of the properties *)

(** ** Zoom levels *)

Definition number_eqb (x y : number) : bool :=
  match x, y with
  | S754_zero s, S754_zero s' => Bool.eqb s s'
  | S754_infinity s, S754_infinity s' => Bool.eqb s s'
  | S754_nan, S754_nan => true
  | S754_finite s m e, S754_finite s' m' e' =>
      Bool.eqb s s' && Pos.eqb m m' && Z.eqb e e'
  | _, _ => false
  end.

(** The eleven zoom levels 0.80, 0.90, ..., 1.80. *)
Definition zoomStep (i : nat) : number := decimal (80 + 10 * Z.of_nat i) 2.

Definition zoomLevels : list number := map zoomStep (seq 0 11).

Definition isZoomLevel (z : number) : bool :=
  existsb (number_eqb z) zoomLevels.

(** ** Rounding to decimals *)

(** The exact value of a finite number [m * 2^e] as a fraction. *)
Definition numerator (m : positive) (e : Z) : Z := Zpos m * 2 ^ Z.max 0 e.
Definition denominator (e : Z) : Z := 2 ^ Z.max 0 (- e).

(** [n / 10^f] is the decimal with [f] fraction digits nearest to
    [m * 2^e], and the larger one if two are equally near.  Distances are
    multiplied by [10^f * denominator e]. *)
Definition nearest_decimal (m : positive) (e : Z) (f : nat) (n : Z) : Prop :=
  let distance k :=
    Z.abs (k * denominator e - numerator m e * 10 ^ Z.of_nat f) in
  forall k, distance n <= distance k /\ (distance k = distance n -> k <= n).

(** [y] is [x] rounded to [f] decimals: the number nearest to the nearest
    decimal with [f] fraction digits, of the sign of [x].  Zeros give +0.
    A number that is not finite, or of magnitude 10^21 or more (where
    every number is an integer), is left as it is. *)
Inductive rounded_to_decimals (f : nat) : number -> number -> Prop :=
  | rounded_finite s m e n :
      at_least_1e21 m e = false ->
      nearest_decimal m e f n ->
      rounded_to_decimals f (S754_finite s m e)
                          (of_ratio s n (10 ^ Z.of_nat f))
  | rounded_zero s :
      rounded_to_decimals f (S754_zero s) (S754_zero false)
  | rounded_large s m e :
      at_least_1e21 m e = true ->
      rounded_to_decimals f (S754_finite s m e) (S754_finite s m e)
  | rounded_infinity s :
      rounded_to_decimals f (S754_infinity s) (S754_infinity s)
  | rounded_nan :
      rounded_to_decimals f S754_nan S754_nan.

(** The digits that [fixed_digits] cuts at the point. *)
Definition padded (n : Z) (f : nat) : Decimal.uint :=
  let m := N.to_uint (Z.to_N n) in
  if Nat.leb (nb_digits m) f then Nat.iter (f + 1 - nb_digits m) D0 m else m.

(** ** Numbers as real numbers

    [F2R m e] is the real number [m * 2^e]; [eps] is the distance from 1
    to the next number, the bound on the relative rounding error used
    below; a mantissa is [normal] when it has 53 bits. *)

Definition F2R (m e : Z) : R := (IZR m * powerRZ 2 e)%R.

Definition eps : R := powerRZ 2 (-52).

Definition normal (m : positive) : Prop := 2 ^ 52 <= Zpos m < 2 ^ 53.

(** ** The outcomes of the rendering pipeline *)

(** The scale at which page one is rendered and the canvas it is rendered
    into, as [renderPipeline] computes them from the unscaled viewport. *)
Definition renderScaleOf (browser : Browser) (unscaledViewport : PageViewport)
  : number :=
  let containerWidth :=
    match previewContainer browser with
    | Some clientWidth => of_Z clientWidth
    | None => width unscaledViewport
    end in
  mul (div containerWidth (width unscaledViewport)) (decimal 4 0).

Definition canvasOf (scaledViewport : PageViewport) (pixels : Pixels)
  : HTMLCanvasElement :=
  {| canvas_width := canvas_dimension 300 (width scaledViewport);
     canvas_height := canvas_dimension 150 (height scaledViewport);
     canvas_pixels := pixels |}.

(** Every step of the pipeline went through: the document [pdf] was
    opened and the bitmap of its first page was encoded as [dataUrl]. *)
Inductive Rendered (browser : Browser) (file : File)
    (pdf : PDFDocumentProxy) (canvas : HTMLCanvasElement) (dataUrl : string)
  : Prop :=
  | rendered buf lib page unscaledViewport scaledViewport painted :
      arrayBuffer file = Normal buf ->
      loadPdfjs browser = Normal lib ->
      getDocument lib buf = Normal pdf ->
      getPage pdf 1 = Normal page ->
      getViewport page (decimal 1 0) = Normal unscaledViewport ->
      getViewport page (renderScaleOf browser unscaledViewport)
        = Normal scaledViewport ->
      getContext browser = true ->
      render page {| canvasContext := canvasOf scaledViewport [];
                     viewport := scaledViewport |} = Normal painted ->
      canvas = canvasOf scaledViewport painted ->
      toDataURL browser canvas = Normal dataUrl ->
      Rendered browser file pdf canvas dataUrl.

(** What a run of [renderPipeline] from [st] looks like. *)
Inductive PipelineRun (browser : Browser) (file : File) (st : State)
  : Run unit -> Prop :=
  | pipeline_rendered pdf canvas dataUrl :
      Rendered browser file pdf canvas dataUrl ->
      let st1 := setPageCount (Some (numPages pdf)) st in
      PipelineRun browser file st
        {| suspended := [st; st; st; st1; st1];
           final := setRenderedImage (Some dataUrl) st1;
           completion := Normal tt |}
  | pipeline_failed_early e susp :
      hd_error susp = Some st ->
      Forall (fun s => s = st) susp ->
      PipelineRun browser file st
        {| suspended := susp; final := st; completion := Throw e |}
  | pipeline_failed_late e pdf susp :
      hd_error susp = Some st ->
      let st1 := setPageCount (Some (numPages pdf)) st in
      Forall (fun s => s = st \/ s = st1) susp ->
      PipelineRun browser file st
        {| suspended := susp; final := st1; completion := Throw e |}.

(** ** The three ways through [handleFileChange] *)

(** The state in which the pipeline starts for an accepted file. *)
Definition accepted (file : File) (st : State) : State :=
  setIsRendering true
    (setRenderError None
       (setZoomLevel (fun _ => decimal 10 1)
          (setPdfName (Some (name file)) st))).

(** The state in which a rejected selection leaves the component. *)
Definition rejected (st : State) : State :=
  setPageCount None
    (setPdfName None
       (setRenderedImage None
          (setRenderError (Some "Please select a PDF file."%string) st))).

(** The state after the [catch] and [finally] blocks. *)
Definition failed (e : Thrown) (st : State) : State :=
  setIsRendering false
    (setRenderError (Some (errorMessage e))
       (setPageCount None (setRenderedImage None st))).

(** ** The contract of the PDF library *)

(** [getPage(n)] of pdf.js rejects with "Invalid page request." unless
    [1 <= n <= numPages]. *)
Definition PdfjsContract (browser : Browser) : Prop :=
  forall lib data pdf n page,
    loadPdfjs browser = Normal lib ->
    getDocument lib data = Normal pdf ->
    getPage pdf n = Normal page ->
    1 <= n <= numPages pdf.

(** Page one of [pdf] has native width [w]: its viewport at scale 1 has
    width [w] and its viewport at scale [s] has width [w * s] (pdf.js
    computes the width of a viewport as the width of the page box times
    the scale). *)
Definition PageOneWidth (pdf : PDFDocumentProxy) (w : number) : Prop :=
  forall page,
    getPage pdf 1 = Normal page ->
    (forall vp, getViewport page (decimal 1 0) = Normal vp -> width vp = w) /\
    (forall s vp, getViewport page s = Normal vp -> width vp = mul w s).

(** ** Sample values *)

Definition samplePage (n : Z) : PDFPageProxy :=
  {| getViewport := fun scale =>
       Normal {| width := mul (decimal 612 0) scale;
                 height := mul (decimal 792 0) scale |};
     render := fun _ => Normal [n] |}.

Definition sampleDocument (n : Z) : PDFDocumentProxy :=
  {| numPages := n;
     getPage := fun k =>
       if (1 <=? k) && (k <=? n) then Normal (samplePage n)
       else Throw (Error "Invalid page request."%string) |}.

(** A library that opens a buffer of [n > 0] bytes as a document of [n]
    pages. *)
Definition sampleLib : PdfjsLib :=
  {| getDocument := fun data =>
       match data with
       | [] =>
           Throw (Error
             "The PDF file is empty, i.e. its size is zero bytes."%string)
       | _ => Normal (sampleDocument (Z.of_nat (List.length data)))
       end |}.

(** A library that rejects every buffer with an [Error] without
    message. *)
Definition silentLib : PdfjsLib :=
  {| getDocument := fun _ => Throw (Error EmptyString) |}.

Definition sampleBrowser : Browser :=
  {| loadPdfjs := Normal sampleLib;
     previewContainer := Some 730;
     getContext := true;
     toDataURL := fun canvas =>
       Normal match canvas_pixels canvas with
              | [1] => "data:image/jpeg;base64,AQ=="%string
              | _ => "data:image/jpeg;base64,Ag=="%string
              end |}.

Definition silentBrowser : Browser :=
  {| loadPdfjs := Normal silentLib;
     previewContainer := Some 730;
     getContext := true;
     toDataURL := toDataURL sampleBrowser |}.

Definition invoicePdf : File :=
  {| name := "invoice.pdf"%string; type := pdf_mime;
     arrayBuffer := Normal [37] |}.

Definition reportPdf : File :=
  {| name := "report.pdf"%string; type := pdf_mime;
     arrayBuffer := Normal [37; 80] |}.

Definition emptyPdf : File :=
  {| name := "empty.pdf"%string; type := pdf_mime;
     arrayBuffer := Normal [] |}.

Definition photoPng : File :=
  {| name := "photo.png"%string; type := "image/png"%string;
     arrayBuffer := Normal [137] |}.

Definition select (file : File) : ChangeEvent := {| files := Some [file] |}.

(** The state after [invoice.pdf] was rendered in a fresh component. *)
Definition invoiceShown : State :=
  final (handleFileChange sampleBrowser (select invoicePdf) initialState).

(** The viewport and the canvas with which [sampleBrowser] renders
    [invoice.pdf]: a page 612 wide in a container of 730 pixels. *)
Definition invoiceViewport : PageViewport :=
  {| width := mul (decimal 612 0)
                  (mul (div (of_Z 730) (decimal 612 0)) (decimal 4 0));
     height := mul (decimal 792 0)
                   (mul (div (of_Z 730) (decimal 612 0)) (decimal 4 0)) |}.

Definition invoiceCanvas : HTMLCanvasElement := canvasOf invoiceViewport [1].

(** ** States between two handlers

    What holds of the state whenever no handler is running, in a session
    whose handlers run one after the other: nothing is being rendered; a
    rendered image comes with a file name and a page count and without
    error message; without image there is no page count. *)
Definition Consistent (st : State) : Prop :=
  isRendering st = false /\
  match renderedImage st with
  | Some _ =>
      pdfName st <> None /\ pageCount st <> None /\ renderError st = None
  | None => pageCount st = None
  end.

(** The state in which an accepted upload of [file] leaves the component,
    by the image, the page count and the error message it ends with. *)
Definition uploaded (file : File) (image : option string) (count : option Z)
    (error : option string) : State :=
  {| renderedImage := image;
     pdfName := Some (name file);
     isRendering := false;
     renderError := error;
     pageCount := count;
     zoomLevel := decimal 10 1 |}.

(** ** The library over a session *)

(** The promise that the first call of [loadPdfjs()] makes of the promise
    of the import: the module with its worker options set, or the
    rejection of the import. *)
Definition configured (dynamicImport : Promise PdfjsModule)
  : Promise PdfjsModule :=
  match dynamicImport with
  | Normal pdfjsLib =>
      Normal {| GlobalWorkerOptions :=
                  {| workerSrc := Some "/pdf.worker.min.mjs"%string;
                     workerType := Some "module"%string |};
                library := library pdfjsLib |}
  | Throw e => Throw e
  end.

(** The promises that successive calls of [loadPdfjs()] return, from the
    value [cachedPdfjs] of the module variable; [imports] tells for each
    call what the import gives if that call evaluates it. *)
Fixpoint loadPdfjs_calls (imports : list (Promise PdfjsModule))
    (cachedPdfjs : option (Promise PdfjsModule))
  : list (Promise PdfjsModule) :=
  match imports with
  | [] => []
  | dynamicImport :: rest =>
      let '(promise, cachedPdfjs) :=
        Loader.loadPdfjs dynamicImport cachedPdfjs in
      promise :: loadPdfjs_calls rest cachedPdfjs
  end.

(** ** Texts of the view *)

(** The text of the percentage at zoom level 1.0. *)
Definition hundredPercent : Template := [Lit "100"; Lit "%"].

(** The decimal digits of a natural number. *)
Definition digits (n : nat) : string :=
  NilEmpty.string_of_uint (Nat.to_uint n).

(** ** Tasks of the event loop *)

(** Every state setter that the task [t] still calls keeps [P]. *)
Fixpoint updates_keep {A} (P : State -> Prop) (t : Concurrent.Task A)
  : Prop :=
  match t with
  | Concurrent.Return _ | Concurrent.Raise _ => True
  | Concurrent.Update f k =>
      (forall st, P st -> P (f st)) /\ updates_keep P k
  | Concurrent.Suspend k => updates_keep P k
  end.

(** The task is inside the [try] of [handleFileChange]: whatever is left
    of it, its [finally] block will clear the rendering flag. *)
Definition Clearing (t : Concurrent.Task unit) : Prop :=
  exists body,
    t = Concurrent.try_finally body (Concurrent.set (setIsRendering false)).

(** The page before anything happened. *)
Definition initialPage : Concurrent.Page :=
  {| Concurrent.state := initialState; Concurrent.pending := [] |}.

(** The events of the loop that make an action of a session in which the
    handlers do not overlap: a file selection is followed by five
    settlings, as many as its handler can await (a settling with no
    handler pending does nothing). *)
Definition eventsOf (a : Action) : list Concurrent.Event :=
  match a with
  | ZoomOut => [Concurrent.Click Concurrent.ZoomOutButton]
  | ZoomIn => [Concurrent.Click Concurrent.ZoomInButton]
  | ZoomReset => [Concurrent.Click Concurrent.ZoomResetButton]
  | FileChange browser event =>
      Concurrent.Change browser event :: repeat (Concurrent.Settle 0) 5
  end.

(** What a stored value of the two hooks must be. *)
Definition MemosValid (memos : Memos) : Prop :=
  match instructionsMemo memos with
  | Some ((count, name), value) =>
      forall st, pageCount st = count -> pdfName st = name ->
                 instructions st = value
  | None => True
  end /\
  match zoomLabelMemo memos with
  | Some (zoom, value) =>
      forall st, zoomLevel st = zoom -> zoomLabel st = value
  | None => True
  end.

(** ** More sample values *)

Definition unreadablePdf : File :=
  {| name := "gone.pdf"%string; type := pdf_mime;
     arrayBuffer :=
       Throw (Error "The requested file could not be read."%string) |}.

Definition noCanvasBrowser : Browser :=
  {| loadPdfjs := Normal sampleLib;
     previewContainer := Some 730;
     getContext := false;
     toDataURL := toDataURL sampleBrowser |}.

Definition detachedBrowser : Browser :=
  {| loadPdfjs := Normal sampleLib;
     previewContainer := None;
     getContext := true;
     toDataURL := toDataURL sampleBrowser |}.

Definition sampleModule : PdfjsModule :=
  {| GlobalWorkerOptions :=
       {| workerSrc := Some EmptyString; workerType := None |};
     library := sampleLib |}.

Definition sampleEnvironment : Environment :=
  {| dynamicImport := Normal sampleModule;
     container := Some 730;
     context2d := true;
     encode := toDataURL sampleBrowser |}.

Definition offlineEnvironment : Environment :=
  {| dynamicImport :=
       Throw (Error "Failed to fetch dynamically imported module"%string);
     container := Some 730;
     context2d := true;
     encode := toDataURL sampleBrowser |}.

(** A document with one page whose rendering fails. *)
Definition brokenPage : PDFPageProxy :=
  {| getViewport := getViewport (samplePage 1);
     render := fun _ => Throw (Error "Page rendering failed."%string) |}.

Definition brokenDocument : PDFDocumentProxy :=
  {| numPages := 1;
     getPage := fun k =>
       if k =? 1 then Normal brokenPage
       else Throw (Error "Invalid page request."%string) |}.

Definition brokenBrowser : Browser :=
  {| loadPdfjs := Normal {| getDocument := fun _ => Normal brokenDocument |};
     previewContainer := Some 730;
     getContext := true;
     toDataURL := toDataURL sampleBrowser |}.

(** ** Two sentences of the specification, as they are worded *)

(** C1 as the specification words it: a failing render always leaves a
    non-empty error message. *)
Definition render_outcome_as_specified : Prop :=
  forall browser event file st,
    PdfjsContract browser ->
    selectedFile event = Some file ->
    type file = pdf_mime ->
    let st' := final (handleFileChange browser event st) in
    match completion (renderPipeline browser file (accepted file st)) with
    | Normal _ =>
        (exists n, pageCount st' = Some n /\ 1 <= n) /\
        (exists image, renderedImage st' = Some image)
    | Throw _ =>
        renderedImage st' = None /\ pageCount st' = None /\
        (exists message,
            renderError st' = Some message /\ message <> EmptyString)
    end.

(** C6 as the specification words it: once a new PDF is accepted, no
    state shown while its rendering is pending has a rendered image. *)
Definition image_cleared_on_upload_as_specified : Prop :=
  forall browser event file st,
    selectedFile event = Some file ->
    type file = pdf_mime ->
    Forall (fun s => renderedImage s = None)
           (suspended (handleFileChange browser event st)).

(** * Properties *)

(** ** Numbers: the constants

    The literals of the source are the binary64 values that the parser of
    floating-point literals of Rocq finds for the same text. *)

#[local] Set Warnings "-inexact-float".

Lemma literals_are_binary64 :
  decimal 8 1 = Prim2SF 0.8%float /\
  decimal 18 1 = Prim2SF 1.8%float /\
  decimal 1 1 = Prim2SF 0.1%float /\
  decimal 10 1 = Prim2SF 1.0%float /\
  decimal 4 0 = Prim2SF 4%float /\
  decimal 1 0 = Prim2SF 1%float.
Proof. vm_compute. repeat split. Qed.

(** ** Numbers: rounding in the normal range

    [binary_round_aux] is the rounding step shared by multiplication and
    division.  For a mantissa of at least 53 bits whose result neither
    underflows nor overflows, it keeps the 53 leading bits and may add
    one to the last. *)

(** A positive number of [d] binary digits lies in [[2^(d-1), 2^d)]. *)
Lemma digits2_pos_bounds p :
  2 ^ (Zpos (digits2_pos p) - 1) <= Zpos p < 2 ^ Zpos (digits2_pos p).
Proof.
  induction p as [p IH|p IH|]; cbn [digits2_pos].
  - rewrite Pos2Z.inj_succ.
    replace (Z.succ (Zpos (digits2_pos p)) - 1)
      with (Z.succ (Zpos (digits2_pos p) - 1)) by lia.
    rewrite !Z.pow_succ_r by lia. lia.
  - rewrite Pos2Z.inj_succ.
    replace (Z.succ (Zpos (digits2_pos p)) - 1)
      with (Z.succ (Zpos (digits2_pos p) - 1)) by lia.
    rewrite !Z.pow_succ_r by lia. lia.
  - cbn. lia.
Qed.

Lemma Zdigits2_bounds m :
  0 < m -> 2 ^ (Zdigits2 m - 1) <= m < 2 ^ Zdigits2 m.
Proof.
  destruct m as [|p|p]; try lia. intros _. apply digits2_pos_bounds.
Qed.

Lemma Zdigits2_unique m k :
  2 ^ (k - 1) <= m < 2 ^ k -> 0 < m -> Zdigits2 m = k.
Proof.
  intros H Hm. pose proof (Zdigits2_bounds m Hm) as B.
  assert (0 < Zdigits2 m) by (destruct m; cbn; lia).
  assert (0 < k).
  { destruct (Z.ltb_spec 0 k); [assumption|].
    assert (2 ^ k <= 2 ^ 0)
      by (destruct (Z.eq_dec k 0); [subst; lia | rewrite Z.pow_neg_r; lia]).
    cbn in *. lia. }
  destruct (Z.lt_trichotomy (Zdigits2 m) k) as [L|[E|L]]; [|exact E|].
  - assert (2 ^ Zdigits2 m <= 2 ^ (k - 1))
      by (apply Z.pow_le_mono_r; lia).
    lia.
  - assert (2 ^ k <= 2 ^ (Zdigits2 m - 1))
      by (apply Z.pow_le_mono_r; lia).
    lia.
Qed.

Lemma Zdigits2_range m a b :
  0 < m -> 2 ^ a <= m < 2 ^ b -> a < Zdigits2 m <= b.
Proof.
  intros Hm [Ha Hb]. pose proof (Zdigits2_bounds m Hm) as [L U].
  assert (0 < Zdigits2 m) by (destruct m; cbn; lia).
  split.
  - destruct (Z.lt_ge_cases a (Zdigits2 m)) as [|G]; [assumption|].
    assert (2 ^ Zdigits2 m <= 2 ^ a) by (apply Z.pow_le_mono_r; lia). lia.
  - destruct (Z.le_gt_cases (Zdigits2 m) b) as [|G]; [assumption|].
    assert (0 <= b).
    { destruct (Z.le_gt_cases 0 b); [assumption|].
      rewrite (Z.pow_neg_r 2 b) in Hb by lia. lia. }
    assert (2 ^ b <= 2 ^ (Zdigits2 m - 1)) by (apply Z.pow_le_mono_r; lia).
    lia.
Qed.

Lemma shr_m_of_loc m l : shr_m (shr_record_of_loc m l) = m.
Proof. now destruct l as [|[]]. Qed.

(** Shifting right by one bit halves the mantissa. *)
Lemma shr_1_m r : 0 <= shr_m r -> shr_m (shr_1 r) = shr_m r / 2.
Proof.
  destruct r as [m r s]. cbn [shr_m]. intros Hm.
  destruct m as [|[p|p|]|]; cbn [shr_1 shr_m]; try lia; try reflexivity.
  - apply (Z.div_unique _ _ _ 1); lia.
  - apply (Z.div_unique _ _ _ 0); lia.
Qed.

Lemma shr_1_nonneg r : 0 <= shr_m r -> 0 <= shr_m (shr_1 r).
Proof. intros H. rewrite shr_1_m by assumption. apply Z.div_pos; lia. Qed.

Lemma iter_shr_1_m p : forall r,
  0 <= shr_m r ->
  shr_m (iter_pos shr_1 p r) = shr_m r / 2 ^ Zpos p.
Proof.
  induction p as [p IH|p IH|]; intros r Hr; cbn [iter_pos].
  - assert (H1 : 0 <= shr_m (shr_1 r)) by now apply shr_1_nonneg.
    assert (H2 : 0 <= shr_m (iter_pos shr_1 p (shr_1 r))).
    { rewrite IH by assumption. apply Z.div_pos; [assumption|].
      apply Z.pow_pos_nonneg; lia. }
    rewrite IH, IH, shr_1_m by assumption.
    rewrite !Z.div_div by (try apply Z.pow_pos_nonneg; lia).
    f_equal.
    replace (Zpos p~1) with (1 + Zpos p + Zpos p) by lia.
    rewrite !Z.pow_add_r by lia. lia.
  - assert (H2 : 0 <= shr_m (iter_pos shr_1 p r)).
    { rewrite IH by assumption. apply Z.div_pos; [assumption|].
      apply Z.pow_pos_nonneg; lia. }
    rewrite IH, IH by assumption.
    rewrite !Z.div_div by (try apply Z.pow_pos_nonneg; lia).
    f_equal.
    replace (Zpos p~0) with (Zpos p + Zpos p) by lia.
    rewrite !Z.pow_add_r by lia. lia.
  - now rewrite shr_1_m.
Qed.

Lemma shr_m_shift r e n :
  0 <= shr_m r -> 0 <= n ->
  shr_m (fst (shr r e n)) = shr_m r / 2 ^ n /\ snd (shr r e n) = e + n.
Proof.
  intros Hr Hn. destruct n as [|p|p]; try lia; cbn [shr fst snd].
  - rewrite Z.div_1_r. lia.
  - now rewrite iter_shr_1_m.
Qed.

Lemma round_nearest_even_cases m l :
  round_nearest_even m l = m \/ round_nearest_even m l = m + 1.
Proof.
  destruct l as [|[]]; cbn [round_nearest_even]; auto.
  destruct (Z.even m); auto.
Qed.

(** The result of rounding [mx * 2^ex]: a mantissa [m'] of 53 bits and an
    exponent [e'] such that [m' * 2^e'] is [m1 * 2^(ex + d - 53)], where
    [m1] is [mx] without its [d - 53] last bits, or that plus one. *)
Lemma binary_round_aux_normal s mx ex l :
  0 < mx ->
  let d := Zdigits2 mx in
  53 <= d -> -1074 <= ex + d - 53 -> ex + d <= 1023 ->
  exists m' e' m1,
    binary_round_aux 53 1024 s mx ex l = S754_finite s m' e' /\
    2 ^ 52 <= Zpos m' < 2 ^ 53 /\
    ex + d - 53 <= e' <= ex + d - 52 /\
    (m1 = mx / 2 ^ (d - 53) \/ m1 = mx / 2 ^ (d - 53) + 1) /\
    Zpos m' * 2 ^ (e' - (ex + d - 53)) = m1.
Proof.
  intros Hmx d Hd Hlo Hhi.
  pose proof (Zdigits2_bounds mx Hmx) as Bmx. fold d in Bmx.
  set (n := d - 53).
  assert (Hn : 0 <= n) by (unfold n; lia).
  assert (P : 0 < 2 ^ n) by (apply Z.pow_pos_nonneg; lia).
  set (m0 := mx / 2 ^ n).
  assert (Bm0 : 2 ^ 52 <= m0 < 2 ^ 53).
  { unfold m0. split.
    - apply Z.div_le_lower_bound; [assumption|].
      rewrite Z.mul_comm, <- Z.pow_add_r by lia.
      replace (52 + n) with (d - 1) by (unfold n; lia). apply Bmx.
    - apply Z.div_lt_upper_bound; [assumption|].
      rewrite <- Z.pow_add_r by lia.
      replace (n + 53) with d by (unfold n; lia). apply Bmx. }
  unfold binary_round_aux, shr_fexp. fold d.
  replace (fexp 53 1024 (d + ex) - ex) with n
    by (unfold fexp, emin, n; lia).
  destruct (shr (shr_record_of_loc mx l) ex n) as [mrs' e1] eqn:E1.
  destruct (shr_m_shift (shr_record_of_loc mx l) ex n) as [Em Ee];
    [rewrite shr_m_of_loc; lia | assumption |].
  rewrite E1, shr_m_of_loc in Em. rewrite E1 in Ee. cbn [fst snd] in Em, Ee.
  fold m0 in Em. rewrite Em.
  set (m1 := round_nearest_even m0 (loc_of_shr_record mrs')).
  assert (C : m1 = m0 \/ m1 = m0 + 1) by apply round_nearest_even_cases.
  assert (B1 : 2 ^ 52 <= m1 <= 2 ^ 53) by lia.
  destruct (Z.eq_dec m1 (2 ^ 53)) as [Etop|Ntop].
  - (* the mantissa was rounded up to 2^53 *)
    assert (D1 : Zdigits2 m1 = 54)
      by (apply Zdigits2_unique; rewrite Etop; cbn; lia).
    rewrite D1.
    replace (fexp 53 1024 (54 + e1) - e1) with 1
      by (unfold fexp, emin; lia).
    cbn [shr_record_of_loc shr iter_pos]. rewrite Etop.
    cbn [Z.pow Z.pow_pos Pos.iter Z.mul Pos.mul shr_1 shr_m].
    replace (e1 + 1 <=? 1024 - 53) with true
      by (symmetry; apply Z.leb_le; lia).
    eexists _, _, m1. split; [reflexivity|].
    split; [cbn; lia|]. split; [lia|]. split; [exact C|].
    replace (e1 + 1 - (ex + d - 53)) with 1 by (unfold n in *; lia).
    rewrite Etop. reflexivity.
  - assert (D1 : Zdigits2 m1 = 53)
      by (apply Zdigits2_unique; cbn in *; lia).
    rewrite D1.
    replace (fexp 53 1024 (53 + e1) - e1) with 0
      by (unfold fexp, emin; lia).
    cbn [shr_record_of_loc shr shr_m].
    destruct m1 as [|p1|p1] eqn:Ep; try (cbn in B1; lia).
    replace (e1 <=? 1024 - 53) with true
      by (symmetry; apply Z.leb_le; lia).
    exists p1, e1, (Zpos p1). split; [reflexivity|].
    split; [cbn in *; lia|]. split; [lia|]. split; [exact C|].
    replace (e1 - (ex + d - 53)) with 0 by (unfold n in *; lia).
    cbn. lia.
Qed.

(** *** The rounding error model *)

Lemma IZR_pow2 n : 0 <= n -> IZR (2 ^ n) = powerRZ 2 n.
Proof.
  intros Hn. rewrite <- (Z2Nat.id n Hn) at 1 2.
  rewrite <- pow_powerRZ, <- pow_IZR. reflexivity.
Qed.

Lemma powerRZ_2_pos e : (0 < powerRZ 2 e)%R.
Proof. apply powerRZ_lt. lra. Qed.

Lemma F2R_shift m e k :
  0 <= k -> F2R (m * 2 ^ k) e = F2R m (e + k).
Proof.
  intros Hk. unfold F2R.
  rewrite mult_IZR, IZR_pow2, powerRZ_add by (lra || lia). ring.
Qed.

Lemma F2R_le m m' e : m <= m' -> (F2R m e <= F2R m' e)%R.
Proof.
  intros H. unfold F2R. apply Rmult_le_compat_r.
  - left. apply powerRZ_2_pos.
  - now apply IZR_le.
Qed.

Lemma F2R_mult m e m' e' :
  (F2R m e * F2R m' e')%R = F2R (m * m') (e + e').
Proof.
  unfold F2R. rewrite mult_IZR, powerRZ_add by lra. ring.
Qed.

Lemma F2R_pos m e : 0 < m -> (0 < F2R m e)%R.
Proof.
  intros H. unfold F2R. apply Rmult_lt_0_compat.
  - now apply IZR_lt.
  - apply powerRZ_2_pos.
Qed.

(** The rounding error model in the normal range: the result is within a
    relative distance [eps] of any [V] that lies between [mx * 2^ex] and
    [(mx + 1) * 2^ex]. *)
Lemma binary_round_aux_error s mx ex l (V : R) :
  0 < mx ->
  let d := Zdigits2 mx in
  53 <= d -> -1074 <= ex + d - 53 -> ex + d <= 1023 ->
  (F2R mx ex <= V <= F2R (mx + 1) ex)%R ->
  exists m' e',
    binary_round_aux 53 1024 s mx ex l = S754_finite s m' e' /\
    2 ^ 52 <= Zpos m' < 2 ^ 53 /\
    ex + d - 53 <= e' <= ex + d - 52 /\
    (V - eps * V <= F2R (Zpos m') e' <= V + eps * V)%R.
Proof.
  intros Hmx d Hd Hlo Hhi HV.
  destruct (binary_round_aux_normal s mx ex l Hmx Hd Hlo Hhi)
    as (m' & e' & m1 & E & Bm & Be & C & Em1).
  fold d in Be, C, Em1.
  exists m', e'.
  split; [exact E|]. split; [exact Bm|]. split; [exact Be|].
  set (n := d - 53) in *.
  assert (Hn : 0 <= n) by (unfold n; lia).
  assert (P : 0 < 2 ^ n) by (apply Z.pow_pos_nonneg; lia).
  set (m0 := mx / 2 ^ n) in *.
  set (U := powerRZ 2 (ex + n)).
  assert (HU : (0 < U)%R) by apply powerRZ_2_pos.
  assert (Bm0 : 2 ^ 52 <= m0).
  { pose proof (Zdigits2_bounds mx Hmx) as Bmx. fold d in Bmx.
    unfold m0. apply Z.div_le_lower_bound; [assumption|].
    rewrite Z.mul_comm, <- Z.pow_add_r by lia.
    replace (52 + n) with (d - 1) by (unfold n; lia). apply Bmx. }
  assert (Er : F2R (Zpos m') e' = (IZR m1 * U)%R).
  { rewrite <- Em1.
    change (F2R (Zpos m') e' =
            F2R (Zpos m' * 2 ^ (e' - (ex + d - 53))) (ex + n)).
    rewrite F2R_shift by lia. unfold n. f_equal. lia. }
  assert (L : (IZR m0 * U <= V)%R).
  { apply Rle_trans with (2 := proj1 HV).
    change (IZR m0 * U)%R with (F2R m0 (ex + n)).
    rewrite <- F2R_shift by lia. apply F2R_le.
    unfold m0. rewrite Z.mul_comm. apply Z.mul_div_le. lia. }
  assert (H : (V <= IZR (m0 + 1) * U)%R).
  { apply Rle_trans with (1 := proj2 HV).
    change (IZR (m0 + 1) * U)%R with (F2R (m0 + 1) (ex + n)).
    rewrite <- F2R_shift by lia. apply F2R_le.
    unfold m0. pose proof (Z.mul_succ_div_gt mx (2 ^ n) P). lia. }
  rewrite plus_IZR in H.
  assert (HUV : (U <= eps * V)%R).
  { assert (T : (IZR (2 ^ 52) * U <= V)%R).
    { apply Rle_trans with (2 := L). apply Rmult_le_compat_r; [lra|].
      now apply IZR_le. }
    rewrite IZR_pow2 in T by lia.
    unfold eps.
    assert (I : (powerRZ 2 (-52) * powerRZ 2 52 = 1)%R).
    { rewrite <- powerRZ_add by lra. reflexivity. }
    assert (Q : (0 < powerRZ 2 (-52))%R) by apply powerRZ_2_pos.
    replace U with (powerRZ 2 (-52) * (powerRZ 2 52 * U))%R
      by (rewrite <- Rmult_assoc, I; ring).
    apply Rmult_le_compat_l; lra. }
  rewrite Er.
  destruct C as [-> | ->]; [|rewrite plus_IZR]; split; lra.
Qed.

Lemma normal_digits m : normal m -> Zdigits2 (Zpos m) = 53.
Proof. intros H. apply Zdigits2_unique; [exact H | lia]. Qed.

(** Multiplication of positive normal numbers, away from underflow and
    overflow: the product is normal, within [eps] of the exact product. *)
Lemma SFmul_error mx ex my ey :
  normal mx -> normal my ->
  -1126 <= ex + ey -> ex + ey <= 917 ->
  exists m' e',
    SFmul 53 1024 (S754_finite false mx ex) (S754_finite false my ey)
      = S754_finite false m' e' /\
    normal m' /\
    ex + ey + 52 <= e' <= ex + ey + 54 /\
    (let V := F2R (Zpos mx) ex * F2R (Zpos my) ey in
     V - eps * V <= F2R (Zpos m') e' <= V + eps * V)%R.
Proof.
  intros Hx Hy Hlo Hhi. cbn [SFmul xorb].
  assert (Hp : 2 ^ 104 <= Zpos (mx * my) < 2 ^ 106).
  { unfold normal in *. rewrite Pos2Z.inj_mul.
    change (2 ^ 104) with (2 ^ 52 * 2 ^ 52).
    change (2 ^ 106) with (2 ^ 53 * 2 ^ 53). nia. }
  assert (Hd : 104 < Zdigits2 (Zpos (mx * my)) <= 106)
    by (apply Zdigits2_range; [lia | exact Hp]).
  destruct (binary_round_aux_error false (Zpos (mx * my)) (ex + ey) loc_Exact
              (F2R (Zpos mx) ex * F2R (Zpos my) ey))
    as (m' & e' & E & Bm & Be & Err); try lia.
  - rewrite F2R_mult, <- Pos2Z.inj_mul. split; [lra|]. apply F2R_le. lia.
  - exists m', e'.
    split; [exact E|]. split; [exact Bm|]. split; [lia | exact Err].
Qed.

(** Division of positive normal numbers, likewise. *)
Lemma SFdiv_error mx ex my ey :
  normal mx -> normal my ->
  -1021 <= ex - ey -> ex - ey <= 1022 ->
  exists m' e',
    SFdiv 53 1024 (S754_finite false mx ex) (S754_finite false my ey)
      = S754_finite false m' e' /\
    normal m' /\
    ex - ey - 53 <= e' <= ex - ey - 51 /\
    (let V := F2R (Zpos mx) ex / F2R (Zpos my) ey in
     V - eps * V <= F2R (Zpos m') e' <= V + eps * V)%R.
Proof.
  intros Hx Hy Hlo Hhi. cbn [SFdiv xorb]. unfold SFdiv_core_binary.
  rewrite (normal_digits mx Hx), (normal_digits my Hy).
  replace (Z.min (fexp 53 1024 (53 + ex - (53 + ey))) (ex - ey))
    with (ex - ey - 53) by (unfold fexp, emin; lia).
  replace (ex - ey - (ex - ey - 53)) with 53 by lia.
  rewrite Z.shiftl_mul_pow2 by lia.
  set (a := Zpos mx * 2 ^ 53).
  destruct (Z.div_eucl a (Zpos my)) as [q r] eqn:E.
  assert (Eq : q = a / Zpos my) by (unfold Z.div; now rewrite E).
  assert (Er : r = a mod Zpos my) by (unfold Z.modulo; now rewrite E).
  clear E.
  pose proof (Z.div_mod a (Zpos my) ltac:(lia)) as Ha.
  pose proof (Z.mod_pos_bound a (Zpos my) ltac:(lia)) as Hr.
  rewrite <- Eq, <- Er in Ha. rewrite <- Er in Hr.
  assert (Hq : 2 ^ 52 <= q < 2 ^ 54).
  { unfold normal in *. unfold a in Ha.
    change (2 ^ 54) with (2 * 2 ^ 53). split.
    - rewrite Eq. apply Z.div_le_lower_bound; [lia|]. unfold a. nia.
    - rewrite Eq. apply Z.div_lt_upper_bound; [lia|]. unfold a.
      change (2 ^ 53) with (2 * 2 ^ 52) at 2. nia. }
  assert (Hd : 52 < Zdigits2 q <= 54)
    by (apply Zdigits2_range; [lia | exact Hq]).
  set (V := (F2R (Zpos mx) ex / F2R (Zpos my) ey)%R).
  assert (Pmy : (0 < IZR (Zpos my))%R) by (apply IZR_lt; lia).
  assert (EV : (V * IZR (Zpos my) = F2R a (ex - ey - 53))%R).
  { unfold V, a, F2R.
    rewrite mult_IZR, IZR_pow2 by lia.
    replace ex with ((ex - ey - 53) + 53 + ey) at 1 by lia.
    rewrite !powerRZ_add by lra.
    pose proof (powerRZ_2_pos ey). field. split; lra. }
  destruct (binary_round_aux_error false q (ex - ey - 53)
              (new_location (Zpos my) r) V)
    as (m' & e' & E' & Bm & Be & Err); try lia.
  - assert (Q : (F2R q (ex - ey - 53) * IZR (Zpos my)
                 <= V * IZR (Zpos my)
                 <= F2R (q + 1) (ex - ey - 53) * IZR (Zpos my))%R).
    { rewrite EV. unfold F2R.
      pose proof (powerRZ_2_pos (ex - ey - 53)) as PU.
      assert (I1 : (IZR q * IZR (Zpos my) <= IZR a)%R)
        by (rewrite <- mult_IZR; apply IZR_le; lia).
      assert (I2 : (IZR a <= IZR (q + 1) * IZR (Zpos my))%R)
        by (rewrite <- mult_IZR; apply IZR_le; lia).
      split.
      - replace (IZR q * powerRZ 2 (ex - ey - 53) * IZR (Zpos my))%R
          with (IZR q * IZR (Zpos my) * powerRZ 2 (ex - ey - 53))%R by ring.
        apply Rmult_le_compat_r; lra.
      - replace (IZR (q + 1) * powerRZ 2 (ex - ey - 53) * IZR (Zpos my))%R
          with (IZR (q + 1) * IZR (Zpos my) * powerRZ 2 (ex - ey - 53))%R
          by ring.
        apply Rmult_le_compat_r; lra. }
    split; apply (Rmult_le_reg_r (IZR (Zpos my))); lra.
  - exists m', e'.
    split; [exact E'|]. split; [exact Bm|]. split; [lia | exact Err].
Qed.

Lemma iter_xO p k : Zpos (Pos.iter xO p k) = Zpos p * 2 ^ Zpos k.
Proof.
  induction k as [|k IH] using Pos.peano_ind.
  - cbn [Pos.iter]. lia.
  - rewrite Pos.iter_succ, Pos2Z.inj_succ, Z.pow_succ_r by lia.
    change (Zpos (Pos.iter xO p k)~0) with (2 * Zpos (Pos.iter xO p k)).
    rewrite IH. ring.
Qed.

(** A positive integer below 2^52 read as a number. *)
Lemma of_Z_error cw :
  1 <= cw < 2 ^ 52 ->
  exists m e,
    of_Z cw = S754_finite false m e /\
    normal m /\
    -52 <= e <= 0 /\
    (IZR cw - eps * IZR cw <= F2R (Zpos m) e <= IZR cw + eps * IZR cw)%R.
Proof.
  intros Hcw. destruct cw as [|p|p]; try lia.
  unfold of_Z, binary_normalize, binary_round, shl_align.
  pose proof (Zdigits2_bounds (Zpos p) ltac:(lia)) as Bp.
  assert (Hd : 0 < Zdigits2 (Zpos p) <= 52)
    by (apply Zdigits2_range; [lia | cbn in *; lia]).
  cbn [Zdigits2] in Bp, Hd.
  set (d := Zpos (digits2_pos p)) in *.
  replace (fexp prec emax (d + 0)) with (d - 53)
    by (unfold fexp, emin, prec, emax; lia).
  destruct (d - 53 - 0) as [|k|k] eqn:Ek; try lia.
  assert (Nm : 2 ^ 52 <= Zpos (Pos.iter xO p k) < 2 ^ 53).
  { rewrite iter_xO.
    replace 52 with ((d - 1) + Zpos k) by lia.
    replace 53 with (d + Zpos k) by lia.
    rewrite !Z.pow_add_r by lia.
    assert (0 < 2 ^ Zpos k) by (apply Z.pow_pos_nonneg; lia). nia. }
  destruct (binary_round_aux_error false (Zpos (Pos.iter xO p k)) (d - 53)
              loc_Exact (IZR (Zpos p)))
    as (m' & e' & E & Bm & Be & Err);
    try (rewrite (normal_digits _ Nm); lia); try lia.
  - assert (EV : F2R (Zpos (Pos.iter xO p k)) (d - 53) = IZR (Zpos p)).
    { rewrite iter_xO, F2R_shift by lia.
      replace (d - 53 + Zpos k) with 0 by lia. unfold F2R. cbn. ring. }
    rewrite <- EV. split; [lra|]. apply F2R_le. lia.
  - rewrite (normal_digits _ Nm) in Be.
    exists m', e'.
    split; [exact E|]. split; [exact Bm|]. split; [lia | exact Err].
Qed.

(** A valid number strictly between two normal bounds is normal, with
    its exponent between theirs. *)
Lemma between_normal lo elo hi ehi w :
  valid_binary prec emax w = true ->
  ltb (S754_finite false lo elo) w = true ->
  ltb w (S754_finite false hi ehi) = true ->
  -1074 < elo ->
  exists m e, w = S754_finite false m e /\ normal m /\ elo <= e <= ehi.
Proof.
  intros Hv Hlo Hhi Helo.
  destruct w as [s|s| |s m e]; try discriminate.
  - destruct s; discriminate.
  - destruct s; [discriminate|].
    unfold ltb, SFltb, SFcompare in Hlo, Hhi.
    exists m, e. split; [reflexivity|].
    assert (He : elo <= e <= ehi).
    { split.
      - destruct (Z.compare_spec elo e); try lia; discriminate.
      - destruct (Z.compare_spec e ehi); try lia; discriminate. }
    split; [|exact He].
    cbn [valid_binary] in Hv. unfold bounded, canonical_mantissa in Hv.
    apply andb_prop in Hv as [Hc _]. apply Z.eqb_eq in Hc.
    unfold fexp, emin, prec, emax in Hc.
    pose proof (digits2_pos_bounds m) as B.
    replace (Zpos (digits2_pos m)) with 53 in B by lia.
    exact B.
Qed.

(** Truncating a number that is less than 1 away from the integer [k]
    gives [k] or [k - 1]. *)
Lemma truncate_near k m e :
  (IZR k - 1 < F2R (Zpos m) e < IZR k + 1)%R ->
  k - 1 <= truncate (S754_finite false m e) <= k.
Proof.
  intros H. cbn [truncate].
  destruct (Z.leb_spec 0 e) as [He|He].
  - assert (E : F2R (Zpos m) e = IZR (Zpos m * 2 ^ e)).
    { rewrite <- (Z.add_0_l e) at 1. rewrite <- F2R_shift by lia.
      unfold F2R. cbn. ring. }
    rewrite E in H. destruct H as [H1 H2].
    rewrite <- minus_IZR in H1. rewrite <- plus_IZR in H2.
    apply lt_IZR in H1, H2. lia.
  - set (D := 2 ^ (- e)).
    assert (PD : 0 < D) by (apply Z.pow_pos_nonneg; lia).
    assert (E : (F2R (Zpos m) e * IZR D = IZR (Zpos m))%R).
    { unfold F2R, D. rewrite IZR_pow2 by lia.
      rewrite Rmult_assoc, <- powerRZ_add by lra.
      replace (e + - e) with 0 by lia. cbn. ring. }
    assert (PR : (0 < IZR D)%R) by (apply IZR_lt; lia).
    assert (H1 : (IZR ((k - 1) * D) < IZR (Zpos m))%R).
    { rewrite mult_IZR, minus_IZR, <- E.
      apply Rmult_lt_compat_r; lra. }
    assert (H2 : (IZR (Zpos m) < IZR ((k + 1) * D))%R).
    { rewrite mult_IZR, plus_IZR, <- E.
      apply Rmult_lt_compat_r; lra. }
    apply lt_IZR in H1, H2. split.
    + apply Z.div_le_lower_bound; lia.
    + assert (Zpos m / D < k + 1); [|lia].
      apply Z.div_lt_upper_bound; lia.
Qed.

Lemma eps_value : (eps * 4503599627370496 = 1)%R.
Proof.
  unfold eps. change 4503599627370496%R with (IZR (2 ^ 52)).
  rewrite IZR_pow2 by lia. rewrite <- powerRZ_add by lra. reflexivity.
Qed.

Lemma four_value : F2R 4503599627370496 (-50) = 4%R.
Proof.
  unfold F2R. change 4503599627370496%R with (IZR (2 ^ 52)).
  rewrite IZR_pow2 by lia. rewrite <- powerRZ_add by lra.
  change (powerRZ 2 (52 + -50)) with (2 * (2 * 1))%R. lra.
Qed.

(** The width of the bitmap: the page width [w] times the render scale
    [(cw / w) * 4], truncated, is [4 * cw] or one less. *)
Lemma scaled_width_bounds w cw :
  valid_binary prec emax w = true ->
  ltb (decimal 1 3) w = true ->
  ltb w (decimal 1000000 0) = true ->
  0 <= cw < 2 ^ 29 ->
  let renderScale := mul (div (of_Z cw) w) (decimal 4 0) in
  4 * cw - 1 <= canvas_dimension 300 (mul w renderScale) <= 4 * cw.
Proof.
  intros Hv Hlo Hhi Hcw renderScale. subst renderScale.
  change (2 ^ 29) with 536870912 in Hcw.
  replace (decimal 1 3)
    with (S754_finite false 4611686018427388 (-62)) in Hlo
    by (vm_compute; reflexivity).
  replace (decimal 1000000 0)
    with (S754_finite false 8589934592000000 (-33)) in Hhi
    by (vm_compute; reflexivity).
  replace (decimal 4 0) with (S754_finite false 4503599627370496 (-50))
    by (vm_compute; reflexivity).
  destruct (between_normal _ _ _ _ w Hv Hlo Hhi ltac:(lia))
    as (mw & ew & -> & Nw & Hew).
  destruct (Z.eq_dec cw 0) as [->|Hnz]; [vm_compute; split; discriminate|].
  destruct (of_Z_error cw ltac:(lia)) as (mc & ec & -> & Nc & Hec & Ec).
  unfold div, mul, prec, emax.
  destruct (SFdiv_error mc ec mw ew Nc Nw ltac:(lia) ltac:(lia))
    as (mq & eq & -> & Nq & Heq & Eq).
  assert (N4 : normal 4503599627370496) by (unfold normal; cbn; lia).
  destruct (SFmul_error mq eq 4503599627370496 (-50) Nq N4
              ltac:(lia) ltac:(lia))
    as (mr & er & -> & Nr & Her & Er).
  destruct (SFmul_error mw ew mr er Nw Nr ltac:(lia) ltac:(lia))
    as (mW & eW & -> & NW & HeW & EW).
  set (a := IZR cw) in *.
  set (Rc := F2R (Zpos mc) ec) in *.
  set (Rw := F2R (Zpos mw) ew) in *.
  set (Rq := F2R (Zpos mq) eq) in *.
  set (Rr := F2R (Zpos mr) er) in *.
  set (RW := F2R (Zpos mW) eW) in *.
  rewrite four_value in Er.
  assert (Pw : (0 < Rw)%R) by (apply F2R_pos; lia).
  assert (Ha : (1 <= a <= 536870911)%R).
  { unfold a. split; apply IZR_le; lia. }
  cbv zeta in Eq, Er, EW.
  assert (Ee : eps = (/ 4503599627370496)%R).
  { pose proof eps_value.
    apply Rmult_eq_reg_r with 4503599627370496%R; lra. }
  rewrite Ee in *. clear Ee.
  assert (Eq' : (Rc - / 4503599627370496 * Rc <= Rw * Rq
                 <= Rc + / 4503599627370496 * Rc)%R).
  { assert (X : (Rc / Rw * Rw = Rc)%R) by (field; lra).
    destruct Eq as [L U].
    apply (Rmult_le_compat_r Rw) in L, U; lra. }
  assert (Er' : (4 * (Rw * Rq) - / 4503599627370496 * (4 * (Rw * Rq))
                 <= Rw * Rr
                 <= 4 * (Rw * Rq) + / 4503599627370496 * (4 * (Rw * Rq)))%R).
  { destruct Er as [L U].
    apply (Rmult_le_compat_l Rw) in L, U; lra. }
  set (P1 := (Rw * Rq)%R) in *. set (P2 := (Rw * Rr)%R) in *.
  assert (B : (IZR (4 * cw) - 1 < RW < IZR (4 * cw) + 1)%R).
  { rewrite mult_IZR. fold a. lra. }
  pose proof (truncate_near (4 * cw) mW eW B) as T.
  unfold canvas_dimension, ToUint32.
  change (2 ^ 32) with 4294967296. change (2 ^ 31 - 1) with 2147483647.
  rewrite Z.mod_small by lia.
  destruct (Z.leb_spec (truncate (S754_finite false mW eW)) 2147483647);
    lia.
Qed.

(** *** Zero *)

Lemma shr_zero e n :
  fst (shr (Build_shr_record 0 false false) e n)
  = Build_shr_record 0 false false.
Proof.
  destruct n as [|p|p]; try reflexivity.
  cbn [shr fst].
  induction p as [p IH|p IH|]; cbn [iter_pos]; try reflexivity.
  - change (shr_1 (Build_shr_record 0 false false))
      with (Build_shr_record 0 false false). now rewrite !IH.
  - now rewrite !IH.
Qed.

Lemma binary_round_aux_zero neg e :
  binary_round_aux prec emax neg 0 e loc_Exact = S754_zero neg.
Proof.
  unfold binary_round_aux, shr_fexp. cbn [Zdigits2 shr_record_of_loc].
  destruct (shr _ e _) as [mrs' e'] eqn:E1.
  pose proof (shr_zero e (fexp prec emax (0 + e) - e)) as Z1.
  rewrite E1 in Z1. cbn [fst] in Z1. subst mrs'.
  cbn [shr_m loc_of_shr_record round_nearest_even Zdigits2 shr_record_of_loc].
  destruct (shr _ e' _) as [mrs'' e''] eqn:E2.
  pose proof (shr_zero e' (fexp prec emax (0 + e') - e')) as Z2.
  rewrite E2 in Z2. cbn [fst] in Z2. now subst mrs''.
Qed.

Lemma of_ratio_zero neg d : 0 < d -> of_ratio neg 0 d = S754_zero neg.
Proof.
  intros Hd. unfold of_ratio, SFdiv_core_binary.
  destruct d as [|p|p]; try lia.
  set (s := 0 - 0 - _).
  replace (match s with
           | 0 => 0
           | Zpos _ => Z.shiftl 0 s
           | Zneg _ => 0
           end) with 0
    by (destruct s; try reflexivity; now rewrite Z.shiftl_0_l).
  cbn [Z.div_eucl].
  replace (new_location (Zpos p) 0) with loc_Exact
    by (unfold new_location; now destruct (Z.even (Zpos p))).
  apply binary_round_aux_zero.
Qed.

(** *** A number divided by itself *)

Lemma div_self s m e :
  div (S754_finite s m e) (S754_finite s m e) = decimal 1 0.
Proof.
  unfold div, SFdiv, SFdiv_core_binary.
  replace (Zdigits2 (Zpos m) + e - (Zdigits2 (Zpos m) + e)) with 0 by lia.
  rewrite Z.sub_diag, xorb_nilpotent.
  change (Z.min (fexp prec emax 0) 0) with (-53).
  change (0 - -53) with 53.
  cbv iota beta.
  rewrite Z.shiftl_mul_pow2 by lia.
  assert (E : Z.div_eucl (Zpos m * 2 ^ 53) (Zpos m) = (2 ^ 53, 0)).
  { pose proof (Z.div_mul (2 ^ 53) (Zpos m) ltac:(discriminate)) as Hq.
    pose proof (Z.mod_mul (2 ^ 53) (Zpos m) ltac:(discriminate)) as Hr.
    rewrite (Z.mul_comm (2 ^ 53)) in Hq, Hr.
    unfold Z.div, Z.modulo in Hq, Hr.
    destruct (Z.div_eucl _ _) as [q r]. now subst. }
  rewrite E.
  replace (new_location (Zpos m) 0) with loc_Exact.
  2:{ unfold new_location, new_location_even, new_location_odd.
      destruct (Z.even (Zpos m)); reflexivity. }
  vm_compute. reflexivity.
Qed.

(** Arithmetic is not unfolded while the handlers are run symbolically. *)
#[local] Opaque add sub mul div decimal of_Z of_ratio canvas_dimension.

(** ** [Number(x.toFixed(f))] rounds to [f] decimals *)

Lemma nearest_scaled_nonneg m e f : 0 <= nearest_scaled m e f.
Proof.
  unfold nearest_scaled.
  assert (0 < 10 ^ Z.of_nat f) by (apply Z.pow_pos_nonneg; lia).
  destruct (Z.leb_spec 0 e).
  - assert (0 < 2 ^ e) by (apply Z.pow_pos_nonneg; lia). nia.
  - assert (0 < 2 ^ (- e)) by (apply Z.pow_pos_nonneg; lia).
    apply Z.div_pos; nia.
Qed.

(** [nearest_scaled] finds the nearest decimal. *)
Lemma nearest_scaled_nearest m e f :
  nearest_decimal m e f (nearest_scaled m e f).
Proof.
  unfold nearest_decimal, nearest_scaled, numerator, denominator.
  set (p := 10 ^ Z.of_nat f).
  assert (Hp : 0 < p) by (apply Z.pow_pos_nonneg; lia).
  destruct (Z.leb_spec 0 e) as [He|He].
  - rewrite (Z.max_r 0 e), (Z.max_l 0 (- e)) by lia.
    change (2 ^ 0) with 1. intros k. split; [lia|]. lia.
  - rewrite (Z.max_l 0 e), (Z.max_r 0 (- e)) by lia.
    change (2 ^ 0) with 1. rewrite Z.mul_1_r.
    set (D := 2 ^ (- e)). set (X := Zpos m * p).
    assert (HD : 0 < D) by (apply Z.pow_pos_nonneg; lia).
    set (n := (2 * X + D) / (2 * D)).
    assert (Hn : 2 * D * n <= 2 * X + D < 2 * D * n + 2 * D).
    { unfold n.
      pose proof (Z.mul_div_le (2 * X + D) (2 * D)).
      pose proof (Z.mul_succ_div_gt (2 * X + D) (2 * D)). lia. }
    intros k.
    assert (Hk : k <= n - 1 \/ k = n \/ n + 1 <= k) by lia.
    destruct Hk as [Hk | [-> | Hk]].
    + assert (k * D <= n * D - D) by nia. split; lia.
    + split; lia.
    + assert (n * D + D <= k * D) by nia. split; lia.
Qed.

(** *** Reading back what [toFixed] wrote *)

Lemma split_point_digits a s :
  split_point (NilEmpty.string_of_uint a ++ String "." s)%string
  = (NilEmpty.string_of_uint a, Some s).
Proof.
  induction a; cbn [NilEmpty.string_of_uint String.append split_point];
    try reflexivity;
    match goal with
    | |- context [Ascii.eqb ?c "."%char] =>
        change (Ascii.eqb c "."%char) with false; cbv iota
    end;
    now rewrite IHa.
Qed.

Lemma digits_not_sign a rest :
  a <> Nil ->
  exists c s,
    (NilEmpty.string_of_uint a ++ rest)%string = String c s /\
    Ascii.eqb c "-"%char = false /\
    Ascii.eqb c "+"%char = false /\
    String.eqb (String c s) "Infinity"%string = false.
Proof.
  intros Ha.
  destruct a; [contradiction|..];
    cbn [NilEmpty.string_of_uint String.append];
    eexists _, _; (split; [reflexivity|]); repeat split.
Qed.

Lemma unsigned_decimal_digits neg a b :
  a <> Nil ->
  unsigned_decimal neg
    (NilEmpty.string_of_uint a ++ String "." (NilEmpty.string_of_uint b))%string
  = of_ratio neg (Z.of_N (N.of_uint (Decimal.app a b)))
             (10 ^ Z.of_nat (nb_digits b)).
Proof.
  intros Ha. unfold unsigned_decimal.
  destruct (digits_not_sign a (String "." (NilEmpty.string_of_uint b)) Ha)
    as (c & s & E & _ & _ & Hinf).
  rewrite E, Hinf, <- E.
  rewrite split_point_digits, !NilEmpty.usu.
  destruct (Decimal.app a b) eqn:Eab; try reflexivity.
  exfalso. apply Ha.
  apply (f_equal nb_digits) in Eab. apply nb_digits_0.
  assert (L : nb_digits (Decimal.app a b) = (nb_digits a + nb_digits b)%nat).
  { now rewrite !nb_digits_spec, app_spec, List.length_app. }
  cbn [nb_digits] in Eab. lia.
Qed.

Lemma Number_unsigned_digits (neg : bool) a b :
  a <> Nil ->
  Number (Lit ((if neg then "-" else EmptyString) ++
               (NilEmpty.string_of_uint a ++
                String "." (NilEmpty.string_of_uint b))))
  = of_ratio neg (Z.of_N (N.of_uint (Decimal.app a b)))
             (10 ^ Z.of_nat (nb_digits b)).
Proof.
  intros Ha. rewrite <- (unsigned_decimal_digits neg a b Ha).
  destruct neg; cbn [String.append Number].
  - reflexivity.
  - destruct (digits_not_sign a (String "." (NilEmpty.string_of_uint b)) Ha)
      as (c & s & E & Hm & Hp & _).
    rewrite E. cbn [Number]. now rewrite Hm, Hp.
Qed.

Lemma nb_digits_padded n f : (f + 1 <= nb_digits (padded n f))%nat.
Proof.
  unfold padded. destruct (Nat.leb_spec (nb_digits (N.to_uint (Z.to_N n))) f).
  - rewrite nb_digits_iter_D0. lia.
  - lia.
Qed.

Lemma of_uint_padded n f : 0 <= n -> Z.of_N (N.of_uint (padded n f)) = n.
Proof.
  intros Hn. unfold padded.
  destruct (Nat.leb (nb_digits (N.to_uint (Z.to_N n))) f).
  - rewrite <- DecimalN.Unsigned.of_uint_norm, unorm_iter_D0,
      DecimalN.Unsigned.of_uint_norm, DecimalN.Unsigned.of_to. lia.
  - rewrite DecimalN.Unsigned.of_to. lia.
Qed.

Lemma Number_fixed_digits (neg : bool) n f :
  0 <= n -> f <> 0%nat ->
  Number (Lit ((if neg then "-" else EmptyString) ++ fixed_digits n f))
  = of_ratio neg n (10 ^ Z.of_nat f).
Proof.
  intros Hn Hf. unfold fixed_digits.
  destruct (Nat.eqb_spec f 0) as [|_]; [contradiction|].
  fold (padded n f).
  pose proof (nb_digits_padded n f) as Hk.
  set (d := padded n f) in *.
  change (String.append (NilEmpty.string_of_uint (del_tail f d))
            ("." ++ NilEmpty.string_of_uint
                      (del_head (nb_digits d - f) d)))%string
    with (NilEmpty.string_of_uint (del_tail f d) ++
          String "." (NilEmpty.string_of_uint
                        (del_head (nb_digits d - f) d)))%string.
  rewrite Number_unsigned_digits.
  - rewrite app_del_tail_head by lia.
    rewrite nb_digits_del_head_sub by lia.
    unfold d. now rewrite of_uint_padded.
  - intros E.
    assert (L : nb_digits (Decimal.app (del_tail f d)
                  (del_head (nb_digits d - f) d)) = nb_digits d)
      by (now rewrite app_del_tail_head by lia).
    rewrite E, DecimalFacts.app_nil_l, nb_digits_del_head_sub in L by lia.
    lia.
Qed.

(** [Number(x.toFixed(f))] is [x] rounded to [f] decimals. *)
Lemma Number_toFixed_rounds x f :
  f <> 0%nat -> rounded_to_decimals f x (Number (toFixed x f)).
Proof.
  intros Hf. destruct x as [s|s| |s m e]; cbn [toFixed].
  - change (fixed_digits 0 f) with ((EmptyString ++ fixed_digits 0 f)%string).
    rewrite (Number_fixed_digits false 0 f) by (lia || assumption).
    rewrite of_ratio_zero by (apply Z.pow_pos_nonneg; lia).
    constructor.
  - constructor.
  - constructor.
  - destruct (at_least_1e21 m e) eqn:Hbig.
    + now apply rounded_large.
    + cbv zeta. rewrite Number_fixed_digits;
        [|apply nearest_scaled_nonneg|assumption].
      constructor; [assumption | apply nearest_scaled_nearest].
Qed.

(** ** The zoom levels *)

Lemma number_eqb_eq x y : number_eqb x y = true <-> x = y.
Proof.
  destruct x, y; simpl; split; intros H; try discriminate; try reflexivity;
    try (apply Bool.eqb_prop in H; congruence);
    try (inversion H; apply Bool.eqb_reflx).
  - apply andb_prop in H as [H He]. apply andb_prop in H as [Hs Hm].
    apply Bool.eqb_prop in Hs. apply Pos.eqb_eq in Hm. apply Z.eqb_eq in He.
    congruence.
  - inversion H; subst.
    now rewrite Bool.eqb_reflx, Pos.eqb_refl, Z.eqb_refl.
Qed.

Lemma isZoomLevel_In z : isZoomLevel z = true <-> In z zoomLevels.
Proof.
  unfold isZoomLevel. rewrite existsb_exists. split.
  - intros (y & Hy & E). apply number_eqb_eq in E. now subst.
  - intros H. exists z. split; [assumption | now apply number_eqb_eq].
Qed.

Lemma zoomLevels_closed z :
  In z zoomLevels ->
  In (zoomIn z) zoomLevels /\ In (zoomOut z) zoomLevels.
Proof.
  intros H.
  assert (C : forallb (fun z => isZoomLevel (zoomIn z) &&
                                isZoomLevel (zoomOut z))
                zoomLevels = true) by (vm_compute; reflexivity).
  rewrite forallb_forall in C. specialize (C z H).
  apply andb_prop in C as [C1 C2].
  split; now apply isZoomLevel_In.
Qed.

Lemma zoomLevels_bounded z :
  In z zoomLevels ->
  leb (decimal 8 1) z = true /\ leb z (decimal 18 1) = true.
Proof.
  intros H.
  assert (C : forallb (fun z => leb (decimal 8 1) z && leb z (decimal 18 1))
                zoomLevels = true) by (vm_compute; reflexivity).
  rewrite forallb_forall in C. specialize (C z H).
  now apply andb_prop in C.
Qed.

Lemma one_isZoomLevel : In (decimal 10 1) zoomLevels.
Proof. apply isZoomLevel_In. vm_compute. reflexivity. Qed.

(** ** Running the monad *)

Lemma run_eta {A} (r : Run A) :
  {| suspended := suspended r; final := final r; completion := completion r |}
  = r.
Proof. now destruct r. Qed.

Lemma bind_set {B} f (k : unit -> Async B) st :
  bind (set f) k st = k tt (f st).
Proof. unfold bind, set. simpl. apply run_eta. Qed.

Lemma bind_ret {A B} (a : A) (k : A -> Async B) st :
  bind (ret a) k st = k a st.
Proof. unfold bind, ret. simpl. apply run_eta. Qed.

Lemma bind_throw {A B} e (k : A -> Async B) st :
  bind (throw e) k st = throw e st.
Proof. reflexivity. Qed.

Lemma bind_call_Normal {A B} (a : A) (k : A -> Async B) st :
  bind (call (Normal a)) k st = k a st.
Proof. unfold bind, call. simpl. apply run_eta. Qed.

Lemma bind_call_Throw {A B} e (k : A -> Async B) st :
  bind (call (Throw e)) k st = throw e st.
Proof. reflexivity. Qed.

Lemma bind_await_Normal {A B} (a : A) (k : A -> Async B) st :
  bind (await (Normal a)) k st =
  {| suspended := st :: suspended (k a st);
     final := final (k a st);
     completion := completion (k a st) |}.
Proof. reflexivity. Qed.

Lemma bind_await_Throw {A B} e (k : A -> Async B) st :
  bind (await (Throw e)) k st =
  {| suspended := [st]; final := st; completion := Throw e |}.
Proof. reflexivity. Qed.

(** ** The rendering pipeline *)

Ltac run_step :=
  first [ rewrite !bind_await_Normal | rewrite !bind_await_Throw
        | rewrite !bind_call_Normal | rewrite !bind_call_Throw
        | rewrite !bind_ret | rewrite !bind_throw ];
  cbn [suspended final completion throw].

Ltac pipeline_fails rule :=
  apply rule;
  [ reflexivity
  | repeat (apply Forall_cons;
            [first [reflexivity | left; reflexivity | right; reflexivity]|]);
    apply Forall_nil ].

Lemma renderPipeline_run browser file st :
  PipelineRun browser file st (renderPipeline browser file st).
Proof.
  unfold renderPipeline.
  destruct (arrayBuffer file) as [buf|e] eqn:Ebuf; run_step;
    [|pipeline_fails pipeline_failed_early].
  destruct (loadPdfjs browser) as [lib|e] eqn:Elib; run_step;
    [|pipeline_fails pipeline_failed_early].
  destruct (getDocument lib buf) as [pdf|e] eqn:Epdf; run_step;
    [|pipeline_fails pipeline_failed_early].
  rewrite bind_set.
  set (st1 := setPageCount (Some (numPages pdf)) st).
  destruct (getPage pdf 1) as [page|e] eqn:Epage; run_step;
    [|pipeline_fails pipeline_failed_late].
  destruct (getViewport page (decimal 1 0)) as [uv|e] eqn:Euv; run_step;
    [|pipeline_fails pipeline_failed_late].
  fold (renderScaleOf browser uv).
  destruct (getViewport page (renderScaleOf browser uv)) as [sv|e] eqn:Esv;
    run_step; [|pipeline_fails pipeline_failed_late].
  destruct (getContext browser) eqn:Ectx; run_step;
    [|pipeline_fails pipeline_failed_late].
  fold (canvasOf sv []).
  destruct (render page _) as [painted|e] eqn:Erender; run_step;
    [|pipeline_fails pipeline_failed_late].
  change {| canvas_width := canvas_width (canvasOf sv []);
            canvas_height := canvas_height (canvasOf sv []);
            canvas_pixels := painted |} with (canvasOf sv painted).
  destruct (toDataURL browser (canvasOf sv painted)) as [url|e] eqn:Eurl;
    run_step; [|pipeline_fails pipeline_failed_late].
  apply (pipeline_rendered browser file st pdf (canvasOf sv painted) url).
  now apply (rendered browser file pdf (canvasOf sv painted) url
               buf lib page uv sv painted).
Qed.

(** Whether a run of the pipeline completes or throws does not depend on
    the state of the component. *)
Lemma renderPipeline_completion browser file st st' :
  completion (renderPipeline browser file st) =
  completion (renderPipeline browser file st').
Proof.
  unfold renderPipeline.
  destruct (arrayBuffer file); run_step; [|reflexivity].
  destruct (loadPdfjs browser); run_step; [|reflexivity].
  destruct (getDocument _ _); run_step; [|reflexivity].
  rewrite !bind_set.
  destruct (getPage _ _) as [page|]; run_step; [|reflexivity].
  destruct (getViewport page (decimal 1 0)); run_step; [|reflexivity].
  destruct (getViewport page _); run_step; [|reflexivity].
  destruct (getContext browser); run_step; [|reflexivity].
  destruct (render page _); run_step; [|reflexivity].
  destruct (toDataURL _ _); run_step; reflexivity.
Qed.

Lemma Rendered_functional browser file pdf canvas url pdf' canvas' url' :
  Rendered browser file pdf canvas url ->
  Rendered browser file pdf' canvas' url' ->
  pdf = pdf' /\ canvas = canvas' /\ url = url'.
Proof.
  intros [buf lib page uv sv painted H1 H2 H3 H4 H5 H6 H7 H8 H9 H10]
         [buf' lib' page' uv' sv' painted' G1 G2 G3 G4 G5 G6 G7 G8 G9 G10].
  assert (buf = buf') by congruence. subst buf'.
  assert (lib = lib') by congruence. subst lib'.
  assert (pdf = pdf') by congruence. subst pdf'.
  assert (page = page') by congruence. subst page'.
  assert (uv = uv') by congruence. subst uv'.
  assert (sv = sv') by congruence. subst sv'.
  assert (painted = painted') by congruence. subst painted'.
  assert (canvas = canvas') by congruence. subst canvas'.
  repeat split; congruence.
Qed.

(** A run of the pipeline that completes is a rendering. *)
Lemma renderPipeline_Normal browser file st :
  completion (renderPipeline browser file st) = Normal tt ->
  exists pdf canvas url,
    Rendered browser file pdf canvas url /\
    suspended (renderPipeline browser file st) =
      (let st1 := setPageCount (Some (numPages pdf)) st in
       [st; st; st; st1; st1]) /\
    final (renderPipeline browser file st) =
      setRenderedImage (Some url) (setPageCount (Some (numPages pdf)) st).
Proof.
  intros H.
  destruct (renderPipeline_run browser file st) as [pdf canvas url R| |];
    try discriminate.
  exists pdf, canvas, url. split; [exact R|]. split; reflexivity.
Qed.

(** ** The handler *)

Lemma handleFileChange_no_file browser event st :
  selectedFile event = None ->
  handleFileChange browser event st =
  {| suspended := []; final := st; completion := Normal tt |}.
Proof. unfold handleFileChange. now intros ->. Qed.

Lemma handleFileChange_rejected browser event file st :
  selectedFile event = Some file ->
  type file <> pdf_mime ->
  handleFileChange browser event st =
  {| suspended := []; final := rejected st; completion := Normal tt |}.
Proof.
  unfold handleFileChange. intros -> Hty.
  apply String.eqb_neq in Hty. rewrite Hty. cbn [negb].
  now rewrite !bind_set.
Qed.

Lemma handleFileChange_accepted browser event file st :
  selectedFile event = Some file ->
  type file = pdf_mime ->
  let r := renderPipeline browser file (accepted file st) in
  handleFileChange browser event st =
  {| suspended := suspended r;
     final := match completion r with
              | Normal _ => setIsRendering false (final r)
              | Throw e => failed e (final r)
              end;
     completion := Normal tt |}.
Proof.
  intros Hsel Hty r. unfold handleFileChange. rewrite Hsel.
  apply String.eqb_eq in Hty. rewrite Hty. cbn [negb].
  rewrite !bind_set. fold (accepted file st).
  unfold try_catch_finally. fold r.
  destruct (completion r) as [[]|e] eqn:E.
  - unfold set. cbn [suspended final completion].
    now rewrite E, List.app_nil_r.
  - unfold renderFailed. rewrite !bind_set.
    unfold set. cbn [suspended final completion].
    now rewrite !List.app_nil_r.
Qed.

Lemma handleFileChange_zoom browser event st :
  let st' := final (handleFileChange browser event st) in
  zoomLevel st' = zoomLevel st \/ zoomLevel st' = decimal 10 1.
Proof.
  destruct (selectedFile event) as [file|] eqn:Hsel.
  - destruct (String.eqb_spec (type file) pdf_mime) as [Hty|Hty].
    + right. rewrite (handleFileChange_accepted _ _ _ _ Hsel Hty).
      cbn [final].
      destruct (renderPipeline_run browser file (accepted file st));
        reflexivity.
    + left. now rewrite (handleFileChange_rejected _ _ _ _ Hsel Hty).
  - left. now rewrite (handleFileChange_no_file _ _ _ Hsel).
Qed.

(** ** The sample library keeps the contract *)

Lemma sampleBrowser_contract : PdfjsContract sampleBrowser.
Proof.
  intros lib data pdf n page Hlib Hdoc Hpage.
  injection Hlib as <-. cbn in Hdoc.
  destruct data as [|b data]; [discriminate|]. injection Hdoc as <-.
  cbn [getPage sampleDocument] in Hpage. cbn [numPages sampleDocument].
  destruct (andb _ _) eqn:E in Hpage; [|discriminate].
  apply andb_prop in E as [E1 E2]. apply Z.leb_le in E1, E2. lia.
Qed.

Lemma silentBrowser_contract : PdfjsContract silentBrowser.
Proof.
  intros lib data pdf n page Hlib Hdoc Hpage.
  injection Hlib as <-. discriminate.
Qed.

(** * The claims *)

(** C1, counterexample: the library rejects the buffer of [invoice.pdf]
    with an [Error] whose message is empty; the error message of the
    component is then the empty string. *)
Lemma render_outcome_as_specified_fails : ~ render_outcome_as_specified.
Proof.
  intros H.
  specialize (H silentBrowser (select invoicePdf) invoicePdf initialState
                silentBrowser_contract eq_refl eq_refl).
  vm_compute in H.
  destruct H as (_ & _ & message & Hm & Hne).
  injection Hm as <-. now apply Hne.
Qed.

(** C1, amended.  For an accepted PDF and a library that keeps the
    contract of [getPage]: when the pipeline completes, the page count is
    an integer of at least 1 and the rendered image is a string; when a
    step throws [e], the handler catches it, rendered image and page
    count are null, and the error message is the message of [e] if [e]
    is an [Error] (hence non-empty unless that message is empty) and the
    fixed text "Something went wrong while rendering the PDF."
    otherwise. *)
Theorem render_outcome browser event file st :
  PdfjsContract browser ->
  selectedFile event = Some file ->
  type file = pdf_mime ->
  let r := handleFileChange browser event st in
  let st' := final r in
  completion r = Normal tt /\
  match completion (renderPipeline browser file (accepted file st)) with
  | Normal _ =>
      (exists n, pageCount st' = Some n /\ 1 <= n) /\
      (exists image, renderedImage st' = Some image)
  | Throw e =>
      renderedImage st' = None /\ pageCount st' = None /\
      renderError st' = Some (errorMessage e) /\
      (e <> Error EmptyString -> errorMessage e <> EmptyString)
  end.
Proof.
  intros Hlib Hsel Hty r st'. subst st' r.
  rewrite (handleFileChange_accepted _ _ _ _ Hsel Hty).
  cbn [final completion]. split; [reflexivity|].
  destruct (completion (renderPipeline browser file (accepted file st)))
    as [[]|e] eqn:E.
  - apply renderPipeline_Normal in E as (pdf & canvas & url & R & _ & ->).
    split.
    + exists (numPages pdf). split; [reflexivity|].
      destruct R as [buf lib page uv sv painted _ H2 H3 H4 _ _ _ _ _ _].
      apply (Hlib lib buf pdf 1 page H2 H3 H4).
    + now exists url.
  - repeat split.
    destruct e as [message|]; cbn [errorMessage]; [congruence|discriminate].
Qed.

Lemma render_outcome_witness :
  PdfjsContract sampleBrowser /\
  selectedFile (select reportPdf) = Some reportPdf /\
  type reportPdf = pdf_mime /\
  let r := handleFileChange sampleBrowser (select reportPdf) initialState in
  let st' := final r in
  completion r = Normal tt /\
  match completion
          (renderPipeline sampleBrowser reportPdf
             (accepted reportPdf initialState)) with
  | Normal _ =>
      (exists n, pageCount st' = Some n /\ 1 <= n) /\
      (exists image, renderedImage st' = Some image)
  | Throw e =>
      renderedImage st' = None /\ pageCount st' = None /\
      renderError st' = Some (errorMessage e) /\
      (e <> Error EmptyString -> errorMessage e <> EmptyString)
  end.
Proof.
  split; [exact sampleBrowser_contract|].
  split; [reflexivity|]. split; [reflexivity|].
  apply (render_outcome sampleBrowser (select reportPdf) reportPdf
           initialState sampleBrowser_contract eq_refl eq_refl).
Defined.

(** C2.  A selected file whose MIME type is not application/pdf leaves no
    rendered image, no file name and no page count, and sets the error
    message to "Please select a PDF file."; no state with a rendered
    image is shown on the way, and zoom and rendering flag are kept. *)
Theorem non_pdf_is_rejected browser event file st :
  selectedFile event = Some file ->
  type file <> pdf_mime ->
  let r := handleFileChange browser event st in
  renderedImage (final r) = None /\
  renderError (final r) = Some "Please select a PDF file."%string /\
  pdfName (final r) = None /\
  pageCount (final r) = None /\
  suspended r = [] /\
  zoomLevel (final r) = zoomLevel st /\
  isRendering (final r) = isRendering st.
Proof.
  intros Hsel Hty r. subst r.
  rewrite (handleFileChange_rejected _ _ _ _ Hsel Hty).
  repeat split.
Qed.

Lemma non_pdf_is_rejected_witness :
  selectedFile (select photoPng) = Some photoPng /\
  type photoPng <> pdf_mime /\
  renderedImage (final (handleFileChange sampleBrowser (select photoPng)
                          invoiceShown)) = None.
Proof.
  assert (Hty : type photoPng <> pdf_mime) by discriminate.
  split; [reflexivity|]. split; [exact Hty|].
  apply (non_pdf_is_rejected sampleBrowser (select photoPng) photoPng
           invoiceShown eq_refl Hty).
Defined.

Lemma run_zoomLevel actions :
  forall st, In (zoomLevel st) zoomLevels ->
             In (zoomLevel (run actions st)) zoomLevels.
Proof.
  induction actions as [|a actions IH]; intros st H; [exact H|].
  apply IH. destruct a; simpl.
  - now apply zoomLevels_closed.
  - now apply zoomLevels_closed.
  - apply one_isZoomLevel.
  - destruct (handleFileChange_zoom browser event st) as [E|E];
      rewrite E; [exact H | apply one_isZoomLevel].
Qed.

Lemma zoomIn_saturates n :
  (8 <= n)%nat ->
  zoomLevel (Nat.iter n handleZoomIn initialState) = decimal 18 1.
Proof.
  intros H. replace n with ((n - 8) + 8)%nat by lia.
  generalize (n - 8)%nat as k. clear.
  induction k as [|k IH]; [vm_compute; reflexivity|].
  change (Nat.iter (S k + 8) handleZoomIn initialState)
    with (handleZoomIn (Nat.iter (k + 8) handleZoomIn initialState)).
  unfold handleZoomIn at 1. simpl zoomLevel. rewrite IH.
  vm_compute. reflexivity.
Qed.

Lemma zoomOut_saturates n :
  (2 <= n)%nat ->
  zoomLevel (Nat.iter n handleZoomOut initialState) = decimal 8 1.
Proof.
  intros H. replace n with ((n - 2) + 2)%nat by lia.
  generalize (n - 2)%nat as k. clear.
  induction k as [|k IH]; [vm_compute; reflexivity|].
  change (Nat.iter (S k + 2) handleZoomOut initialState)
    with (handleZoomOut (Nat.iter (k + 2) handleZoomOut initialState)).
  unfold handleZoomOut at 1. simpl zoomLevel. rewrite IH.
  vm_compute. reflexivity.
Qed.

(** C3.  Starting from the initial state (zoom 1.0), after any sequence of
    zoom-out, zoom-in, reset and file-selection actions the zoom level [z]
    satisfies [0.8 <= z <= 1.8]; eight or more zoom-in steps from the
    initial state give exactly 1.8, and two or more zoom-out steps give
    exactly 0.8. *)
Theorem zoom_always_within_bounds :
  (forall actions,
      let z := zoomLevel (run actions initialState) in
      leb (decimal 8 1) z = true /\ leb z (decimal 18 1) = true) /\
  (forall n, (8 <= n)%nat ->
      zoomLevel (Nat.iter n handleZoomIn initialState) = decimal 18 1) /\
  (forall n, (2 <= n)%nat ->
      zoomLevel (Nat.iter n handleZoomOut initialState) = decimal 8 1).
Proof.
  split; [|split].
  - intros actions z. apply zoomLevels_bounded.
    apply run_zoomLevel. apply one_isZoomLevel.
  - apply zoomIn_saturates.
  - apply zoomOut_saturates.
Qed.

Lemma zoom_always_within_bounds_witness :
  (let z := zoomLevel (run [ZoomIn; ZoomIn; FileChange sampleBrowser
                              (select invoicePdf); ZoomOut; ZoomOut; ZoomOut]
                         initialState) in
   leb (decimal 8 1) z = true /\ leb z (decimal 18 1) = true) /\
  zoomLevel (Nat.iter 9 handleZoomIn initialState) = decimal 18 1 /\
  zoomLevel (Nat.iter 3 handleZoomOut initialState) = decimal 8 1.
Proof.
  destruct zoom_always_within_bounds as (Hb & Hin & Hout).
  split; [apply Hb|]. split; [apply Hin; lia | apply Hout; lia].
Defined.

(** C4.  For every state, with [v] its zoom level: zoom-out gives
    [Math.max(0.8, v - 0.1)] rounded to two decimals, zoom-in gives
    [Math.min(1.8, v + 0.1)] rounded to two decimals, and reset gives
    1.0.  On the zoom levels 0.80, 0.90, ..., 1.80 a step moves to the
    neighbouring level exactly (no drift), staying at 1.80 and at 0.80. *)
Theorem zoom_operations_compute :
  (forall st,
      let v := zoomLevel st in
      rounded_to_decimals 2
        (Math_max [decimal 8 1; sub v (decimal 1 1)])
        (zoomLevel (handleZoomOut st)) /\
      rounded_to_decimals 2
        (Math_min [decimal 18 1; add v (decimal 1 1)])
        (zoomLevel (handleZoomIn st)) /\
      zoomLevel (handleZoomReset st) = decimal 10 1) /\
  (forall i, (i <= 10)%nat ->
      zoomIn (zoomStep i) = zoomStep (Nat.min 10 (S i)) /\
      zoomOut (zoomStep i) = zoomStep (Nat.pred i)) /\
  zoomStep 0 = decimal 8 1 /\ zoomStep 2 = decimal 10 1 /\
  zoomStep 10 = decimal 18 1.
Proof.
  split; [|split].
  - intros st v. cbn [handleZoomOut handleZoomIn handleZoomReset
                        setZoomLevel zoomLevel].
    fold v. unfold zoomOut, zoomIn.
    repeat split; apply Number_toFixed_rounds; discriminate.
  - intros i Hi.
    do 11 (destruct i as [|i]; [vm_compute; split; reflexivity|]).
    lia.
  - vm_compute. repeat split.
Qed.

Lemma zoom_operations_compute_witness :
  zoomIn (zoomStep 3) = zoomStep 4 /\ zoomOut (zoomStep 3) = zoomStep 2 /\
  zoomIn (zoomStep 10) = zoomStep 10 /\ zoomOut (zoomStep 0) = zoomStep 0.
Proof.
  destruct zoom_operations_compute as (_ & H & _).
  pose proof (H 3%nat ltac:(lia)) as [H3 H3'].
  pose proof (H 10%nat ltac:(lia)) as [H10 _].
  pose proof (H 0%nat ltac:(lia)) as [_ H0].
  repeat split; assumption.
Defined.

(** The product can fall just below the integer: an A4 page (595.276
    wide) in a container of 703 pixels gets a canvas of 2811 pixels. *)
Lemma bitmap_width_one_less :
  let w := decimal 595276 3 in
  canvas_dimension 300 (mul w (mul (div (of_Z 703) w) (decimal 4 0)))
  = 4 * 703 - 1.
Proof. vm_compute. reflexivity. Qed.

(** C5.  For a rendering of a PDF whose page one has native width [w]
    (a binary64 number between 0.001 and 10^6), with a preview container
    of [cw] pixels ([cw] below 2^29): the viewport that is rendered is the
    one at scale [(cw / w) * 4], the width of the canvas is the width of
    that viewport converted to an integer, and it is [4 * cw] or, when
    the product falls just below that integer, [4 * cw - 1]. *)
Theorem bitmap_width_is_four_times_container
    browser file pdf canvas dataUrl w cw :
  Rendered browser file pdf canvas dataUrl ->
  PageOneWidth pdf w ->
  previewContainer browser = Some cw ->
  0 <= cw < 2 ^ 29 ->
  valid_binary prec emax w = true ->
  ltb (decimal 1 3) w = true ->
  ltb w (decimal 1000000 0) = true ->
  let renderScale := mul (div (of_Z cw) w) (decimal 4 0) in
  (exists page scaledViewport,
      getPage pdf 1 = Normal page /\
      getViewport page renderScale = Normal scaledViewport /\
      canvas_width canvas = canvas_dimension 300 (width scaledViewport)) /\
  4 * cw - 1 <= canvas_width canvas <= 4 * cw.
Proof.
  intros R Hw Hcw Bcw Hv Hlo Hhi renderScale.
  destruct R as [buf lib page uv sv painted _ _ _ Hpage Huv Hsv _ _ Hcanvas _].
  destruct (Hw page Hpage) as [Hw1 Hws].
  assert (Escale : renderScaleOf browser uv = renderScale).
  { unfold renderScaleOf. now rewrite Hcw, (Hw1 uv Huv). }
  rewrite Escale in Hsv.
  assert (Ewidth : canvas_width canvas = canvas_dimension 300 (width sv))
    by now rewrite Hcanvas.
  split.
  - now exists page, sv.
  - rewrite Ewidth, (Hws renderScale sv Hsv).
    now apply scaled_width_bounds.
Qed.

Lemma invoice_rendered :
  Rendered sampleBrowser invoicePdf (sampleDocument 1) invoiceCanvas
           "data:image/jpeg;base64,AQ=="%string.
Proof.
  apply (rendered sampleBrowser invoicePdf (sampleDocument 1) invoiceCanvas
           "data:image/jpeg;base64,AQ=="%string
           [37] sampleLib (samplePage 1)
           {| width := mul (decimal 612 0) (decimal 1 0);
              height := mul (decimal 792 0) (decimal 1 0) |}
           invoiceViewport [1]);
    reflexivity.
Qed.

Lemma invoice_page_width : PageOneWidth (sampleDocument 1) (decimal 612 0).
Proof.
  intros page Hpage. injection Hpage as <-. split.
  - intros vp Hvp. injection Hvp as <-. vm_compute. reflexivity.
  - intros s vp Hvp. now injection Hvp as <-.
Qed.

Lemma bitmap_width_is_four_times_container_witness :
  PageOneWidth (sampleDocument 1) (decimal 612 0) /\
  previewContainer sampleBrowser = Some 730 /\
  (0 <= 730 < 2 ^ 29) /\
  valid_binary prec emax (decimal 612 0) = true /\
  4 * 730 - 1 <= canvas_width invoiceCanvas <= 4 * 730.
Proof.
  assert (Bcw : 0 <= 730 < 2 ^ 29)
    by (vm_compute; split; [discriminate | reflexivity]).
  assert (Hv : valid_binary prec emax (decimal 612 0) = true)
    by (vm_compute; reflexivity).
  split; [exact invoice_page_width|]. split; [reflexivity|].
  split; [exact Bcw|]. split; [exact Hv|].
  apply (bitmap_width_is_four_times_container
           sampleBrowser invoicePdf (sampleDocument 1) invoiceCanvas
           "data:image/jpeg;base64,AQ=="%string (decimal 612 0) 730
           invoice_rendered invoice_page_width eq_refl Bcw Hv).
  - vm_compute. reflexivity.
  - vm_compute. reflexivity.
Defined.

(** C6, counterexample: [report.pdf] is selected while [invoice.pdf] is
    shown; the image of the invoice is still there at the first
    suspension. *)
Lemma image_cleared_on_upload_as_specified_fails :
  ~ image_cleared_on_upload_as_specified.
Proof.
  intros H.
  specialize (H sampleBrowser (select reportPdf) reportPdf invoiceShown
                eq_refl eq_refl).
  vm_compute in H. inversion H as [|s l Hs _]. discriminate Hs.
Qed.

(** C6, amended.  The rendered image is null in the initial state; the
    zoom handlers and an empty selection leave it as it is; a rejected
    (non-PDF) selection sets it to null; for an accepted PDF it keeps the
    value it had before the selection in every state shown while the
    pipeline is suspended, and at the end it is the encoded bitmap of the
    new file when the pipeline completed and null when a step threw. *)
Theorem rendered_image_lifecycle :
  renderedImage initialState = None /\
  (forall st,
      renderedImage (handleZoomIn st) = renderedImage st /\
      renderedImage (handleZoomOut st) = renderedImage st /\
      renderedImage (handleZoomReset st) = renderedImage st) /\
  (forall browser event st,
      selectedFile event = None ->
      renderedImage (final (handleFileChange browser event st))
      = renderedImage st) /\
  (forall browser event file st,
      selectedFile event = Some file ->
      type file <> pdf_mime ->
      renderedImage (final (handleFileChange browser event st)) = None) /\
  (forall browser event file st,
      selectedFile event = Some file ->
      type file = pdf_mime ->
      let r := handleFileChange browser event st in
      Forall (fun s => renderedImage s = renderedImage st) (suspended r) /\
      match completion (renderPipeline browser file (accepted file st)) with
      | Normal _ =>
          exists pdf canvas dataUrl,
            Rendered browser file pdf canvas dataUrl /\
            renderedImage (final r) = Some dataUrl
      | Throw _ => renderedImage (final r) = None
      end).
Proof.
  split; [reflexivity|]. split; [now intros st|]. split; [|split].
  - intros browser event st Hsel.
    now rewrite (handleFileChange_no_file _ _ _ Hsel).
  - intros browser event file st Hsel Hty.
    now rewrite (handleFileChange_rejected _ _ _ _ Hsel Hty).
  - intros browser event file st Hsel Hty r. subst r.
    rewrite (handleFileChange_accepted _ _ _ _ Hsel Hty).
    cbn [suspended final].
    destruct (renderPipeline_run browser file (accepted file st))
      as [pdf canvas url R | e susp Hhd HF | e pdf susp Hhd st1 HF];
      cbn [suspended final completion].
    + split; [repeat constructor|]. now exists pdf, canvas, url.
    + split; [|reflexivity]. eapply Forall_impl; [|exact HF]. now intros s ->.
    + split; [|reflexivity]. eapply Forall_impl; [|exact HF].
      now intros s [-> | ->].
Qed.

Lemma rendered_image_lifecycle_witness :
  Forall (fun s => renderedImage s = renderedImage invoiceShown)
    (suspended (handleFileChange sampleBrowser (select reportPdf)
                  invoiceShown)) /\
  renderedImage (final (handleFileChange sampleBrowser (select photoPng)
                          invoiceShown)) = None.
Proof.
  destruct rendered_image_lifecycle as (_ & _ & _ & Hrej & Hacc).
  split.
  - apply (Hacc sampleBrowser (select reportPdf) reportPdf invoiceShown
             eq_refl eq_refl).
  - apply (Hrej sampleBrowser (select photoPng) photoPng invoiceShown
             eq_refl). discriminate.
Defined.

(** C7.  When a first PDF was rendered and then a second PDF is rendered,
    the file name, the rendered image and the page count are those of the
    second file: its name, the encoded bitmap of its first page and the
    number of pages of its document.  The whole state after the second
    rendering is the one the second file gives from any other state, so
    nothing of the first file is left in it. *)
Theorem second_upload_replaces_first
    browser1 event1 file1 browser2 event2 file2 st :
  selectedFile event1 = Some file1 -> type file1 = pdf_mime ->
  selectedFile event2 = Some file2 -> type file2 = pdf_mime ->
  completion (renderPipeline browser1 file1 (accepted file1 st)) = Normal tt ->
  let st1 := final (handleFileChange browser1 event1 st) in
  completion (renderPipeline browser2 file2 (accepted file2 st1)) = Normal tt ->
  let st2 := final (handleFileChange browser2 event2 st1) in
  (exists pdf2 canvas2 dataUrl2,
      Rendered browser2 file2 pdf2 canvas2 dataUrl2 /\
      pdfName st2 = Some (name file2) /\
      renderedImage st2 = Some dataUrl2 /\
      pageCount st2 = Some (numPages pdf2)) /\
  (forall st', final (handleFileChange browser2 event2 st') = st2).
Proof.
  intros Hsel1 Hty1 Hsel2 Hty2 _ st1 H2 st2.
  assert (F : forall s,
             exists pdf canvas url,
               Rendered browser2 file2 pdf canvas url /\
               final (handleFileChange browser2 event2 s) =
               {| renderedImage := Some url;
                  pdfName := Some (name file2);
                  isRendering := false;
                  renderError := None;
                  pageCount := Some (numPages pdf);
                  zoomLevel := decimal 10 1 |}).
  { intros s.
    rewrite (handleFileChange_accepted _ _ _ _ Hsel2 Hty2). cbn [final].
    rewrite (renderPipeline_completion browser2 file2 _ (accepted file2 st1)).
    rewrite H2.
    destruct (renderPipeline_Normal browser2 file2 (accepted file2 s))
      as (pdf & canvas & url & R & _ & ->).
    - now rewrite (renderPipeline_completion browser2 file2 _
                     (accepted file2 st1)).
    - now exists pdf, canvas, url. }
  destruct (F st1) as (pdf2 & canvas2 & url2 & R2 & E2).
  split.
  - exists pdf2, canvas2, url2. subst st2. rewrite E2. now repeat split.
  - intros st'. destruct (F st') as (pdf & canvas & url & R & E).
    destruct (Rendered_functional _ _ _ _ _ _ _ _ R R2) as (-> & _ & ->).
    subst st2. now rewrite E, E2.
Qed.

Lemma second_upload_replaces_first_witness :
  let st1 := final (handleFileChange sampleBrowser (select invoicePdf)
                      (handleZoomIn initialState)) in
  let st2 := final (handleFileChange sampleBrowser (select reportPdf) st1) in
  (exists pdf2 canvas2 dataUrl2,
      Rendered sampleBrowser reportPdf pdf2 canvas2 dataUrl2 /\
      pdfName st2 = Some (name reportPdf) /\
      renderedImage st2 = Some dataUrl2 /\
      pageCount st2 = Some (numPages pdf2)) /\
  (forall st',
      final (handleFileChange sampleBrowser (select reportPdf) st') = st2).
Proof.
  apply (second_upload_replaces_first
           sampleBrowser (select invoicePdf) invoicePdf
           sampleBrowser (select reportPdf) reportPdf
           (handleZoomIn initialState) eq_refl eq_refl eq_refl eq_refl).
  - vm_compute. reflexivity.
  - vm_compute. reflexivity.
Defined.

(** C8.  For an accepted PDF, the state in which [handleFileChange] first
    suspends (at [await file.arrayBuffer()], the first step of the
    pipeline) has zoom level 1.0, no error message and the rendering flag
    set; it also carries the name of the new file. *)
Theorem accepted_pdf_resets_before_pipeline browser event file st :
  selectedFile event = Some file ->
  type file = pdf_mime ->
  exists st0 rest,
    suspended (handleFileChange browser event st) = st0 :: rest /\
    zoomLevel st0 = decimal 10 1 /\
    renderError st0 = None /\
    isRendering st0 = true /\
    pdfName st0 = Some (name file).
Proof.
  intros Hsel Hty.
  rewrite (handleFileChange_accepted _ _ _ _ Hsel Hty).
  cbn [suspended].
  destruct (renderPipeline_run browser file (accepted file st))
    as [pdf canvas url R | e susp Hhd HF | e pdf susp Hhd st1 HF].
  - eexists _, _. split; [reflexivity|]. repeat split.
  - destruct susp as [|s susp]; [discriminate|]. injection Hhd as ->.
    eexists _, _. split; [reflexivity|]. repeat split.
  - destruct susp as [|s susp]; [discriminate|]. injection Hhd as ->.
    eexists _, _. split; [reflexivity|]. repeat split.
Qed.

Lemma accepted_pdf_resets_before_pipeline_witness :
  selectedFile (select reportPdf) = Some reportPdf /\
  type reportPdf = pdf_mime /\
  exists st0 rest,
    suspended (handleFileChange sampleBrowser (select reportPdf)
                 (handleZoomIn invoiceShown)) = st0 :: rest /\
    zoomLevel st0 = decimal 10 1 /\
    renderError st0 = None /\
    isRendering st0 = true /\
    pdfName st0 = Some (name reportPdf).
Proof.
  split; [reflexivity|]. split; [reflexivity|].
  apply (accepted_pdf_resets_before_pipeline sampleBrowser (select reportPdf)
           reportPdf (handleZoomIn invoiceShown) eq_refl eq_refl).
Defined.

(** C9.  When no file is selected ([files] is null or empty),
    [handleFileChange] returns at once, without suspending, and the state
    is the one it started from, field by field. *)
Theorem empty_selection_changes_nothing browser event st :
  selectedFile event = None ->
  let r := handleFileChange browser event st in
  final r = st /\ suspended r = [] /\ completion r = Normal tt /\
  renderedImage (final r) = renderedImage st /\
  pdfName (final r) = pdfName st /\
  pageCount (final r) = pageCount st /\
  zoomLevel (final r) = zoomLevel st /\
  isRendering (final r) = isRendering st /\
  renderError (final r) = renderError st.
Proof.
  intros Hsel r. subst r.
  rewrite (handleFileChange_no_file _ _ _ Hsel).
  repeat split.
Qed.

Lemma empty_selection_changes_nothing_witness :
  selectedFile {| files := Some [] |} = None /\
  final (handleFileChange sampleBrowser {| files := Some [] |} invoiceShown)
  = invoiceShown.
Proof.
  split; [reflexivity|].
  apply (empty_selection_changes_nothing sampleBrowser {| files := Some [] |}
           invoiceShown eq_refl).
Defined.

(** C10.  For an accepted PDF the rendering flag is true while the
    pipeline is suspended and false when [handleFileChange] is done,
    whether the pipeline completed or threw; the handler itself does not
    throw. *)
Theorem rendering_flag_cleared browser event file st :
  selectedFile event = Some file ->
  type file = pdf_mime ->
  let r := handleFileChange browser event st in
  isRendering (final r) = false /\
  Forall (fun s => isRendering s = true) (suspended r) /\
  completion r = Normal tt.
Proof.
  intros Hsel Hty r. subst r.
  rewrite (handleFileChange_accepted _ _ _ _ Hsel Hty).
  cbn [suspended final completion].
  destruct (renderPipeline_run browser file (accepted file st))
    as [pdf canvas url R | e susp Hhd HF | e pdf susp Hhd st1 HF];
    cbn [suspended final completion].
  - repeat split. repeat constructor.
  - repeat split. eapply Forall_impl; [|exact HF]. now intros s ->.
  - repeat split. eapply Forall_impl; [|exact HF].
    now intros s [-> | ->].
Qed.

Lemma rendering_flag_cleared_witness :
  selectedFile (select emptyPdf) = Some emptyPdf /\
  type emptyPdf = pdf_mime /\
  isRendering (final (handleFileChange sampleBrowser (select emptyPdf)
                        invoiceShown)) = false.
Proof.
  split; [reflexivity|]. split; [reflexivity|].
  apply (rendering_flag_cleared sampleBrowser (select emptyPdf) emptyPdf
           invoiceShown eq_refl eq_refl).
Defined.

(** * Further properties *)

(** ** The state after an upload *)

Lemma accepted_final browser event file st st' :
  selectedFile event = Some file ->
  type file = pdf_mime ->
  final (handleFileChange browser event st)
  = final (handleFileChange browser event st').
Proof.
  intros Hsel Hty.
  rewrite !(handleFileChange_accepted _ _ _ _ Hsel Hty). cbn [final].
  pose proof (renderPipeline_completion browser file
                (accepted file st) (accepted file st')) as C.
  revert C.
  destruct (renderPipeline_run browser file (accepted file st))
    as [pdf canvas url R | e susp _ _ | e pdf susp _ st1 _];
    destruct (renderPipeline_run browser file (accepted file st'))
    as [pdf' canvas' url' R' | e' susp' _ _ | e' pdf' susp' _ st1' _];
    cbn [completion final]; intros C; try discriminate C.
  - destruct (Rendered_functional _ _ _ _ _ _ _ _ R R') as (-> & _ & ->).
    reflexivity.
  - injection C as ->. reflexivity.
  - injection C as ->. reflexivity.
  - injection C as ->. reflexivity.
  - injection C as ->. reflexivity.
Qed.

Lemma accepted_outcome browser event file st :
  selectedFile event = Some file ->
  type file = pdf_mime ->
  (exists pdf canvas url,
      Rendered browser file pdf canvas url /\
      final (handleFileChange browser event st)
      = uploaded file (Some url) (Some (numPages pdf)) None) \/
  (exists e,
      completion (renderPipeline browser file (accepted file st)) = Throw e /\
      final (handleFileChange browser event st)
      = uploaded file None None (Some (errorMessage e))).
Proof.
  intros Hsel Hty.
  rewrite (handleFileChange_accepted _ _ _ _ Hsel Hty). cbn [final].
  destruct (renderPipeline_run browser file (accepted file st))
    as [pdf canvas url R | e susp _ _ | e pdf susp _ st1 _];
    cbn [completion final].
  - left. now exists pdf, canvas, url.
  - right. now exists e.
  - right. now exists e.
Qed.

(** X1.  For an accepted PDF the state in which [handleFileChange] leaves
    the component does not depend on the state it started from, whether
    the pipeline completed or threw: the six state variables are the name
    of the file, zoom 1.0, rendering flag false, and either an image and a
    page count without error message, or an error message without image
    and page count. *)
Theorem accepted_upload_overwrites_state browser event file :
  selectedFile event = Some file ->
  type file = pdf_mime ->
  exists image count error,
    (forall st,
        final (handleFileChange browser event st)
        = uploaded file image count error) /\
    (image <> None /\ count <> None /\ error = None \/
     image = None /\ count = None /\ error <> None).
Proof.
  intros Hsel Hty.
  destruct (accepted_outcome browser event file initialState Hsel Hty)
    as [(pdf & canvas & url & _ & E) | (e & _ & E)].
  - exists (Some url), (Some (numPages pdf)), None. split.
    + intros st. now rewrite (accepted_final _ _ _ st initialState Hsel Hty).
    + left. repeat split; discriminate.
  - exists None, None, (Some (errorMessage e)). split.
    + intros st. now rewrite (accepted_final _ _ _ st initialState Hsel Hty).
    + right. repeat split; discriminate.
Qed.

Lemma accepted_upload_overwrites_state_witness :
  selectedFile (select emptyPdf) = Some emptyPdf /\
  type emptyPdf = pdf_mime /\
  exists image count error,
    (forall st,
        final (handleFileChange sampleBrowser (select emptyPdf) st)
        = uploaded emptyPdf image count error) /\
    (image <> None /\ count <> None /\ error = None \/
     image = None /\ count = None /\ error <> None).
Proof.
  split; [reflexivity|]. split; [reflexivity|].
  apply (accepted_upload_overwrites_state sampleBrowser (select emptyPdf)
           emptyPdf eq_refl eq_refl).
Defined.

(** X2.  Handling the same selection twice in a row, with the browser
    and the library answering as before, leaves the state that handling
    it once leaves: for no file, for a file that is not a PDF and for a
    PDF, rendered or not. *)
Theorem handleFileChange_idempotent browser event st :
  let handle := fun st => final (handleFileChange browser event st) in
  handle (handle st) = handle st.
Proof.
  intros handle. subst handle. cbv beta.
  destruct (selectedFile event) as [file|] eqn:Hsel.
  - destruct (String.eqb_spec (type file) pdf_mime) as [Hty|Hty].
    + apply (accepted_final _ _ _ _ _ Hsel Hty).
    + now rewrite !(handleFileChange_rejected _ _ _ _ Hsel Hty).
  - now rewrite !(handleFileChange_no_file _ _ _ Hsel).
Qed.

(** ** States between two handlers *)

Lemma step_Consistent st a : Consistent st -> Consistent (step st a).
Proof.
  intros C. destruct a as [| | |browser event]; try exact C.
  cbn [step].
  destruct (selectedFile event) as [file|] eqn:Hsel.
  - destruct (String.eqb_spec (type file) pdf_mime) as [Hty|Hty].
    + destruct (accepted_outcome browser event file st Hsel Hty)
        as [(pdf & canvas & url & _ & ->) | (e & _ & ->)].
      * split; [reflexivity|]. cbn. repeat split; discriminate.
      * split; reflexivity.
    + rewrite (handleFileChange_rejected _ _ _ _ Hsel Hty). cbn [final].
      destruct C as [C1 _]. split; [exact C1 | reflexivity].
  - now rewrite (handleFileChange_no_file _ _ _ Hsel).
Qed.

Lemma run_Consistent actions :
  forall st, Consistent st -> Consistent (run actions st).
Proof.
  induction actions as [|a actions IH]; intros st C; [exact C|].
  apply IH. now apply step_Consistent.
Qed.

Lemma initialState_Consistent : Consistent initialState.
Proof. split; reflexivity. Qed.

(** X3.  Between two handlers (the handlers of a session running one
    after the other, from the initial state), the rendering flag is
    false, a rendered image comes with a file name and a page count and
    without error message, and without rendered image there is no page
    count; so an error message and a rendered image never stand
    together. *)
Theorem settled_state_is_consistent actions :
  let st := run actions initialState in
  Consistent st /\
  (renderError st = None \/ renderedImage st = None).
Proof.
  intros st.
  assert (C : Consistent st)
    by (apply run_Consistent, initialState_Consistent).
  split; [exact C|].
  destruct C as [_ C]. destruct (renderedImage st).
  - left. apply C.
  - now right.
Qed.

(** ** Runs of the pipeline *)

Lemma renderPipeline_unreadable browser file st e :
  arrayBuffer file = Throw e ->
  renderPipeline browser file st
  = {| suspended := [st]; final := st; completion := Throw e |}.
Proof. intros E. unfold renderPipeline. rewrite E. now run_step. Qed.

(** X4.  When no file is selected, when the file is not a PDF, and when
    the bytes of the PDF cannot be read, the run of [handleFileChange]
    (the states shown at its suspensions, the state it ends in and its
    completion) is the same with every browser and every PDF library:
    neither [loadPdfjs()] nor the canvas is reached. *)
Theorem browser_unused_before_library_load browser browser' event st :
  reachesLoadPdfjs event = false ->
  handleFileChange browser event st = handleFileChange browser' event st.
Proof.
  unfold reachesLoadPdfjs. intros H.
  destruct (selectedFile event) as [file|] eqn:Hsel.
  - destruct (String.eqb_spec (type file) pdf_mime) as [Hty|Hty].
    + destruct (arrayBuffer file) as [buf|e] eqn:Ebuf; [discriminate|].
      rewrite !(handleFileChange_accepted _ _ _ _ Hsel Hty).
      now rewrite !(renderPipeline_unreadable _ _ _ _ Ebuf).
    + now rewrite !(handleFileChange_rejected _ _ _ _ Hsel Hty).
  - now rewrite !(handleFileChange_no_file _ _ _ Hsel).
Qed.

Lemma browser_unused_before_library_load_witness :
  reachesLoadPdfjs (select unreadablePdf) = false /\
  handleFileChange sampleBrowser (select unreadablePdf) invoiceShown
  = handleFileChange noCanvasBrowser (select unreadablePdf) invoiceShown.
Proof.
  split; [reflexivity|].
  apply (browser_unused_before_library_load sampleBrowser noCanvasBrowser
           (select unreadablePdf) invoiceShown eq_refl).
Defined.

Lemma renderPipeline_suspensions browser file st :
  (1 <= List.length (suspended (renderPipeline browser file st)) <= 5)%nat.
Proof.
  unfold renderPipeline.
  destruct (arrayBuffer file); run_step; [|cbn [List.length]; lia].
  destruct (loadPdfjs browser); run_step; [|cbn [List.length]; lia].
  destruct (getDocument _ _); run_step; [|cbn [List.length]; lia].
  rewrite !bind_set.
  destruct (getPage _ _) as [page|]; run_step; [|cbn [List.length]; lia].
  destruct (getViewport page (decimal 1 0)); run_step;
    [|cbn [List.length]; lia].
  destruct (getViewport page _); run_step; [|cbn [List.length]; lia].
  destruct (getContext browser); run_step; [|cbn [List.length]; lia].
  destruct (render page _); run_step; [|cbn [List.length]; lia].
  destruct (toDataURL _ _); run_step; unfold set;
    cbn [suspended List.length]; lia.
Qed.

(** X5.  [handleFileChange] suspends at most five times (at the five
    [await]s: the bytes, the library, the document, the page, the
    rendering).  It does not suspend at all exactly when no PDF is
    selected, and a run whose pipeline completes has suspended five
    times. *)
Theorem handler_suspends_at_most_five_times browser event st :
  let n := List.length (suspended (handleFileChange browser event st)) in
  (n <= 5)%nat /\
  (n = 0%nat <->
   forall file, selectedFile event = Some file -> type file <> pdf_mime) /\
  (forall file,
      selectedFile event = Some file ->
      type file = pdf_mime ->
      completion (renderPipeline browser file (accepted file st)) = Normal tt ->
      n = 5%nat).
Proof.
  intros n. subst n.
  destruct (selectedFile event) as [file|] eqn:Hsel.
  - destruct (String.eqb_spec (type file) pdf_mime) as [Hty|Hty].
    + rewrite (handleFileChange_accepted _ _ _ _ Hsel Hty). cbn [suspended].
      pose proof (renderPipeline_suspensions browser file (accepted file st))
        as B.
      split; [lia|]. split.
      * split; [intros H0; exfalso; lia|].
        intros H. now destruct (H file eq_refl).
      * intros file' [= <-] _ C.
        apply renderPipeline_Normal in C as (pdf & canvas & url & _ & -> & _).
        reflexivity.
    + rewrite (handleFileChange_rejected _ _ _ _ Hsel Hty). cbn.
      split; [lia|]. split.
      * split; [|reflexivity]. now intros _ file' [= <-].
      * now intros file' [= <-] Hty'.
  - rewrite (handleFileChange_no_file _ _ _ Hsel). cbn.
    split; [lia|]. split.
    + split; [|reflexivity]. intros _ file'. discriminate.
    + intros file'. discriminate.
Qed.

Lemma Rendered_final browser event file pdf canvas dataUrl st :
  selectedFile event = Some file ->
  type file = pdf_mime ->
  Rendered browser file pdf canvas dataUrl ->
  final (handleFileChange browser event st)
  = uploaded file (Some dataUrl) (Some (numPages pdf)) None.
Proof.
  intros Hsel Hty R.
  destruct (accepted_outcome browser event file st Hsel Hty)
    as [(pdf' & canvas' & url' & R' & ->) | (e & C & _)].
  - now destruct (Rendered_functional _ _ _ _ _ _ _ _ R R') as (-> & _ & ->).
  - exfalso. revert C.
    destruct R as [buf lib page uv sv painted H1 H2 H3 H4 H5 H6 H7 H8 H9 H10].
    unfold renderPipeline.
    rewrite H1; run_step. rewrite H2; run_step. rewrite H3; run_step.
    rewrite bind_set. rewrite H4; run_step. rewrite H5; run_step.
    fold (renderScaleOf browser uv). rewrite H6; run_step.
    rewrite H7; run_step. fold (canvasOf sv []). rewrite H8; run_step.
    change {| canvas_width := canvas_width (canvasOf sv []);
              canvas_height := canvas_height (canvasOf sv []);
              canvas_pixels := painted |} with (canvasOf sv painted).
    rewrite <- H9, H10; run_step. discriminate.
Qed.

(** X6.  Without preview container ([previewContainerRef.current] is
    null) the container width falls back to the width of the page, and
    for a page whose width at scale 1 is finite and not zero the target
    scale is exactly 1: the page is rendered at scale exactly 4, whatever
    its size, and the canvas takes the dimensions of that viewport. *)
Theorem no_container_renders_at_scale_four
    browser file pdf canvas dataUrl :
  Rendered browser file pdf canvas dataUrl ->
  previewContainer browser = None ->
  (forall page vp,
      getPage pdf 1 = Normal page ->
      getViewport page (decimal 1 0) = Normal vp ->
      exists s m e, width vp = S754_finite s m e) ->
  exists page scaledViewport,
    getPage pdf 1 = Normal page /\
    getViewport page (decimal 4 0) = Normal scaledViewport /\
    canvas_width canvas = canvas_dimension 300 (width scaledViewport) /\
    canvas_height canvas = canvas_dimension 150 (height scaledViewport).
Proof.
  intros R Hnone Hw.
  destruct R as [buf lib page uv sv painted _ _ _ Hpage Huv Hsv _ _ Hcanvas _].
  destruct (Hw page uv Hpage Huv) as (s & m & e & Ew).
  assert (Escale : renderScaleOf browser uv = decimal 4 0).
  { unfold renderScaleOf. rewrite Hnone, Ew, div_self.
    vm_compute. reflexivity. }
  rewrite Escale in Hsv.
  exists page, sv. rewrite Hcanvas. now repeat split.
Qed.

Lemma detached_rendered :
  Rendered detachedBrowser invoicePdf (sampleDocument 1)
    (canvasOf {| width := mul (decimal 612 0) (decimal 4 0);
                 height := mul (decimal 792 0) (decimal 4 0) |} [1])
    "data:image/jpeg;base64,AQ=="%string.
Proof.
  apply (rendered detachedBrowser invoicePdf (sampleDocument 1) _ _
           [37] sampleLib (samplePage 1)
           {| width := mul (decimal 612 0) (decimal 1 0);
              height := mul (decimal 792 0) (decimal 1 0) |}
           {| width := mul (decimal 612 0) (decimal 4 0);
              height := mul (decimal 792 0) (decimal 4 0) |} [1]);
    reflexivity.
Qed.

Lemma no_container_renders_at_scale_four_witness :
  previewContainer detachedBrowser = None /\
  exists page scaledViewport,
    getPage (sampleDocument 1) 1 = Normal page /\
    getViewport page (decimal 4 0) = Normal scaledViewport /\
    canvas_width
      (canvasOf {| width := mul (decimal 612 0) (decimal 4 0);
                   height := mul (decimal 792 0) (decimal 4 0) |} [1])
    = canvas_dimension 300 (width scaledViewport) /\
    canvas_height
      (canvasOf {| width := mul (decimal 612 0) (decimal 4 0);
                   height := mul (decimal 792 0) (decimal 4 0) |} [1])
    = canvas_dimension 150 (height scaledViewport).
Proof.
  split; [reflexivity|].
  apply (no_container_renders_at_scale_four detachedBrowser invoicePdf
           (sampleDocument 1) _ _ detached_rendered eq_refl).
  intros page vp Hpage Hvp. injection Hpage as <-. injection Hvp as <-.
  cbn [width]. vm_compute. eexists _, _, _. reflexivity.
Defined.

(** X7.  When the bytes, the library, the document, page one and its two
    viewports were obtained but the canvas gives no 2d context, the
    handler has suspended four times (the last time showing the page
    count of the document), and ends without image and page count, with
    the error message "Unable to create canvas context for preview.". *)
Theorem no_canvas_context_is_reported
    browser event file st buf lib pdf page unscaledViewport scaledViewport :
  selectedFile event = Some file ->
  type file = pdf_mime ->
  arrayBuffer file = Normal buf ->
  loadPdfjs browser = Normal lib ->
  getDocument lib buf = Normal pdf ->
  getPage pdf 1 = Normal page ->
  getViewport page (decimal 1 0) = Normal unscaledViewport ->
  getViewport page (renderScaleOf browser unscaledViewport)
    = Normal scaledViewport ->
  getContext browser = false ->
  let r := handleFileChange browser event st in
  suspended r
  = [accepted file st; accepted file st; accepted file st;
     setPageCount (Some (numPages pdf)) (accepted file st)] /\
  final r
  = uploaded file None None
      (Some "Unable to create canvas context for preview."%string) /\
  completion r = Normal tt.
Proof.
  intros Hsel Hty H1 H2 H3 H4 H5 H6 H7 r. subst r.
  rewrite (handleFileChange_accepted _ _ _ _ Hsel Hty).
  cbn [suspended final completion].
  unfold renderPipeline.
  rewrite H1; run_step. rewrite H2; run_step. rewrite H3; run_step.
  rewrite !bind_set. rewrite H4; run_step. rewrite H5; run_step.
  fold (renderScaleOf browser unscaledViewport). rewrite H6; run_step.
  rewrite H7; run_step.
  repeat split.
Qed.

Lemma no_canvas_context_is_reported_witness :
  getContext noCanvasBrowser = false /\
  final (handleFileChange noCanvasBrowser (select invoicePdf) invoiceShown)
  = uploaded invoicePdf None None
      (Some "Unable to create canvas context for preview."%string).
Proof.
  split; [reflexivity|].
  apply (no_canvas_context_is_reported noCanvasBrowser (select invoicePdf)
           invoicePdf invoiceShown [37] sampleLib (sampleDocument 1)
           (samplePage 1)
           {| width := mul (decimal 612 0) (decimal 1 0);
              height := mul (decimal 792 0) (decimal 1 0) |}
           {| width := mul (decimal 612 0)
                           (renderScaleOf noCanvasBrowser
                              {| width := mul (decimal 612 0) (decimal 1 0);
                                 height := mul (decimal 792 0) (decimal 1 0) |});
              height := mul (decimal 792 0)
                           (renderScaleOf noCanvasBrowser
                              {| width := mul (decimal 612 0) (decimal 1 0);
                                 height := mul (decimal 792 0) (decimal 1 0) |}) |}
           eq_refl eq_refl eq_refl eq_refl eq_refl eq_refl eq_refl eq_refl
           eq_refl).
Defined.

(** ** The zoom levels of a session *)

Lemma zoomLevels_steps z :
  In z zoomLevels <-> exists i, (i <= 10)%nat /\ z = zoomStep i.
Proof.
  unfold zoomLevels. rewrite in_map_iff. split.
  - intros (i & <- & Hi). apply in_seq in Hi. exists i. split; [lia|easy].
  - intros (i & Hi & ->). exists i. split; [easy|]. apply in_seq. lia.
Qed.

Lemma run_zoomStep actions :
  exists i, (i <= 10)%nat /\ zoomLevel (run actions initialState) = zoomStep i.
Proof.
  apply zoomLevels_steps.
  apply (run_zoomLevel actions initialState one_isZoomLevel).
Qed.

Lemma setZoomLevel_fixed f st :
  setZoomLevel f st = st <-> f (zoomLevel st) = zoomLevel st.
Proof.
  destruct st as [image name rendering error count zoom].
  unfold setZoomLevel. cbn. split.
  - now intros [= ->].
  - now intros ->.
Qed.



(** X9.  In every state that a session reaches from the initial state, a
    zoom-in step below 1.8 is undone by a zoom-out step, and a zoom-out
    step above 0.8 is undone by a zoom-in step: the state is again the
    one before the two steps. *)
Theorem zoom_steps_undo_each_other actions :
  let st := run actions initialState in
  (zoomLevel st <> decimal 18 1 -> handleZoomOut (handleZoomIn st) = st) /\
  (zoomLevel st <> decimal 8 1 -> handleZoomIn (handleZoomOut st) = st).
Proof.
  intros st.
  assert (C : forallb (fun z =>
                (number_eqb z (decimal 18 1) ||
                 number_eqb (zoomOut (zoomIn z)) z) &&
                (number_eqb z (decimal 8 1) ||
                 number_eqb (zoomIn (zoomOut z)) z))
                zoomLevels = true) by (vm_compute; reflexivity).
  rewrite forallb_forall in C.
  specialize (C (zoomLevel st) (run_zoomLevel actions initialState one_isZoomLevel)).
  apply andb_prop in C as [C1 C2].
  apply orb_prop in C1, C2.
  unfold handleZoomOut, handleZoomIn.
  split; intros Hne.
  - destruct C1 as [C1|C1]; apply number_eqb_eq in C1; [contradiction|].
    destruct st; unfold setZoomLevel; cbn in *. now rewrite C1.
  - destruct C2 as [C2|C2]; apply number_eqb_eq in C2; [contradiction|].
    destruct st; unfold setZoomLevel; cbn in *. now rewrite C2.
Qed.

(** X10.  In every state with a preview that a session reaches from the
    initial state, the zoom-out button is disabled exactly when the
    zoom-out step would leave the state as it is, and so for the zoom-in
    button; the reset button and the print button are enabled. *)
Theorem zoom_buttons_disabled_where_steps_do_nothing actions :
  let st := run actions initialState in
  hasPreview st = true ->
  (zoomOutDisabled (Letterhead st) = true <-> handleZoomOut st = st) /\
  (zoomInDisabled (Letterhead st) = true <-> handleZoomIn st = st) /\
  zoomResetDisabled (Letterhead st) = false /\
  printDisabled (Letterhead st) = false.
Proof.
  intros st Hpre.
  assert (C : forallb (fun z =>
                Bool.eqb (leb z (decimal 8 1)) (number_eqb (zoomOut z) z) &&
                Bool.eqb (leb (decimal 18 1) z) (number_eqb (zoomIn z) z))
                zoomLevels = true) by (vm_compute; reflexivity).
  rewrite forallb_forall in C.
  specialize (C (zoomLevel st) (run_zoomLevel actions initialState one_isZoomLevel)).
  apply andb_prop in C as [C1 C2]. apply Bool.eqb_prop in C1, C2.
  unfold handleZoomOut, handleZoomIn. rewrite !setZoomLevel_fixed.
  rewrite <- !number_eqb_eq, <- C1, <- C2.
  unfold Letterhead. cbn [zoomOutDisabled zoomInDisabled zoomResetDisabled
                            printDisabled].
  rewrite Hpre. cbn [negb orb]. repeat split; intros H; exact H.
Qed.

Lemma zoom_buttons_disabled_where_steps_do_nothing_witness :
  let st := run [FileChange sampleBrowser (select invoicePdf); ZoomOut;
                 ZoomOut] initialState in
  hasPreview st = true /\
  (zoomOutDisabled (Letterhead st) = true <-> handleZoomOut st = st) /\
  (zoomInDisabled (Letterhead st) = true <-> handleZoomIn st = st) /\
  zoomResetDisabled (Letterhead st) = false /\
  printDisabled (Letterhead st) = false.
Proof.
  split; [vm_compute; reflexivity|].
  apply (zoom_buttons_disabled_where_steps_do_nothing
           [FileChange sampleBrowser (select invoicePdf); ZoomOut; ZoomOut]).
  vm_compute. reflexivity.
Defined.

(** X11.  In every state that a session reaches from the initial state
    the label of the reset button is the zoom level in percent without
    fraction digits: "80%", "90%", ..., "180%" at the levels 0.80, 0.90,
    ..., 1.80, although the product of the level and 100 is not always
    integral (it is not at 1.10). *)
Theorem zoom_label_shows_the_level actions :
  let st := run actions initialState in
  (exists i,
      (i <= 10)%nat /\
      zoomLevel st = zoomStep i /\
      zoomLabel st = [Lit (digits (80 + 10 * i)); Lit "%"%string]) /\
  Math_round (mul (zoomStep 3) (decimal 100 0))
  <> mul (zoomStep 3) (decimal 100 0).
Proof.
  intros st. split.
  - destruct (run_zoomStep actions) as (i & Hi & E). fold st in E.
    exists i. split; [exact Hi|]. split; [exact E|].
    unfold zoomLabel. rewrite E. clear E.
    do 11 (destruct i as [|i]; [vm_compute; reflexivity|]). lia.
  - vm_compute. discriminate.
Qed.

(** ** What is rendered over an upload *)

Lemma accepted_suspended browser event file st :
  selectedFile event = Some file ->
  type file = pdf_mime ->
  suspended (handleFileChange browser event st) <> [] /\
  Forall (fun s => exists count, s = setPageCount count (accepted file st))
         (suspended (handleFileChange browser event st)).
Proof.
  intros Hsel Hty.
  rewrite (handleFileChange_accepted _ _ _ _ Hsel Hty). cbn [suspended].
  split.
  - pose proof (renderPipeline_suspensions browser file (accepted file st)).
    destruct (suspended _); [cbn in *; lia | discriminate].
  - destruct (renderPipeline_run browser file (accepted file st))
      as [pdf canvas url R | e susp _ HF | e pdf susp _ st1 HF];
      cbn [suspended].
    + repeat constructor;
        first [ now exists (pageCount st)
              | now exists (Some (numPages pdf)) ].
    + eapply Forall_impl; [|exact HF]. intros s ->.
      now exists (pageCount st).
    + eapply Forall_impl; [|exact HF]. intros s [-> | ->].
      * now exists (pageCount st).
      * now exists (Some (numPages pdf)).
Qed.

Lemma label_at_one :
  Number_toString (Math_round (mul (decimal 10 1) (decimal 100 0)))
  = Lit "100" /\
  Number_toString (mul (decimal 10 1) (decimal 100 0)) = Lit "100" /\
  leb (decimal 10 1) (decimal 8 1) = false /\
  leb (decimal 18 1) (decimal 10 1) = false.
Proof. vm_compute. repeat split. Qed.

(** X12.  In every state shown in a session (between two handlers, and
    at the suspensions of a file selection that follows), a preview image
    is shown under the name of a PDF file, never under the fallback text
    "Uploaded PDF preview", and never together with an error message. *)
Theorem preview_is_labelled_with_a_file_name actions browser event :
  let st := run actions initialState in
  Forall (fun s =>
            match preview (Letterhead s) with
            | Some image =>
                pdfName s = Some (alt image) /\
                errorText (Letterhead s) = None
            | None => True
            end)
         (st :: suspended (handleFileChange browser event st)).
Proof.
  intros st. apply Forall_cons.
  - destruct (run_Consistent actions initialState initialState_Consistent)
      as [_ C].
    fold st in C. unfold Letterhead. cbn [preview errorText alt].
    destruct (renderedImage st) as [[|c image]|]; try exact I.
    destruct C as (Hname & _ & ->).
    destruct (pdfName st); [now split | contradiction].
  - destruct (selectedFile event) as [file|] eqn:Hsel.
    + destruct (String.eqb_spec (type file) pdf_mime) as [Hty|Hty].
      * destruct (accepted_suspended browser event file st Hsel Hty)
          as [_ HF].
        eapply Forall_impl; [|exact HF]. intros s [count ->].
        unfold Letterhead. cbn.
        now destruct (renderedImage st) as [[|c image]|].
      * rewrite (handleFileChange_rejected _ _ _ _ Hsel Hty).
        apply Forall_nil.
    + rewrite (handleFileChange_no_file _ _ _ Hsel). apply Forall_nil.
Qed.

(** X13.  While an accepted PDF is being rendered (at every suspension
    of [handleFileChange], and there is at least one), the paragraph
    "Rendering PDF..." is shown and no error message; the image of the
    file shown before, if any, is still shown, at 100%, now under the
    name of the new file, and the print button is enabled exactly when
    it was before. *)
Theorem view_while_rendering browser event file st :
  selectedFile event = Some file ->
  type file = pdf_mime ->
  let r := handleFileChange browser event st in
  suspended r <> [] /\
  Forall (fun s =>
            let v := Letterhead s in
            renderingText v = true /\
            errorText v = None /\
            zoomResetText v = hundredPercent /\
            printDisabled v = printDisabled (Letterhead st) /\
            preview v =
              match preview (Letterhead st) with
              | Some image =>
                  Some {| styleWidth := hundredPercent;
                          src := src image;
                          alt := name file |}
              | None => None
              end)
         (suspended r).
Proof.
  intros Hsel Hty r. subst r.
  destruct (accepted_suspended browser event file st Hsel Hty) as [Hne HF].
  split; [exact Hne|].
  eapply Forall_impl; [|exact HF]. intros s [count ->].
  destruct label_at_one as (L1 & L2 & _).
  unfold Letterhead, zoomLabel, hundredPercent.
  cbn [renderingText errorText zoomResetText printDisabled preview
       setPageCount accepted setIsRendering setRenderError setZoomLevel
       setPdfName renderedImage pdfName isRendering renderError pageCount
       zoomLevel hasPreview].
  rewrite L1, L2.
  repeat split.
  now destruct (renderedImage st) as [[|c image]|].
Qed.

Lemma view_while_rendering_witness :
  let r := handleFileChange sampleBrowser (select reportPdf) invoiceShown in
  suspended r <> [] /\
  Forall (fun s =>
            let v := Letterhead s in
            renderingText v = true /\
            errorText v = None /\
            zoomResetText v = hundredPercent /\
            printDisabled v = printDisabled (Letterhead invoiceShown) /\
            preview v =
              match preview (Letterhead invoiceShown) with
              | Some image =>
                  Some {| styleWidth := hundredPercent;
                          src := src image;
                          alt := name reportPdf |}
              | None => None
              end)
         (suspended r).
Proof.
  apply (view_while_rendering sampleBrowser (select reportPdf) reportPdf
           invoiceShown eq_refl eq_refl).
Defined.

(** X14.  After an accepted PDF with a non-empty name was rendered to a
    non-empty image: the image is shown at 100% under the name of the
    file; the four buttons are enabled and the label is "100%"; the
    instructions say "Ready to print" for a document of at most one page
    and "Showing the first page of" otherwise; neither "Rendering PDF..."
    nor an error message is shown. *)
Theorem view_after_rendering browser event file pdf canvas dataUrl st :
  selectedFile event = Some file ->
  type file = pdf_mime ->
  Rendered browser file pdf canvas dataUrl ->
  dataUrl <> EmptyString ->
  name file <> EmptyString ->
  Letterhead (final (handleFileChange browser event st))
  = {| zoomOutDisabled := false;
       zoomResetDisabled := false;
       zoomResetText := hundredPercent;
       zoomInDisabled := false;
       printDisabled := false;
       preview := Some {| styleWidth := hundredPercent;
                          src := dataUrl;
                          alt := name file |};
       instructionsText :=
         if numPages pdf <=? 1 then
           ("Ready to print " ++ name file ++
            ". Adjust the zoom if needed before printing.")%string
         else
           ("Showing the first page of " ++ name file ++
            ". Please upload a single-page PDF for best results. " ++
            "Adjust the zoom if needed before printing.")%string;
       renderingText := false;
       errorText := None |}.
Proof.
  intros Hsel Hty R Hurl Hname.
  rewrite (Rendered_final _ _ _ _ _ _ st Hsel Hty R).
  destruct label_at_one as (L1 & L2 & L3 & L4).
  unfold Letterhead, zoomLabel, instructions, uploaded, hundredPercent,
    hasPreview.
  cbn [renderedImage pdfName isRendering renderError pageCount zoomLevel].
  rewrite L1, L2, L3, L4.
  destruct dataUrl as [|c url]; [contradiction|].
  destruct (name file) as [|c' s]; [contradiction|].
  cbn [negb orb].
  replace ((numPages pdf =? 0) || (numPages pdf <=? 1))
    with (numPages pdf <=? 1); [reflexivity|].
  destruct (Z.eqb_spec (numPages pdf) 0) as [->|_]; reflexivity.
Qed.

Lemma view_after_rendering_witness :
  instructionsText
    (Letterhead (final (handleFileChange sampleBrowser (select reportPdf)
                          invoiceShown)))
  = ("Showing the first page of report.pdf" ++
     ". Please upload a single-page PDF for best results. " ++
     "Adjust the zoom if needed before printing.")%string.
Proof.
  assert (R : Rendered sampleBrowser reportPdf (sampleDocument 2)
                (canvasOf invoiceViewport [2])
                "data:image/jpeg;base64,Ag=="%string).
  { apply (rendered sampleBrowser reportPdf (sampleDocument 2) _ _
             [37; 80] sampleLib (samplePage 2)
             {| width := mul (decimal 612 0) (decimal 1 0);
                height := mul (decimal 792 0) (decimal 1 0) |}
             invoiceViewport [2]); reflexivity. }
  assert (Hurl : "data:image/jpeg;base64,Ag=="%string <> EmptyString)
    by discriminate.
  assert (Hname : name reportPdf <> EmptyString) by discriminate.
  rewrite (view_after_rendering sampleBrowser (select reportPdf) reportPdf
             (sampleDocument 2) _ _ invoiceShown eq_refl eq_refl R
             Hurl Hname).
  reflexivity.
Defined.

(** X15.  After the rendering of an accepted PDF with a non-empty name
    failed with the thrown value [e]: the placeholder is shown instead
    of an image and the four buttons are disabled; the instructions
    still say "Ready to print" with the name of the file; the error
    paragraph shows the message of [e], and is absent when that message
    is empty. *)
Theorem view_after_failed_rendering browser event file e st :
  selectedFile event = Some file ->
  type file = pdf_mime ->
  completion (renderPipeline browser file (accepted file st)) = Throw e ->
  name file <> EmptyString ->
  Letterhead (final (handleFileChange browser event st))
  = {| zoomOutDisabled := true;
       zoomResetDisabled := true;
       zoomResetText := hundredPercent;
       zoomInDisabled := true;
       printDisabled := true;
       preview := None;
       instructionsText :=
         ("Ready to print " ++ name file ++
          ". Adjust the zoom if needed before printing.")%string;
       renderingText := false;
       errorText :=
         match errorMessage e with
         | EmptyString => None
         | message => Some message
         end |}.
Proof.
  intros Hsel Hty C Hname.
  destruct (accepted_outcome browser event file st Hsel Hty)
    as [(pdf & canvas & url & R & _) | (e' & C' & ->)].
  - exfalso.
    pose proof (Rendered_final browser event file pdf canvas url st
                  Hsel Hty R) as F.
    rewrite (handleFileChange_accepted _ _ _ _ Hsel Hty) in F.
    cbn [final] in F. rewrite C in F. discriminate F.
  - rewrite C in C'. injection C' as <-.
    destruct label_at_one as (L1 & _).
    unfold Letterhead, zoomLabel, instructions, uploaded, hundredPercent,
      hasPreview.
    cbn [renderedImage pdfName isRendering renderError pageCount zoomLevel].
    rewrite L1.
    destruct (name file) as [|c' s]; [contradiction|].
    cbn [negb orb].
    now destruct (errorMessage e).
Qed.

Lemma view_after_failed_rendering_witness :
  preview (Letterhead (final (handleFileChange sampleBrowser
                                (select emptyPdf) invoiceShown))) = None /\
  errorText (Letterhead (final (handleFileChange sampleBrowser
                                  (select emptyPdf) invoiceShown)))
  = Some "The PDF file is empty, i.e. its size is zero bytes."%string.
Proof.
  assert (Hname : name emptyPdf <> EmptyString) by discriminate.
  rewrite (view_after_failed_rendering sampleBrowser (select emptyPdf)
             emptyPdf
             (Error "The PDF file is empty, i.e. its size is zero bytes.")
             invoiceShown eq_refl eq_refl eq_refl Hname).
  split; reflexivity.
Defined.

(** X16.  After a file that is not a PDF was selected: the placeholder
    is shown instead of an image, the four buttons are disabled, the
    instructions ask for an upload, and the error paragraph reads
    "Please select a PDF file."; the label of the reset button and the
    paragraph "Rendering PDF..." are as before. *)
Theorem view_after_rejection browser event file st :
  selectedFile event = Some file ->
  type file <> pdf_mime ->
  Letterhead (final (handleFileChange browser event st))
  = {| zoomOutDisabled := true;
       zoomResetDisabled := true;
       zoomResetText := zoomResetText (Letterhead st);
       zoomInDisabled := true;
       printDisabled := true;
       preview := None;
       instructionsText :=
         "Upload a single-page PDF to place it on the letterhead."%string;
       renderingText := renderingText (Letterhead st);
       errorText := Some "Please select a PDF file."%string |}.
Proof.
  intros Hsel Hty.
  now rewrite (handleFileChange_rejected _ _ _ _ Hsel Hty).
Qed.

Lemma view_after_rejection_witness :
  type photoPng <> pdf_mime /\
  preview (Letterhead (final (handleFileChange sampleBrowser
                                (select photoPng) invoiceShown))) = None.
Proof.
  assert (Hty : type photoPng <> pdf_mime) by discriminate.
  split; [exact Hty|].
  now rewrite (view_after_rejection sampleBrowser (select photoPng) photoPng
                 invoiceShown eq_refl Hty).
Defined.

(** ** The library over a session *)

Lemma loadPdfjs_cached dynamicImport promise :
  Loader.loadPdfjs dynamicImport (Some promise) = (promise, Some promise).
Proof. reflexivity. Qed.

Lemma loadPdfjs_first dynamicImport :
  Loader.loadPdfjs dynamicImport None
  = (configured dynamicImport, Some (configured dynamicImport)).
Proof. now destruct dynamicImport. Qed.

Lemma loadPdfjs_calls_cached imports promise :
  loadPdfjs_calls imports (Some promise)
  = repeat promise (List.length imports).
Proof.
  induction imports as [|i imports IH]; [reflexivity|].
  cbn [loadPdfjs_calls List.length repeat].
  rewrite loadPdfjs_cached. now rewrite IH.
Qed.

(** X17.  Successive calls of [loadPdfjs()], the first on the empty
    module variable, all return the promise made at the first call: the
    module of the first import with [workerSrc] set to
    "/pdf.worker.min.mjs" and [workerType] to "module", or the rejection
    of the first import; what the import would give at a later call is
    not used. *)
Theorem loadPdfjs_is_memoised first later :
  loadPdfjs_calls (first :: later) None
  = repeat (configured first) (S (List.length later)).
Proof.
  cbn [loadPdfjs_calls]. rewrite loadPdfjs_first.
  now rewrite loadPdfjs_calls_cached.
Qed.

Lemma upload_cached env event s promise :
  cachedPdfjs s = Some promise ->
  cachedPdfjs (upload env event s) = Some promise.
Proof.
  intros E. unfold upload. rewrite E, loadPdfjs_cached.
  cbn [cachedPdfjs]. now destruct (reachesLoadPdfjs event).
Qed.

Lemma uploads_cached l :
  forall s promise,
    cachedPdfjs s = Some promise ->
    cachedPdfjs (uploads l s) = Some promise.
Proof.
  induction l as [|[env event] l IH]; intros s promise E; [exact E|].
  apply IH. now apply upload_cached.
Qed.

(** X18.  Over a session of uploads that starts with the empty module
    variable, the variable holds nothing until an upload gets to
    [loadPdfjs()] (a PDF whose bytes were read); from then on it holds
    the promise made from the import of that upload, whatever the
    uploads that follow and whatever the import would give then. *)
Theorem library_is_imported_once l :
  cachedPdfjs (uploads l initialSession)
  = match find (fun '(_, event) => reachesLoadPdfjs event) l with
    | Some (env, _) => Some (configured (dynamicImport env))
    | None => None
    end.
Proof.
  assert (E : cachedPdfjs initialSession = None) by reflexivity.
  revert E. generalize initialSession.
  induction l as [|[env event] l IH]; intros s E; [exact E|].
  cbn [uploads fold_left find]. fold (uploads l (upload env event s)).
  destruct (reachesLoadPdfjs event) eqn:Hr.
  - apply uploads_cached. unfold upload.
    rewrite E, loadPdfjs_first, Hr. reflexivity.
  - apply IH. unfold upload.
    rewrite E, loadPdfjs_first, Hr. reflexivity.
Qed.

(** X19.  Once the import of the library failed with [e] in an upload
    that got to [loadPdfjs()], the import is not tried again: every later
    upload of a PDF whose bytes are read ends without image and page
    count and with the message of [e] as error message, whatever the
    uploads in between and whatever the import would give now. *)
Theorem failed_import_is_not_retried
    env1 event1 l env event file buf e s :
  cachedPdfjs s = None ->
  reachesLoadPdfjs event1 = true ->
  dynamicImport env1 = Throw e ->
  selectedFile event = Some file ->
  type file = pdf_mime ->
  arrayBuffer file = Normal buf ->
  let s' := uploads l (upload env1 event1 s) in
  component (upload env event s')
  = uploaded file None None (Some (errorMessage e)) /\
  cachedPdfjs (upload env event s') = Some (Throw e).
Proof.
  intros Hnone Hr He Hsel Hty Hbuf s'.
  assert (E : cachedPdfjs s' = Some (Throw e)).
  { apply uploads_cached. unfold upload.
    rewrite Hnone, loadPdfjs_first, Hr, He. reflexivity. }
  split; [|now apply upload_cached].
  unfold upload. rewrite E, loadPdfjs_cached. cbn [component].
  rewrite (handleFileChange_accepted _ _ _ _ Hsel Hty). cbn [final].
  unfold renderPipeline. rewrite Hbuf. run_step.
  cbn [browserOf loadPdfjs then_]. run_step.
  reflexivity.
Qed.

Lemma failed_import_is_not_retried_witness :
  cachedPdfjs initialSession = None /\
  reachesLoadPdfjs (select invoicePdf) = true /\
  component (upload sampleEnvironment (select reportPdf)
               (uploads [(sampleEnvironment, select photoPng)]
                  (upload offlineEnvironment (select invoicePdf)
                     initialSession)))
  = uploaded reportPdf None None
      (Some "Failed to fetch dynamically imported module"%string).
Proof.
  split; [reflexivity|]. split; [reflexivity|].
  apply (failed_import_is_not_retried offlineEnvironment (select invoicePdf)
           [(sampleEnvironment, select photoPng)] sampleEnvironment
           (select reportPdf) reportPdf [37; 80]
           (Error "Failed to fetch dynamically imported module")
           initialSession eq_refl eq_refl eq_refl eq_refl eq_refl eq_refl).
Defined.

(** ** Handlers that overlap *)

Lemma bind_cong {A B} (m m' : Async A) (k k' : A -> Async B) :
  (forall st, m st = m' st) ->
  (forall a st, k a st = k' a st) ->
  forall st, bind m k st = bind m' k' st.
Proof.
  intros Hm Hk st. unfold bind. rewrite Hm.
  destruct (completion (m' st)); [now rewrite Hk | reflexivity].
Qed.

Lemma alone_bind {A B} (m : Concurrent.Task A) (k : A -> Concurrent.Task B) :
  forall st,
    Concurrent.alone (Concurrent.bind m k) st
    = bind (Concurrent.alone m) (fun a => Concurrent.alone (k a)) st.
Proof.
  induction m as [a|e|f m IH|m IH]; intros st;
    cbn [Concurrent.bind Concurrent.alone].
  - exact (eq_sym (bind_ret a (fun a => Concurrent.alone (k a)) st)).
  - reflexivity.
  - rewrite IH. reflexivity.
  - rewrite IH. unfold bind. cbn [suspended final completion].
    now destruct (completion (Concurrent.alone m st)).
Qed.

Lemma alone_call {A} (c : Completion A) st :
  Concurrent.alone (Concurrent.call c) st = call c st.
Proof. now destruct c. Qed.

Lemma alone_await {A} (p : Promise A) st :
  Concurrent.alone (Concurrent.await p) st = await p st.
Proof. now destruct p. Qed.

Lemma alone_try_catch_finally {A} (body : Concurrent.Task A) handler f :
  forall st,
    Concurrent.alone
      (Concurrent.try_catch_finally body handler (Concurrent.set f)) st
    = try_catch_finally (Concurrent.alone body)
        (fun e => Concurrent.alone (handler e)) (set f) st.
Proof.
  unfold Concurrent.try_catch_finally.
  induction body as [a|e|g body IH|body IH]; intros st;
    cbn [Concurrent.try_catch Concurrent.try_finally Concurrent.alone
         Concurrent.bind Concurrent.set].
  - reflexivity.
  - unfold try_catch_finally.
    cbn [Concurrent.alone suspended final completion List.app].
    induction (handler e) as [a|e'|g t IHt|t IHt] in st |- *;
      cbn [Concurrent.try_finally Concurrent.alone Concurrent.bind
           Concurrent.set suspended final completion set List.app].
    + reflexivity.
    + reflexivity.
    + apply IHt.
    + rewrite IHt. cbn [suspended final completion set].
      reflexivity.
  - rewrite IH. reflexivity.
  - rewrite IH. unfold try_catch_finally.
    cbn [Concurrent.alone suspended final completion set].
    destruct (completion (Concurrent.alone body st)) eqn:E;
      cbn [suspended final completion List.app]; rewrite ?E; reflexivity.
Qed.

Lemma alone_renderPipeline browser file st :
  Concurrent.alone (Concurrent.renderPipeline browser file) st
  = renderPipeline browser file st.
Proof.
  unfold Concurrent.renderPipeline, renderPipeline.
  rewrite alone_bind.
  apply bind_cong; [apply alone_await|]. clear st. intros buf st.
  rewrite alone_bind.
  apply bind_cong; [apply alone_await|]. clear st. intros lib st.
  rewrite alone_bind.
  apply bind_cong; [apply alone_await|]. clear st. intros pdf st.
  rewrite alone_bind.
  apply bind_cong; [reflexivity|]. clear st. intros _ st.
  rewrite alone_bind.
  apply bind_cong; [apply alone_await|]. clear st. intros page st.
  rewrite alone_bind.
  apply bind_cong; [apply alone_call|]. clear st. intros uv st.
  cbv zeta. rewrite alone_bind.
  apply bind_cong; [apply alone_call|]. clear st. intros sv st.
  rewrite alone_bind.
  apply bind_cong; [now destruct (getContext browser)|]. clear st.
  intros _ st.
  rewrite alone_bind.
  apply bind_cong; [apply alone_await|]. clear st. intros painted st.
  rewrite alone_bind.
  apply bind_cong; [apply alone_call|]. clear st. intros url st.
  reflexivity.
Qed.

Lemma alone_handleFileChange browser event st :
  Concurrent.alone (Concurrent.handleFileChange browser event) st
  = handleFileChange browser event st.
Proof.
  unfold Concurrent.handleFileChange, handleFileChange.
  destruct (selectedFile event) as [file|]; [|reflexivity].
  destruct (negb (String.eqb (type file) pdf_mime)); [reflexivity|].
  cbn [Concurrent.bind Concurrent.set Concurrent.alone].
  rewrite !bind_set.
  rewrite alone_try_catch_finally.
  unfold try_catch_finally.
  rewrite alone_renderPipeline.
  reflexivity.
Qed.

Lemma advance_alone (t : Concurrent.Task unit) :
  forall st,
    match Concurrent.advance t st with
    | (st', None) =>
        suspended (Concurrent.alone t st) = [] /\
        final (Concurrent.alone t st) = st'
    | (st', Some k) =>
        suspended (Concurrent.alone t st)
        = st' :: suspended (Concurrent.alone k st') /\
        final (Concurrent.alone t st) = final (Concurrent.alone k st')
    end.
Proof.
  induction t as [a|e|f t IH|t IH]; intros st;
    cbn [Concurrent.advance Concurrent.alone suspended final];
    try (split; reflexivity).
  apply IH.
Qed.

Lemma loop_settle_nothing n st :
  Concurrent.loop (repeat (Concurrent.Settle 0) n)
    {| Concurrent.state := st; Concurrent.pending := [] |}
  = {| Concurrent.state := st; Concurrent.pending := [] |}.
Proof. induction n as [|n IH]; [reflexivity | exact IH]. Qed.

Lemma loop_settle_all n :
  forall k st,
    (List.length (suspended (Concurrent.alone k st)) < n)%nat ->
    Concurrent.loop (repeat (Concurrent.Settle 0) n)
      {| Concurrent.state := st; Concurrent.pending := [k] |}
    = {| Concurrent.state := final (Concurrent.alone k st);
         Concurrent.pending := [] |}.
Proof.
  induction n as [|n IH]; intros k st Hn; [lia|].
  cbn [repeat Concurrent.loop fold_left Concurrent.dispatch].
  unfold Concurrent.resume.
  cbn [Concurrent.pending Concurrent.state nth_error firstn skipn List.app].
  pose proof (advance_alone k st) as H.
  destruct (Concurrent.advance k st) as [st' [k'|]]; destruct H as [Hs Hf];
    cbn [List.app]; rewrite Hf.
  - apply IH. rewrite Hs in Hn. cbn [List.length] in Hn. lia.
  - apply loop_settle_nothing.
Qed.

Lemma loop_settle_some j :
  forall k st,
    (j <= List.length (suspended (Concurrent.alone k st)))%nat ->
    Concurrent.state
      (Concurrent.loop (repeat (Concurrent.Settle 0) j)
         {| Concurrent.state := st; Concurrent.pending := [k] |})
    = nth j (st :: suspended (Concurrent.alone k st)) st.
Proof.
  induction j as [|j IH]; intros k st Hj; [reflexivity|].
  cbn [repeat Concurrent.loop fold_left Concurrent.dispatch].
  unfold Concurrent.resume.
  cbn [Concurrent.pending Concurrent.state nth_error firstn skipn List.app].
  pose proof (advance_alone k st) as H.
  destruct (Concurrent.advance k st) as [st' [k'|]]; destruct H as [Hs Hf];
    rewrite Hs in Hj |- *; cbn [List.length] in Hj; [|lia].
  cbn [List.app].
  fold (Concurrent.loop (repeat (Concurrent.Settle 0) j)
          {| Concurrent.state := st'; Concurrent.pending := [k'] |}).
  rewrite IH by lia.
  change (nth (S j) (st :: st' :: suspended (Concurrent.alone k' st')) st)
    with (nth j (st' :: suspended (Concurrent.alone k' st')) st).
  apply nth_indep. cbn [List.length]. lia.
Qed.

Lemma handleFileChange_suspensions browser event st :
  (List.length (suspended (handleFileChange browser event st)) <= 5)%nat.
Proof.
  destruct (selectedFile event) as [file|] eqn:Hsel.
  - destruct (String.eqb_spec (type file) pdf_mime) as [Hty|Hty].
    + rewrite (handleFileChange_accepted _ _ _ _ Hsel Hty). cbn [suspended].
      apply renderPipeline_suspensions.
    + rewrite (handleFileChange_rejected _ _ _ _ Hsel Hty). cbn. lia.
  - rewrite (handleFileChange_no_file _ _ _ Hsel). cbn. lia.
Qed.

Lemma change_settled browser event st n :
  (5 <= n)%nat ->
  Concurrent.loop
    (Concurrent.Change browser event :: repeat (Concurrent.Settle 0) n)
    {| Concurrent.state := st; Concurrent.pending := [] |}
  = {| Concurrent.state := final (handleFileChange browser event st);
       Concurrent.pending := [] |}.
Proof.
  intros Hn.
  pose proof (handleFileChange_suspensions browser event st) as B.
  rewrite <- alone_handleFileChange in *.
  pose proof (advance_alone (Concurrent.handleFileChange browser event) st)
    as H.
  cbn [Concurrent.loop fold_left Concurrent.dispatch Concurrent.state
       Concurrent.pending List.app].
  destruct (Concurrent.advance _ st) as [st' [k|]]; destruct H as [Hs Hf];
    rewrite Hs, Hf in *; cbn [List.length List.app] in *.
  - fold (Concurrent.loop (repeat (Concurrent.Settle 0) n)
            {| Concurrent.state := st'; Concurrent.pending := [k] |}).
    apply loop_settle_all. lia.
  - apply loop_settle_nothing.
Qed.

(** X20.  On the event loop, a file selection that no other handler
    overlaps goes through the states of [handleFileChange] run on its
    own: after the change event and [j] settled promises the page shows
    the state of the [j]-th suspension, and once five promises have
    settled no handler is pending and the state is the final one. *)
Theorem handler_alone_on_the_event_loop browser event st :
  let r := handleFileChange browser event st in
  let page := {| Concurrent.state := st; Concurrent.pending := [] |} in
  (forall j,
      (j < List.length (suspended r))%nat ->
      Concurrent.state
        (Concurrent.loop
           (Concurrent.Change browser event ::
            repeat (Concurrent.Settle 0) j) page)
      = nth j (suspended r) st) /\
  (forall n,
      (5 <= n)%nat ->
      Concurrent.loop
        (Concurrent.Change browser event :: repeat (Concurrent.Settle 0) n)
        page
      = {| Concurrent.state := final r; Concurrent.pending := [] |}).
Proof.
  intros r page. subst r page. split.
  - intros j Hj. revert Hj.
    rewrite <- alone_handleFileChange.
    pose proof (advance_alone (Concurrent.handleFileChange browser event) st)
      as H.
    cbn [Concurrent.loop fold_left Concurrent.dispatch Concurrent.state
         Concurrent.pending List.app].
    destruct (Concurrent.advance _ st) as [st' [k|]]; destruct H as [Hs Hf];
      rewrite Hs; cbn [List.length List.app]; intros Hj; [|lia].
    fold (Concurrent.loop (repeat (Concurrent.Settle 0) j)
            {| Concurrent.state := st'; Concurrent.pending := [k] |}).
    rewrite loop_settle_some by lia.
    apply nth_indep. cbn [List.length]. lia.
  - intros n Hn. now apply change_settled.
Qed.

Lemma rendered_task browser event file pdf canvas dataUrl :
  selectedFile event = Some file ->
  type file = pdf_mime ->
  Rendered browser file pdf canvas dataUrl ->
  Concurrent.handleFileChange browser event
  = Concurrent.Update (setPdfName (Some (name file)))
      (Concurrent.Update (setZoomLevel (fun _ => decimal 10 1))
         (Concurrent.Update (setRenderError None)
            (Concurrent.Update (setIsRendering true)
               (Concurrent.Suspend (Concurrent.Suspend (Concurrent.Suspend
                  (Concurrent.Update (setPageCount (Some (numPages pdf)))
                     (Concurrent.Suspend (Concurrent.Suspend
                        (Concurrent.Update (setRenderedImage (Some dataUrl))
                           (Concurrent.Update (setIsRendering false)
                              (Concurrent.Return tt)))))))))))).
Proof.
  intros Hsel Hty R. unfold Concurrent.handleFileChange. rewrite Hsel.
  apply String.eqb_eq in Hty. rewrite Hty. cbn [negb].
  destruct R as [buf lib page uv sv painted H1 H2 H3 H4 H5 H6 H7 H8 H9 H10].
  unfold Concurrent.renderPipeline.
  rewrite H1. cbn [Concurrent.bind Concurrent.await Concurrent.call].
  rewrite H2. cbn [Concurrent.bind Concurrent.await Concurrent.call].
  rewrite H3.
  cbn [Concurrent.bind Concurrent.await Concurrent.call Concurrent.set].
  rewrite H4. cbn [Concurrent.bind Concurrent.await Concurrent.call].
  rewrite H5. cbn [Concurrent.bind Concurrent.await Concurrent.call].
  fold (renderScaleOf browser uv).
  rewrite H6. cbn [Concurrent.bind Concurrent.await Concurrent.call].
  rewrite H7. cbn [Concurrent.bind Concurrent.ret].
  fold (canvasOf sv []).
  rewrite H8. cbn [Concurrent.bind Concurrent.await Concurrent.call].
  change {| canvas_width := canvas_width (canvasOf sv []);
            canvas_height := canvas_height (canvasOf sv []);
            canvas_pixels := painted |} with (canvasOf sv painted).
  rewrite <- H9, H10.
  reflexivity.
Qed.

(** X21.  Two uploads that overlap.  A first PDF is selected and its
    handler has resumed [k] times (it is still suspended: reading the
    bytes for [k = 0], opening the document for [k = 2], getting the
    page for [k = 3], rendering it for [k = 4]) when a second PDF is
    selected; the second handler runs to its end, and the component then
    shows the second file: name, page count and image.  Then the
    promises of the first handler settle: its image replaces the image
    of the second file, under the name of the second file, and the page
    count is that of the first document too unless it was set before the
    second file was selected.  ([k = 1] is left out: there the first
    handler awaits the promise of [loadPdfjs()], which the second awaits
    too, and a promise resumes those who await it in their order.) *)
Theorem stale_rendering_overwrites_newer_upload
    browser1 event1 file1 pdf1 canvas1 dataUrl1
    browser2 event2 file2 pdf2 canvas2 dataUrl2 st k :
  selectedFile event1 = Some file1 ->
  type file1 = pdf_mime ->
  Rendered browser1 file1 pdf1 canvas1 dataUrl1 ->
  selectedFile event2 = Some file2 ->
  type file2 = pdf_mime ->
  Rendered browser2 file2 pdf2 canvas2 dataUrl2 ->
  (k <= 4)%nat ->
  k <> 1%nat ->
  let page := {| Concurrent.state := st; Concurrent.pending := [] |} in
  let second_done :=
    Concurrent.Change browser1 event1 :: repeat (Concurrent.Settle 0) k ++
    Concurrent.Change browser2 event2 :: repeat (Concurrent.Settle 1) 5 in
  let first_done := repeat (Concurrent.Settle 0) (5 - k) in
  Concurrent.state (Concurrent.loop second_done page)
  = uploaded file2 (Some dataUrl2) (Some (numPages pdf2)) None /\
  Concurrent.loop (second_done ++ first_done) page
  = {| Concurrent.state :=
         {| renderedImage := Some dataUrl1;
            pdfName := Some (name file2);
            isRendering := false;
            renderError := None;
            pageCount :=
              Some (numPages (if (k <? 3)%nat then pdf1 else pdf2));
            zoomLevel := decimal 10 1 |};
       Concurrent.pending := [] |}.
Proof.
  intros Hsel1 Hty1 R1 Hsel2 Hty2 R2 Hk _ page second_done first_done.
  subst page second_done first_done.
  pose proof (rendered_task _ _ _ _ _ _ Hsel1 Hty1 R1) as T1.
  pose proof (rendered_task _ _ _ _ _ _ Hsel2 Hty2 R2) as T2.
  do 5 (destruct k as [|k];
        [ cbn [repeat List.app Concurrent.loop fold_left Concurrent.dispatch
               Nat.sub];
          rewrite T1, T2; split; reflexivity|]).
  lia.
Qed.

Lemma stale_rendering_overwrites_newer_upload_witness :
  let page := {| Concurrent.state := initialState;
                 Concurrent.pending := [] |} in
  let events :=
    Concurrent.Change sampleBrowser (select invoicePdf) ::
    repeat (Concurrent.Settle 0) 4 ++
    Concurrent.Change sampleBrowser (select reportPdf) ::
    repeat (Concurrent.Settle 1) 5 ++ repeat (Concurrent.Settle 0) (5 - 4) in
  Concurrent.loop events page
  = {| Concurrent.state :=
         {| renderedImage := Some "data:image/jpeg;base64,AQ=="%string;
            pdfName := Some "report.pdf"%string;
            isRendering := false;
            renderError := None;
            pageCount := Some 2;
            zoomLevel := decimal 10 1 |};
       Concurrent.pending := [] |}.
Proof.
  assert (R2 : Rendered sampleBrowser reportPdf (sampleDocument 2)
                 (canvasOf invoiceViewport [2])
                 "data:image/jpeg;base64,Ag=="%string).
  { apply (rendered sampleBrowser reportPdf (sampleDocument 2) _ _
             [37; 80] sampleLib (samplePage 2)
             {| width := mul (decimal 612 0) (decimal 1 0);
                height := mul (decimal 792 0) (decimal 1 0) |}
             invoiceViewport [2]); reflexivity. }
  assert (Hk : (4 <= 4)%nat) by lia.
  assert (Hk' : 4%nat <> 1%nat) by discriminate.
  apply (stale_rendering_overwrites_newer_upload
           sampleBrowser (select invoicePdf) invoicePdf (sampleDocument 1)
           invoiceCanvas "data:image/jpeg;base64,AQ=="%string
           sampleBrowser (select reportPdf) reportPdf (sampleDocument 2)
           (canvasOf invoiceViewport [2]) "data:image/jpeg;base64,Ag=="%string
           initialState 4%nat eq_refl eq_refl invoice_rendered
           eq_refl eq_refl R2 Hk Hk').
Defined.

Lemma failed_rendering_task
    browser event file buf lib pdf page unscaledViewport scaledViewport e :
  selectedFile event = Some file ->
  type file = pdf_mime ->
  arrayBuffer file = Normal buf ->
  loadPdfjs browser = Normal lib ->
  getDocument lib buf = Normal pdf ->
  getPage pdf 1 = Normal page ->
  getViewport page (decimal 1 0) = Normal unscaledViewport ->
  getViewport page (renderScaleOf browser unscaledViewport)
    = Normal scaledViewport ->
  getContext browser = true ->
  render page {| canvasContext := canvasOf scaledViewport [];
                 viewport := scaledViewport |} = Throw e ->
  Concurrent.handleFileChange browser event
  = Concurrent.Update (setPdfName (Some (name file)))
      (Concurrent.Update (setZoomLevel (fun _ => decimal 10 1))
         (Concurrent.Update (setRenderError None)
            (Concurrent.Update (setIsRendering true)
               (Concurrent.Suspend (Concurrent.Suspend (Concurrent.Suspend
                  (Concurrent.Update (setPageCount (Some (numPages pdf)))
                     (Concurrent.Suspend (Concurrent.Suspend
                        (Concurrent.Update (setRenderedImage None)
                           (Concurrent.Update (setPageCount None)
                              (Concurrent.Update
                                 (setRenderError (Some (errorMessage e)))
                                 (Concurrent.Update (setIsRendering false)
                                    (Concurrent.Return tt)))))))))))))).
Proof.
  intros Hsel Hty H1 H2 H3 H4 H5 H6 H7 H8.
  unfold Concurrent.handleFileChange. rewrite Hsel.
  apply String.eqb_eq in Hty. rewrite Hty. cbn [negb].
  unfold Concurrent.renderPipeline.
  rewrite H1. cbn [Concurrent.bind Concurrent.await Concurrent.call].
  rewrite H2. cbn [Concurrent.bind Concurrent.await Concurrent.call].
  rewrite H3.
  cbn [Concurrent.bind Concurrent.await Concurrent.call Concurrent.set].
  rewrite H4. cbn [Concurrent.bind Concurrent.await Concurrent.call].
  rewrite H5. cbn [Concurrent.bind Concurrent.await Concurrent.call].
  fold (renderScaleOf browser unscaledViewport).
  rewrite H6. cbn [Concurrent.bind Concurrent.await Concurrent.call].
  rewrite H7. cbn [Concurrent.bind Concurrent.ret].
  fold (canvasOf scaledViewport []).
  rewrite H8.
  reflexivity.
Qed.

(** X22.  Two uploads that overlap, the first failing late.  A first
    PDF is selected and its handler is suspended in the rendering of its
    page when a second PDF is selected and rendered.  Then the rendering
    of the first page fails with [e]: the image and the page count of the
    second file are cleared, and the message of [e] is shown under the
    name of the second file. *)
Theorem stale_failure_clears_newer_upload
    browser1 event1 file1 buf lib pdf1 page unscaledViewport scaledViewport e
    browser2 event2 file2 pdf2 canvas2 dataUrl2 st :
  selectedFile event1 = Some file1 ->
  type file1 = pdf_mime ->
  arrayBuffer file1 = Normal buf ->
  loadPdfjs browser1 = Normal lib ->
  getDocument lib buf = Normal pdf1 ->
  getPage pdf1 1 = Normal page ->
  getViewport page (decimal 1 0) = Normal unscaledViewport ->
  getViewport page (renderScaleOf browser1 unscaledViewport)
    = Normal scaledViewport ->
  getContext browser1 = true ->
  render page {| canvasContext := canvasOf scaledViewport [];
                 viewport := scaledViewport |} = Throw e ->
  selectedFile event2 = Some file2 ->
  type file2 = pdf_mime ->
  Rendered browser2 file2 pdf2 canvas2 dataUrl2 ->
  let page0 := {| Concurrent.state := st; Concurrent.pending := [] |} in
  let second_done :=
    Concurrent.Change browser1 event1 :: repeat (Concurrent.Settle 0) 4 ++
    Concurrent.Change browser2 event2 :: repeat (Concurrent.Settle 1) 5 in
  Concurrent.state (Concurrent.loop second_done page0)
  = uploaded file2 (Some dataUrl2) (Some (numPages pdf2)) None /\
  Concurrent.loop (second_done ++ [Concurrent.Settle 0]) page0
  = {| Concurrent.state :=
         uploaded file2 None None (Some (errorMessage e));
       Concurrent.pending := [] |}.
Proof.
  intros Hsel1 Hty1 H1 H2 H3 H4 H5 H6 H7 H8 Hsel2 Hty2 R2 page0 second_done.
  subst page0 second_done.
  pose proof (failed_rendering_task _ _ _ _ _ _ _ _ _ _
                Hsel1 Hty1 H1 H2 H3 H4 H5 H6 H7 H8) as T1.
  pose proof (rendered_task _ _ _ _ _ _ Hsel2 Hty2 R2) as T2.
  cbn [repeat List.app Concurrent.loop fold_left Concurrent.dispatch].
  rewrite T1, T2. split; reflexivity.
Qed.

Lemma stale_failure_clears_newer_upload_witness :
  let page0 := {| Concurrent.state := initialState;
                  Concurrent.pending := [] |} in
  let events :=
    (Concurrent.Change brokenBrowser (select invoicePdf) ::
     repeat (Concurrent.Settle 0) 4 ++
     Concurrent.Change sampleBrowser (select reportPdf) ::
     repeat (Concurrent.Settle 1) 5) ++ [Concurrent.Settle 0] in
  Concurrent.loop events page0
  = {| Concurrent.state :=
         uploaded reportPdf None None (Some "Page rendering failed."%string);
       Concurrent.pending := [] |}.
Proof.
  assert (R2 : Rendered sampleBrowser reportPdf (sampleDocument 2)
                 (canvasOf invoiceViewport [2])
                 "data:image/jpeg;base64,Ag=="%string).
  { apply (rendered sampleBrowser reportPdf (sampleDocument 2) _ _
             [37; 80] sampleLib (samplePage 2)
             {| width := mul (decimal 612 0) (decimal 1 0);
                height := mul (decimal 792 0) (decimal 1 0) |}
             invoiceViewport [2]); reflexivity. }
  apply (stale_failure_clears_newer_upload
           brokenBrowser (select invoicePdf) invoicePdf [37]
           {| getDocument := fun _ => Normal brokenDocument |}
           brokenDocument brokenPage
           {| width := mul (decimal 612 0) (decimal 1 0);
              height := mul (decimal 792 0) (decimal 1 0) |}
           invoiceViewport (Error "Page rendering failed.")
           sampleBrowser (select reportPdf) reportPdf (sampleDocument 2)
           (canvasOf invoiceViewport [2]) "data:image/jpeg;base64,Ag=="%string
           initialState
           eq_refl eq_refl eq_refl eq_refl eq_refl eq_refl eq_refl eq_refl
           eq_refl eq_refl eq_refl eq_refl R2).
Defined.



Lemma rejected_task browser event file :
  selectedFile event = Some file ->
  type file <> pdf_mime ->
  Concurrent.handleFileChange browser event
  = Concurrent.Update
      (setRenderError (Some "Please select a PDF file."%string))
      (Concurrent.Update (setRenderedImage None)
         (Concurrent.Update (setPdfName None)
            (Concurrent.Update (setPageCount None)
               (Concurrent.Return tt)))).
Proof.
  intros Hsel Hty. unfold Concurrent.handleFileChange. rewrite Hsel.
  apply String.eqb_neq in Hty. now rewrite Hty.
Qed.

(** X24.  A file that is not a PDF is selected while a PDF is being
    rendered (its handler has resumed [k] times).  The selection is
    rejected at once; when the rendering then completes, its image is
    shown without file name, so under the fallback text "Uploaded PDF
    preview", and together with the message "Please select a PDF
    file.". *)
Theorem rejection_while_rendering
    browser event file pdf canvas dataUrl browser' event' file' st k :
  selectedFile event = Some file ->
  type file = pdf_mime ->
  Rendered browser file pdf canvas dataUrl ->
  dataUrl <> EmptyString ->
  selectedFile event' = Some file' ->
  type file' <> pdf_mime ->
  (k <= 4)%nat ->
  let p :=
    Concurrent.loop
      (Concurrent.Change browser event :: repeat (Concurrent.Settle 0) k ++
       Concurrent.Change browser' event' ::
       repeat (Concurrent.Settle 0) (5 - k))
      {| Concurrent.state := st; Concurrent.pending := [] |} in
  p = {| Concurrent.state :=
           {| renderedImage := Some dataUrl;
              pdfName := None;
              isRendering := false;
              renderError := Some "Please select a PDF file."%string;
              pageCount :=
                if (k <? 3)%nat then Some (numPages pdf) else None;
              zoomLevel := decimal 10 1 |};
         Concurrent.pending := [] |} /\
  preview (Letterhead (Concurrent.state p))
  = Some {| styleWidth := hundredPercent;
            src := dataUrl;
            alt := "Uploaded PDF preview"%string |} /\
  errorText (Letterhead (Concurrent.state p))
  = Some "Please select a PDF file."%string.
Proof.
  intros Hsel Hty R Hurl Hsel' Hty' Hk p.
  pose proof (rendered_task _ _ _ _ _ _ Hsel Hty R) as T.
  pose proof (rejected_task browser' event' file' Hsel' Hty') as T'.
  destruct label_at_one as (_ & L2 & _).
  assert (E : p = {| Concurrent.state :=
           {| renderedImage := Some dataUrl;
              pdfName := None;
              isRendering := false;
              renderError := Some "Please select a PDF file."%string;
              pageCount :=
                if (k <? 3)%nat then Some (numPages pdf) else None;
              zoomLevel := decimal 10 1 |};
         Concurrent.pending := [] |}).
  { subst p.
    do 5 (destruct k as [|k];
          [ cbn [repeat List.app Concurrent.loop fold_left
                 Concurrent.dispatch Nat.sub];
            rewrite T, T'; reflexivity|]).
    lia. }
  split; [exact E|]. rewrite E.
  unfold Letterhead, hundredPercent.
  cbn [Concurrent.state preview errorText renderedImage pdfName renderError
       zoomLevel].
  rewrite L2.
  destruct dataUrl as [|c url]; [contradiction|]. split; reflexivity.
Qed.

Lemma rejection_while_rendering_witness :
  type photoPng <> pdf_mime /\
  preview
    (Letterhead
       (Concurrent.state
          (Concurrent.loop
             (Concurrent.Change sampleBrowser (select invoicePdf) ::
              repeat (Concurrent.Settle 0) 4 ++
              Concurrent.Change sampleBrowser (select photoPng) ::
              repeat (Concurrent.Settle 0) (5 - 4))
             initialPage)))
  = Some {| styleWidth := hundredPercent;
            src := "data:image/jpeg;base64,AQ=="%string;
            alt := "Uploaded PDF preview"%string |}.
Proof.
  assert (Hty : type photoPng <> pdf_mime) by discriminate.
  assert (Hurl : "data:image/jpeg;base64,AQ=="%string <> EmptyString)
    by discriminate.
  assert (Hk : (4 <= 4)%nat) by lia.
  split; [exact Hty|].
  apply (rejection_while_rendering sampleBrowser (select invoicePdf)
           invoicePdf (sampleDocument 1) invoiceCanvas
           "data:image/jpeg;base64,AQ=="%string
           sampleBrowser (select photoPng) photoPng initialState 4%nat
           eq_refl eq_refl invoice_rendered Hurl eq_refl Hty Hk).
Defined.

(** *** What holds however the handlers overlap *)

Lemma updates_keep_bind {A B} P (m : Concurrent.Task A)
    (k : A -> Concurrent.Task B) :
  updates_keep P m ->
  (forall a, updates_keep P (k a)) ->
  updates_keep P (Concurrent.bind m k).
Proof.
  intros Hm Hk.
  induction m as [a|e|f m IH|m IH]; cbn [Concurrent.bind updates_keep] in *.
  - apply Hk.
  - exact I.
  - split; [apply Hm | apply IH, Hm].
  - apply IH, Hm.
Qed.

Lemma updates_keep_call {A} P (c : Completion A) :
  updates_keep P (Concurrent.call c).
Proof. now destruct c. Qed.

Lemma updates_keep_await {A} P (p : Promise A) :
  updates_keep P (Concurrent.await p).
Proof. now destruct p. Qed.

Lemma updates_keep_try_catch {A} P (body : Concurrent.Task A) handler :
  updates_keep P body ->
  (forall e, updates_keep P (handler e)) ->
  updates_keep P (Concurrent.try_catch body handler).
Proof.
  intros Hb Hh.
  induction body as [a|e|f body IH|body IH];
    cbn [Concurrent.try_catch updates_keep] in *.
  - exact I.
  - apply Hh.
  - split; [apply Hb | apply IH, Hb].
  - apply IH, Hb.
Qed.

Lemma updates_keep_try_finally {A} P (body : Concurrent.Task A) finalizer :
  updates_keep P body ->
  updates_keep P finalizer ->
  updates_keep P (Concurrent.try_finally body finalizer).
Proof.
  intros Hb Hf.
  induction body as [a|e|f body IH|body IH];
    cbn [Concurrent.try_finally updates_keep] in *.
  - now apply updates_keep_bind.
  - now apply updates_keep_bind.
  - split; [apply Hb | apply IH, Hb].
  - apply IH, Hb.
Qed.

(** The handler of the file input keeps every property of the state that
    its setters keep. *)
Lemma handleFileChange_updates P browser event :
  (forall v st, P st -> P (setRenderedImage v st)) ->
  (forall v st, P st -> P (setPdfName v st)) ->
  (forall v st, P st -> P (setIsRendering v st)) ->
  (forall v st, P st -> P (setRenderError v st)) ->
  (forall v st, P st -> P (setPageCount v st)) ->
  (forall st, P st -> P (setZoomLevel (fun _ => decimal 10 1) st)) ->
  updates_keep P (Concurrent.handleFileChange browser event).
Proof.
  intros Himage Hname Hrendering Herror Hcount Hzoom.
  assert (Hset : forall f, (forall st, P st -> P (f st)) ->
                           updates_keep P (Concurrent.set f)).
  { intros f Hf. split; [exact Hf | exact I]. }
  unfold Concurrent.handleFileChange.
  destruct (selectedFile event) as [file|]; [|exact I].
  destruct (negb (String.eqb (type file) pdf_mime)).
  - repeat (apply updates_keep_bind; [apply Hset; auto | intros _]).
    exact I.
  - repeat (apply updates_keep_bind; [apply Hset; auto | intros _]).
    apply updates_keep_try_finally; [|apply Hset; auto].
    apply updates_keep_try_catch.
    + unfold Concurrent.renderPipeline.
      repeat first
        [ apply updates_keep_bind;
          [ first [ apply updates_keep_await | apply updates_keep_call
                  | apply Hset; auto
                  | now destruct (getContext browser) ]
          | intros ? ]
        | apply Hset; auto ].
    + intros e. unfold Concurrent.renderFailed.
      repeat (apply updates_keep_bind; [apply Hset; auto | intros _]).
      apply Hset; auto.
Qed.

Lemma advance_keeps P (t : Concurrent.Task unit) :
  forall st,
    P st ->
    updates_keep P t ->
    P (fst (Concurrent.advance t st)) /\
    match snd (Concurrent.advance t st) with
    | Some k => updates_keep P k
    | None => True
    end.
Proof.
  induction t as [a|e|f t IH|t IH]; intros st Hst Ht;
    cbn [Concurrent.advance fst snd updates_keep] in *.
  - now split.
  - now split.
  - apply IH; [now apply Ht | apply Ht].
  - now split.
Qed.

Lemma Forall_firstn_skipn {A} (P : A -> Prop) n :
  forall l, Forall P l -> Forall P (firstn n l) /\ Forall P (skipn n l).
Proof.
  induction n as [|n IH]; intros l H.
  - split; [constructor | exact H].
  - destruct l as [|x l]; [split; constructor|].
    inversion H as [|? ? Hx Hl]; subst.
    destruct (IH l Hl) as [H1 H2].
    split; [now constructor | exact H2].
Qed.

Lemma dispatch_keeps P p e :
  (forall button st, P st -> P (Concurrent.onClick button st)) ->
  (forall browser event,
      updates_keep P (Concurrent.handleFileChange browser event)) ->
  P (Concurrent.state p) ->
  Forall (updates_keep P) (Concurrent.pending p) ->
  P (Concurrent.state (Concurrent.dispatch p e)) /\
  Forall (updates_keep P) (Concurrent.pending (Concurrent.dispatch p e)).
Proof.
  intros Hclick Hchange Hst Hpend.
  destruct e as [browser event|button|i]; cbn [Concurrent.dispatch].
  - pose proof (advance_keeps P _ _ Hst (Hchange browser event)) as [H1 H2].
    destruct (Concurrent.advance _ _) as [st' rest].
    cbn [fst snd Concurrent.state Concurrent.pending] in *.
    split; [exact H1|].
    apply Forall_app. split; [exact Hpend|].
    destruct rest; [now constructor | constructor].
  - split; [now apply Hclick | exact Hpend].
  - unfold Concurrent.resume.
    destruct (nth_error (Concurrent.pending p) i) as [t|] eqn:E;
      [|now split].
    assert (Ht : updates_keep P t).
    { rewrite Forall_forall in Hpend. apply Hpend.
      now apply nth_error_In with i. }
    pose proof (advance_keeps P _ _ Hst Ht) as [H1 H2].
    destruct (Concurrent.advance _ _) as [st' rest].
    cbn [fst snd Concurrent.state Concurrent.pending] in *.
    split; [exact H1|].
    apply Forall_app. split.
    + now apply Forall_firstn_skipn.
    + apply Forall_app. split.
      * destruct rest; [now constructor | constructor].
      * now apply Forall_firstn_skipn.
Qed.

Lemma loop_keeps P events :
  (forall button st, P st -> P (Concurrent.onClick button st)) ->
  (forall browser event,
      updates_keep P (Concurrent.handleFileChange browser event)) ->
  forall p,
    P (Concurrent.state p) ->
    Forall (updates_keep P) (Concurrent.pending p) ->
    P (Concurrent.state (Concurrent.loop events p)).
Proof.
  intros Hclick Hchange.
  induction events as [|e events IH]; intros p Hst Hpend; [exact Hst|].
  cbn [Concurrent.loop fold_left].
  destruct (dispatch_keeps P p e Hclick Hchange Hst Hpend) as [H1 H2].
  now apply IH.
Qed.

(** X25.  However file selections, zoom clicks and the settling of
    promises follow each other, with any number of handlers suspended at
    the same time, the zoom level of the page is one of the eleven
    levels 0.80, 0.90, ..., 1.80, and so within 0.8 and 1.8. *)
Theorem zoom_within_bounds_when_handlers_overlap events :
  let z := zoomLevel (Concurrent.state (Concurrent.loop events initialPage)) in
  In z zoomLevels /\
  leb (decimal 8 1) z = true /\ leb z (decimal 18 1) = true.
Proof.
  intros z.
  assert (H : In z zoomLevels).
  { apply (loop_keeps (fun st => In (zoomLevel st) zoomLevels)).
    - intros [] st Hst; cbn [Concurrent.onClick].
      + exact (proj2 (zoomLevels_closed _ Hst)).
      + apply one_isZoomLevel.
      + exact (proj1 (zoomLevels_closed _ Hst)).
    - intros browser event.
      apply handleFileChange_updates; try (intros v st Hst; exact Hst).
      intros st _. apply one_isZoomLevel.
    - apply one_isZoomLevel.
    - constructor. }
  split; [exact H | now apply zoomLevels_bounded].
Qed.

Lemma advance_try_finally (body : Concurrent.Task unit) f :
  forall st,
    Concurrent.advance
      (Concurrent.try_finally body (Concurrent.set f)) st
    = match Concurrent.advance body st with
      | (st', Some k) =>
          (st', Some (Concurrent.try_finally k (Concurrent.set f)))
      | (st', None) => (f st', None)
      end.
Proof.
  induction body as [a|e|g body IH|body IH]; intros st;
    cbn [Concurrent.try_finally Concurrent.bind Concurrent.set
         Concurrent.advance];
    try reflexivity.
  apply IH.
Qed.

Lemma onClick_isRendering button st :
  isRendering (Concurrent.onClick button st) = isRendering st.
Proof. now destruct button. Qed.

Lemma dispatch_idle p e :
  Forall Clearing (Concurrent.pending p) ->
  (Concurrent.pending p = [] -> isRendering (Concurrent.state p) = false) ->
  Forall Clearing (Concurrent.pending (Concurrent.dispatch p e)) /\
  (Concurrent.pending (Concurrent.dispatch p e) = [] ->
   isRendering (Concurrent.state (Concurrent.dispatch p e)) = false).
Proof.
  intros Hpend Hidle.
  destruct e as [browser event|button|i]; cbn [Concurrent.dispatch].
  - unfold Concurrent.handleFileChange.
    destruct (selectedFile event) as [file|].
    + destruct (negb (String.eqb (type file) pdf_mime)).
      * cbn [Concurrent.bind Concurrent.set Concurrent.ret
             Concurrent.advance Concurrent.state Concurrent.pending].
        rewrite List.app_nil_r. split; [exact Hpend|exact Hidle].
      * cbn [Concurrent.bind Concurrent.set Concurrent.advance].
        unfold Concurrent.try_catch_finally.
        rewrite advance_try_finally.
        destruct (Concurrent.advance _ _) as [st' [k|]];
          cbn [Concurrent.state Concurrent.pending].
        -- split.
           ++ apply Forall_app. split; [exact Hpend|].
              constructor; [now exists k | constructor].
           ++ intros E. now apply app_eq_nil in E as [_ E].
        -- rewrite List.app_nil_r. split; [exact Hpend | reflexivity].
    + cbn [Concurrent.ret Concurrent.advance Concurrent.state
           Concurrent.pending].
      rewrite List.app_nil_r. split; [exact Hpend|exact Hidle].
  - cbn [Concurrent.state Concurrent.pending].
    split; [exact Hpend|]. intros E. rewrite onClick_isRendering. auto.
  - unfold Concurrent.resume.
    destruct (nth_error (Concurrent.pending p) i) as [t|] eqn:E;
      [|now split].
    assert (Ht : Clearing t).
    { rewrite Forall_forall in Hpend. apply Hpend.
      now apply nth_error_In with i. }
    destruct Ht as [body ->]. rewrite advance_try_finally.
    destruct (Forall_firstn_skipn Clearing i _ Hpend) as [H1 _].
    destruct (Forall_firstn_skipn Clearing (S i) _ Hpend) as [_ H2].
    destruct (Concurrent.advance body _) as [st' [k|]];
      cbn [Concurrent.state Concurrent.pending].
    + split.
      * apply Forall_app. split; [exact H1|].
        apply Forall_app. split; [|exact H2].
        constructor; [now exists k | constructor].
      * intros E'. apply app_eq_nil in E' as [_ E'].
        cbn [List.app] in E'. discriminate E'.
    + split; [|reflexivity].
      apply Forall_app. split; [exact H1 | exact H2].
Qed.

(** X26.  However file selections, zoom clicks and the settling of
    promises follow each other, whenever no handler is suspended the
    rendering flag is false: every handler that set it has gone through
    its [finally] block. *)
Theorem idle_page_is_not_rendering events :
  let p := Concurrent.loop events initialPage in
  Concurrent.pending p = [] ->
  isRendering (Concurrent.state p) = false.
Proof.
  intros p.
  assert (H : Forall Clearing (Concurrent.pending p) /\
              (Concurrent.pending p = [] ->
               isRendering (Concurrent.state p) = false)).
  { subst p.
    assert (H0 : Forall Clearing (Concurrent.pending initialPage) /\
                 (Concurrent.pending initialPage = [] ->
                  isRendering (Concurrent.state initialPage) = false))
      by (split; [constructor | reflexivity]).
    revert H0. generalize initialPage.
    induction events as [|e events IH]; intros q H0; [exact H0|].
    cbn [Concurrent.loop fold_left]. apply IH.
    destruct H0 as [H1 H2]. now apply dispatch_idle. }
  apply H.
Qed.

Lemma idle_page_is_not_rendering_witness :
  let p :=
    Concurrent.loop
      [Concurrent.Change sampleBrowser (select invoicePdf);
       Concurrent.Settle 0;
       Concurrent.Change sampleBrowser (select reportPdf);
       Concurrent.Settle 1; Concurrent.Settle 1; Concurrent.Settle 1;
       Concurrent.Settle 1; Concurrent.Settle 1;
       Concurrent.Settle 0; Concurrent.Settle 0; Concurrent.Settle 0;
       Concurrent.Settle 0]
      initialPage in
  Concurrent.pending p = [] /\ isRendering (Concurrent.state p) = false.
Proof.
  split; [reflexivity|].
  apply (idle_page_is_not_rendering
           [Concurrent.Change sampleBrowser (select invoicePdf);
            Concurrent.Settle 0;
            Concurrent.Change sampleBrowser (select reportPdf);
            Concurrent.Settle 1; Concurrent.Settle 1; Concurrent.Settle 1;
            Concurrent.Settle 1; Concurrent.Settle 1;
            Concurrent.Settle 0; Concurrent.Settle 0; Concurrent.Settle 0;
            Concurrent.Settle 0]).
  reflexivity.
Defined.

(** *** Sessions without overlap *)

(** X27.  A session in which the handlers do not overlap is a course of
    the event loop: with each file selection followed by the settling
    of its five promises, the loop ends with no handler pending and in
    the state that the actions give when run one after the other. *)
Theorem sequential_session_on_the_event_loop actions :
  forall st,
    Concurrent.loop (flat_map eventsOf actions)
      {| Concurrent.state := st; Concurrent.pending := [] |}
    = {| Concurrent.state := run actions st; Concurrent.pending := [] |}.
Proof.
  induction actions as [|a actions IH]; intros st; [reflexivity|].
  cbn [flat_map]. unfold Concurrent.loop. rewrite fold_left_app.
  fold (Concurrent.loop (eventsOf a)
          {| Concurrent.state := st; Concurrent.pending := [] |}).
  assert (E : Concurrent.loop (eventsOf a)
                {| Concurrent.state := st; Concurrent.pending := [] |}
              = {| Concurrent.state := step st a;
                   Concurrent.pending := [] |}).
  { destruct a as [| | |browser event]; try reflexivity.
    apply change_settled. lia. }
  rewrite E. apply IH.
Qed.

(** ** Memoised values *)

Lemma same_number_eq x y : same_number x y = true <-> x = y.
Proof. exact (number_eqb_eq x y). Qed.

Lemma same_option_eq {A} (same : A -> A -> bool) :
  (forall a b, same a b = true <-> a = b) ->
  forall x y, same_option same x y = true <-> x = y.
Proof.
  intros H [a|] [b|]; cbn [same_option]; split; intros E;
    try discriminate; try reflexivity.
  - apply H in E. now subst.
  - injection E as ->. now apply H.
Qed.

Lemma instructions_deps st st' :
  pageCount st = pageCount st' ->
  pdfName st = pdfName st' ->
  instructions st = instructions st'.
Proof. unfold instructions. now intros -> ->. Qed.

Lemma zoomLabel_deps st st' :
  zoomLevel st = zoomLevel st' -> zoomLabel st = zoomLabel st'.
Proof. unfold zoomLabel. now intros ->. Qed.

Lemma renderMemos_valid st memos :
  MemosValid memos ->
  let '(text, label, memos') := renderMemos st memos in
  text = instructions st /\ label = zoomLabel st /\ MemosValid memos'.
Proof.
  intros [V1 V2]. unfold renderMemos, useMemo.
  assert (I : (let '(text, m1) :=
                 match instructionsMemo memos with
                 | Some (deps', value) =>
                     if (let '(count, name) := (pageCount st, pdfName st) in
                         fun '(count', name') =>
                           same_option Z.eqb count count' &&
                           same_option String.eqb name name') deps'
                     then (value, instructionsMemo memos)
                     else (instructions st,
                           Some ((pageCount st, pdfName st), instructions st))
                 | None =>
                     (instructions st,
                      Some ((pageCount st, pdfName st), instructions st))
                 end in
               text = instructions st /\
               match m1 with
               | Some ((count, name), value) =>
                   forall st', pageCount st' = count -> pdfName st' = name ->
                               instructions st' = value
               | None => True
               end)).
  { destruct (instructionsMemo memos) as [[[count name] value]|].
    - destruct (same_option Z.eqb (pageCount st) count &&
                same_option String.eqb (pdfName st) name) eqn:E.
      + apply andb_prop in E as [E1 E2].
        apply (same_option_eq Z.eqb Z.eqb_eq) in E1.
        apply (same_option_eq String.eqb String.eqb_eq) in E2.
        split; [symmetry; now apply V1 | exact V1].
      + split; [reflexivity|]. intros st'. apply instructions_deps.
    - split; [reflexivity|]. intros st'. apply instructions_deps. }
  assert (L : (let '(label, m2) :=
                 match zoomLabelMemo memos with
                 | Some (deps', value) =>
                     if same_number (zoomLevel st) deps'
                     then (value, zoomLabelMemo memos)
                     else (zoomLabel st, Some (zoomLevel st, zoomLabel st))
                 | None => (zoomLabel st, Some (zoomLevel st, zoomLabel st))
                 end in
               label = zoomLabel st /\
               match m2 with
               | Some (zoom, value) =>
                   forall st', zoomLevel st' = zoom -> zoomLabel st' = value
               | None => True
               end)).
  { destruct (zoomLabelMemo memos) as [[zoom value]|].
    - destruct (same_number (zoomLevel st) zoom) eqn:E.
      + apply same_number_eq in E.
        split; [symmetry; now apply V2 | exact V2].
      + split; [reflexivity|]. intros st'. apply zoomLabel_deps.
    - split; [reflexivity|]. intros st'. apply zoomLabel_deps. }
  cbv zeta in *.
  destruct (match instructionsMemo memos with
            | Some p => _ | None => _ end) as [text m1].
  destruct (match zoomLabelMemo memos with
            | Some p => _ | None => _ end) as [label m2].
  destruct I as [I1 I2], L as [L1 L2].
  split; [exact I1|]. split; [exact L1|]. split; [exact I2 | exact L2].
Qed.

(** X28.  The dependency lists of the two [useMemo] calls are complete:
    over any sequence of renders, starting with nothing stored, the
    instructions and the zoom label that a render uses are those
    computed from the state of that render, never values stored at an
    earlier render for another file name, page count or zoom level. *)
Theorem memoised_texts_are_current renders :
  rendered_texts renders noMemos
  = map (fun st => (instructions st, zoomLabel st)) renders.
Proof.
  assert (V : MemosValid noMemos) by (split; exact I).
  revert V. generalize noMemos.
  induction renders as [|st renders IH]; intros memos V; [reflexivity|].
  cbn [rendered_texts map].
  pose proof (renderMemos_valid st memos V) as H.
  destruct (renderMemos st memos) as [[text label] memos'].
  destruct H as (-> & -> & V').
  now rewrite (IH memos' V').
Qed.
